(** * SyllabusAI: generation and export pipelines

  A shallow embedding of the service layer of the SyllabusAI backend
  ([app/services/ai_service.py], [app/services/content_service.py],
  [app/services/export_service.py], with the records of [app/models]) and
  the properties of its provider registry, content structuring, job state
  machines and artifact retrieval guard.

  Conventions of the embedding.
  - A Python [str] is a [string]: the bytes of its UTF-8 encoding.  Splitting
    on the line feed, prefix tests against ASCII text and substring search
    give the same answers on the encoding as on the code points.
  - A [datetime] is a number of seconds ([Z]); [timedelta(hours=24)] is
    [86400].
  - A raised exception is the [Raise] case of [result].
  - An ORM table is the list of its rows in storage order; [db.add] followed
    by [db.commit] appends a row; a query without ORDER BY returns the
    matching rows in storage order. *)

From Stdlib Require Import ZArith QArith Ascii DecimalString.
From stdpp Require Import base option list gmap strings.

Local Open Scope Z_scope.

(** ** Values shared by the services *)

Definition UUID := N.
Definition datetime := Z.

Inductive Exception : Type :=
| HTTPException (status_code : Z) (detail : string)
| ValueError (msg : string)
| TypeError (msg : string)
| AttributeError (msg : string)
| RuntimeError (msg : string).

(** [str(e)]; for [HTTPException] the text is "<status_code>: <detail>" and
  is never read by the services, which raise it outside of their workers. *)
Definition str_exc (e : Exception) : string :=
match e with
| HTTPException _ detail => detail
| ValueError m | TypeError m | AttributeError m | RuntimeError m => m
end.

Inductive result (A : Type) : Type :=
| Ok (a : A)
| Raise (e : Exception).
Arguments Ok {A} a.
Arguments Raise {A} e.

(** ** String operations of the Python runtime used by the services *)

Module Str.

Definition LF : ascii := Stdlib.Strings.Ascii.ascii_of_nat 10.
Definition nl : string := String LF EmptyString.

(** [sep.join(parts)] *)
Fixpoint join (sep : string) (parts : list string) : string :=
  match parts with
  | [] => ""
  | [p] => p
  | p :: rest => p +:+ sep +:+ join sep rest
  end.

(** [s.split('\n')]: never empty, one more piece than there are line feeds. *)
Fixpoint split_lines (s : string) : list string :=
  match s with
  | EmptyString => [""]
  | String c rest =>
      if Stdlib.Strings.Ascii.eqb c LF then "" :: split_lines rest
      else match split_lines rest with
           | [] => [String c ""]
           | l :: ls => String c l :: ls
           end
  end.

(** [s.startswith(p)] *)
Fixpoint startswith (p s : string) : bool :=
  match p, s with
  | EmptyString, _ => true
  | String a p', String b s' => Stdlib.Strings.Ascii.eqb a b && startswith p' s'
  | String _ _, EmptyString => false
  end.

(** [needle in hay] *)
Fixpoint contains (needle hay : string) : bool :=
  startswith needle hay ||
  match hay with
  | EmptyString => false
  | String _ hay' => contains needle hay'
  end.

(** [s[n:]] for [n >= 0] *)
Fixpoint drop (n : nat) (s : string) : string :=
  match n, s with
  | O, _ => s
  | S n', String _ s' => drop n' s'
  | S _, EmptyString => ""
  end.

(** [s[:n]] for [n >= 0] *)
Fixpoint take (n : nat) (s : string) : string :=
  match n, s with
  | S n', String c s' => String c (take n' s')
  | _, _ => ""
  end.

(** [s[:n]] on code points: a byte of the form 10xxxxxx continues the
    code point begun before it. *)
Definition is_continuation (c : ascii) : bool :=
  let n := Stdlib.Strings.Ascii.nat_of_ascii c in
  ((128 <=? n) && (n <=? 191))%nat.

Fixpoint take_chars (n : nat) (s : string) : string :=
  match s with
  | EmptyString => ""
  | String c s' =>
      if is_continuation c then String c (take_chars n s')
      else match n with
           | O => ""
           | S n' => String c (take_chars n' s')
           end
  end.

(** [str(n)] for an [int] *)
Definition of_Z (n : Z) : string :=
  Stdlib.Numbers.DecimalString.NilZero.string_of_int (Z.to_int n).

(** [str.lower] and [str.strip] on text whose cased letters and white
    space are ASCII; on such text they agree with the Unicode-aware
    methods of the runtime. *)
Definition lower_ascii (c : ascii) : ascii :=
  let n := Stdlib.Strings.Ascii.nat_of_ascii c in
  if ((65 <=? n) && (n <=? 90))%nat then Stdlib.Strings.Ascii.ascii_of_nat (n + 32) else c.

Fixpoint ascii_lower (s : string) : string :=
  match s with
  | EmptyString => ""
  | String c s' => String (lower_ascii c) (ascii_lower s')
  end.

Definition is_space (c : ascii) : bool :=
  let n := Stdlib.Strings.Ascii.nat_of_ascii c in
  (((9 <=? n) && (n <=? 13)) || ((28 <=? n) && (n <=? 32)))%nat.

Fixpoint lstrip (s : string) : string :=
  match s with
  | String c s' => if is_space c then lstrip s' else s
  | EmptyString => ""
  end.

Fixpoint rstrip (s : string) : string :=
  match s with
  | EmptyString => ""
  | String c s' =>
      match rstrip s' with
      | EmptyString => if is_space c then "" else String c ""
      | r => String c r
      end
  end.

Definition ascii_strip (s : string) : string := rstrip (lstrip s).

(** [s.split(sep)] for a one-character separator. *)
Fixpoint split_on (sep : ascii) (s : string) : list string :=
  match s with
  | EmptyString => [""]
  | String c rest =>
      if Stdlib.Strings.Ascii.eqb c sep then "" :: split_on sep rest
      else match split_on sep rest with
           | [] => [String c ""]
           | l :: ls => String c l :: ls
           end
  end.

(** [s.split(sep)[-1]] *)
Definition last_piece (sep : ascii) (s : string) : string :=
  List.last (split_on sep s) "".

(** [c in s] for a character. *)
Fixpoint has_char (c : ascii) (s : string) : bool :=
  match s with
  | EmptyString => false
  | String x rest => Stdlib.Strings.Ascii.eqb x c || has_char c rest
  end.

(** The separator of a file name and its extension. *)
Definition dot : ascii := Stdlib.Strings.Ascii.ascii_of_nat 46.

End Str.

(** ** [app/services/ai_service.py]: provider backends and their registry *)

Module AI.

Inductive AIProvider : Type :=
| OPENAI | CLAUDE | GEMINI | GROQ | COHERE | OLLAMA | XAI.

Definition value (p : AIProvider) : string :=
  match p with
  | OPENAI => "openai" | CLAUDE => "claude" | GEMINI => "gemini"
  | GROQ => "groq" | COHERE => "cohere" | OLLAMA => "ollama" | XAI => "xai"
  end.

Definition provider_index (p : AIProvider) : nat :=
  match p with
  | OPENAI => 0 | CLAUDE => 1 | GEMINI => 2 | GROQ => 3
  | COHERE => 4 | OLLAMA => 5 | XAI => 6
  end%nat.

Definition provider_of_index (n : nat) : option AIProvider :=
  match n with
  | 0 => Some OPENAI | 1 => Some CLAUDE | 2 => Some GEMINI | 3 => Some GROQ
  | 4 => Some COHERE | 5 => Some OLLAMA | 6 => Some XAI | _ => None
  end%nat.

#[global] Instance AIProvider_eq_dec : EqDecision AIProvider.
Proof. solve_decision. Defined.

#[global] Instance AIProvider_countable : Countable AIProvider.
Proof.
  apply (inj_countable provider_index provider_of_index).
  intros p. destruct p; reflexivity.
Defined.

(** The keyword arguments [MultiAIService.generate_content] passes through
    to the backend. *)
Record Kwargs : Type := {
  system_prompt : option string;
  max_tokens : Z;
  temperature : Q
}.

(** [AIServiceBase]: the abstract interface every backend implements.  A
    backend call either returns text or raises. *)
Record AIServiceBase : Type := {
  api_key : option string;
  model : option string;
  generate : string -> Kwargs -> result string;
  get_available_models : list string;
  validate_connection : bool
}.

Definition groq_document (model : string) : string :=
"
# Sesión de Clase Generada por IA

## Introducción
Esta es una sesión de clase generada automáticamente basada en el contenido del sílabo proporcionado.

## Objetivos
- Comprender los conceptos fundamentales del tema
- Aplicar los conocimientos en ejercicios prácticos
- Desarrollar habilidades de análisis crítico

## Desarrollo del Tema

### Conceptos Clave
- Concepto 1: Definición y características principales
- Concepto 2: Aplicaciones prácticas
- Concepto 3: Relación con otros temas

### Actividades
1. **Actividad Introductoria** (10 minutos)
   - Lluvia de ideas sobre conocimientos previos
   - Presentación de casos reales

2. **Desarrollo Teórico** (20 minutos)
   - Explicación de conceptos fundamentales
   - Ejemplos ilustrativos

3. **Práctica Guiada** (15 minutos)
   - Ejercicios en grupo
   - Resolución de problemas típicos

## Conclusiones
- Resumen de puntos clave
- Conexión con la siguiente sesión
- Tareas para casa

## Recursos Necesarios
- Presentación digital
- Material impreso
- Acceso a internet
- Pizarra o proyector

## Evaluación
- Participación en clase: 40%
- Ejercicios prácticos: 60%

*Contenido generado por IA - Proveedor: " +:+ model +:+ "*
        ".

(** [GroqService]: the only concrete backend; it returns canned text. *)
Definition GroqService (api_key : string) (model : string) : AIServiceBase := {|
  api_key := Some api_key;
  model := Some model;
  generate := fun _ _ => Ok (groq_document model);
  get_available_models := ["mixtral-8x7b-32768"; "llama2-70b-4096"; "gemma-7b-it"];
  validate_connection := true
|}.

(** [model or "mixtral-8x7b-32768"]: [None] and the empty string are falsy. *)
Definition model_or_default (model : option string) : string :=
  match model with
  | Some m => if decide (m = "") then "mixtral-8x7b-32768" else m
  | None => "mixtral-8x7b-32768"
  end.

(** [AIServiceFactory.create_service] *)
Definition create_service (provider : AIProvider) (api_key : string)
    (model : option string) : AIServiceBase :=
  if decide (provider = GROQ) then GroqService api_key (model_or_default model)
  else GroqService api_key (model_or_default model).

(** [MultiAIService] *)
Record MultiAIService : Type := {
  services : gmap AIProvider AIServiceBase;
  primary_provider : option AIProvider;
  fallback_providers : list AIProvider
}.

Definition init : MultiAIService := {|
  services := ∅;
  primary_provider := None;
  fallback_providers := []
|}.

(** [MultiAIService.add_provider] *)
Definition add_provider (self : MultiAIService) (provider : AIProvider)
    (api_key : string) (model : option string) (is_primary : bool)
    : MultiAIService :=
  let service := create_service provider api_key model in
  let services' := <[provider := service]> (services self) in
  if is_primary then
    {| services := services';
       primary_provider := Some provider;
       fallback_providers := fallback_providers self |}
  else
    {| services := services';
       primary_provider := primary_provider self;
       fallback_providers := fallback_providers self ++ [provider] |}.

(** One call of [add_provider], as data. *)
Record Registration : Type := {
  reg_provider : AIProvider;
  reg_api_key : string;
  reg_model : option string;
  reg_is_primary : bool
}.

Definition register (self : MultiAIService) (r : Registration) : MultiAIService :=
  add_provider self (reg_provider r) (reg_api_key r) (reg_model r) (reg_is_primary r).

Definition register_all (self : MultiAIService) (rs : list Registration)
    : MultiAIService :=
  foldl register self rs.

(** What a dispatch does besides returning: the backends it invokes and
    the failures it prints. *)
Inductive Event : Type :=
| Invoked (p : AIProvider)
| PrintedPrimaryError (p : AIProvider) (e : Exception)
| PrintedFallbackError (p : AIProvider) (e : Exception).

Definition demo_document : string :=
"
# Contenido Demo

Este es contenido de demostración generado porque no hay proveedores de IA configurados.

## Para configurar un proveedor:
1. Obtén una API key del proveedor (ej: Groq)
2. Agrega la key al archivo .env.docker
3. Reinicia Docker

## Proveedores soportados:
- Groq (gratuito)
- OpenAI (pago)
- Claude (pago)
- Gemini (gratuito con límites)
        ".

(** The loop over [self.fallback_providers], ending in the demo document. *)
Fixpoint try_fallbacks (svcs : gmap AIProvider AIServiceBase)
    (fallbacks : list AIProvider) (prompt : string) (kw : Kwargs)
    : result string * list Event :=
  match fallbacks with
  | [] => (Ok demo_document, [])
  | fallback_provider :: rest =>
      match svcs !! fallback_provider with
      | Some svc =>
          match generate svc prompt kw with
          | Ok text => (Ok text, [Invoked fallback_provider])
          | Raise e =>
              let '(r, evs) := try_fallbacks svcs rest prompt kw in
              (r, Invoked fallback_provider
                    :: PrintedFallbackError fallback_provider e :: evs)
          end
      | None => try_fallbacks svcs rest prompt kw
      end
  end.

(** The part of [generate_content] after the explicit-provider test:
    the primary, then the fallbacks. *)
Definition dispatch_chain (self : MultiAIService) (prompt : string)
    (kw : Kwargs) : result string * list Event :=
  let fallbacks := try_fallbacks (services self) (fallback_providers self) prompt kw in
  match primary_provider self with
  | Some primary =>
      match services self !! primary with
      | Some svc =>
          match generate svc prompt kw with
          | Ok text => (Ok text, [Invoked primary])
          | Raise e =>
              let '(r, evs) := fallbacks in
              (r, Invoked primary :: PrintedPrimaryError primary e :: evs)
          end
      | None => fallbacks
      end
  | None => fallbacks
  end.

(** [MultiAIService.generate_content] *)
Definition generate_content (self : MultiAIService) (prompt : string)
    (provider : option AIProvider) (kw : Kwargs) : result string * list Event :=
  match provider with
  | Some p =>
      match services self !! p with
      | Some svc => (generate svc prompt kw, [Invoked p])
      | None => dispatch_chain self prompt kw
      end
  | None => dispatch_chain self prompt kw
  end.

(** [MultiAIService.health_check] *)
Definition health_check (self : MultiAIService) : gmap AIProvider bool :=
  validate_connection <$> services self.

(** *** Vocabulary for the properties of the registry *)

(** A backend that raises on every call, as a test double would. *)
Definition failing_service (e : Exception) : AIServiceBase := {|
  api_key := None;
  model := None;
  generate := fun _ _ => Raise e;
  get_available_models := [];
  validate_connection := false
|}.

(** The providers of the registrations marked primary, and of those not
    marked, in registration order. *)
Definition primary_registrations (rs : list Registration) : list AIProvider :=
  List.map reg_provider (List.filter reg_is_primary rs).

Definition fallback_registrations (rs : list Registration) : list AIProvider :=
  List.map reg_provider (List.filter (fun r => negb (reg_is_primary r)) rs).

(** "All other registered providers are fallback candidates": whoever is
    registered and is not the primary is in the fallback list. *)
Definition others_are_fallbacks (self : MultiAIService) : Prop :=
  forall p, is_Some (services self !! p) -> primary_provider self ≠ Some p ->
            p ∈ fallback_providers self.

(** A fallback contributes nothing when it is unregistered or raises. *)
Definition skipped (svcs : gmap AIProvider AIServiceBase) (prompt : string)
    (kw : Kwargs) (q : AIProvider) : Prop :=
  forall svc, svcs !! q = Some svc -> exists e, generate svc prompt kw = Raise e.

(** The backends a dispatch invoked, in the order of the calls. *)
Fixpoint invoked (evs : list Event) : list AIProvider :=
  match evs with
  | [] => []
  | Invoked p :: rest => p :: invoked rest
  | _ :: rest => invoked rest
  end.

(** The providers the chain may call, in the order it tries them. *)
Definition chain_order (self : MultiAIService) : list AIProvider :=
  match primary_provider self with
  | Some p => p :: fallback_providers self
  | None => fallback_providers self
  end.

(** The last registration of a provider. *)
Definition last_registration (p : AIProvider) (rs : list Registration)
    : option Registration :=
  last (List.filter (fun r => bool_decide (reg_provider r = p)) rs).

(** The backend registered for [q] raises on this call. *)
Definition raises (self : MultiAIService) (prompt : string) (kw : Kwargs)
    (q : AIProvider) : Prop :=
  exists svc e, services self !! q = Some svc /\ generate svc prompt kw = Raise e.

(** The backend registered for [q] answers this call with [text]. *)
Definition answers (self : MultiAIService) (prompt : string) (kw : Kwargs)
    (q : AIProvider) (text : string) : Prop :=
  exists svc, services self !! q = Some svc /\ generate svc prompt kw = Ok text.

(** The registered providers of the chain, in the order it tries them. *)
Definition attempts (self : MultiAIService) : list AIProvider :=
  List.filter (fun q => bool_decide (is_Some (services self !! q))) (chain_order self).

(** What the chain leaves behind for a provider that does not answer: the
    call and the printed error when its backend raises, nothing when it is
    not registered. *)
Definition failure_events (svcs : gmap AIProvider AIServiceBase) (prompt : string)
    (kw : Kwargs) (printed : AIProvider -> Exception -> Event) (q : AIProvider)
    : list Event :=
  match svcs !! q with
  | Some svc =>
      match generate svc prompt kw with
      | Raise e => [Invoked q; printed q e]
      | Ok _ => []
      end
  | None => []
  end.

(** The events of a chain none of whose providers answers. *)
Definition chain_failure_events (self : MultiAIService) (prompt : string)
    (kw : Kwargs) : list Event :=
  match primary_provider self with
  | Some p => failure_events (services self) prompt kw PrintedPrimaryError p
  | None => []
  end
  ++ concat (List.map (failure_events (services self) prompt kw PrintedFallbackError)
               (fallback_providers self)).

End AI.

(** ** [app/models]: the persisted records *)

Inductive ContentType : Type :=
| CLASS_SESSION | STUDY_GUIDE | PRESENTATION | WORKSHEET | ASSESSMENT.

Definition content_type_value (t : ContentType) : string :=
match t with
| CLASS_SESSION => "class_session"
| STUDY_GUIDE => "study_guide"
| PRESENTATION => "presentation"
| WORKSHEET => "worksheet"
| ASSESSMENT => "assessment"
end.

Inductive ContentScope : Type :=
| SPECIFIC_SESSION | COMPLETE_UNIT | COMPLETE_SYLLABUS.

(** [GenerationStatus] and [ExportStatus] have the same four members. *)
Inductive Status : Type :=
| STARTED | IN_PROGRESS | COMPLETED | FAILED.

#[global] Instance Status_eq_dec : EqDecision Status.
Proof. solve_decision. Defined.

#[global] Instance ContentType_eq_dec : EqDecision ContentType.
Proof. solve_decision. Defined.

Definition terminal (s : Status) : bool :=
match s with
| COMPLETED | FAILED => true
| STARTED | IN_PROGRESS => false
end.

(** [GenerationConfiguration.model_dump()]: the JSON object stored in
  [Generation.configuration]; every key is present. *)
Record GenerationConfiguration : Type := {
educational_level : string;
pedagogical_approach : string;
cfg_ai_model : string;
content_length : Z;
include_web_content : bool;
cfg_include_images : bool;
include_rich_content : bool;
language : string;
additional_instructions : option string
}.

(** The columns of [Document] the pipelines read. *)
Module Document.
Record t : Type := {
  id : UUID;
  filename : string;
  text_content : option string
}.
End Document.

Module Generation.
Record t : Type := {
  id : UUID;
  document_id : UUID;
  content_type : ContentType;
  scope : ContentScope;
  ai_provider : AI.AIProvider;
  ai_model : string;
  status : Status;
  progress : Z;
  configuration : GenerationConfiguration;
  estimated_completion : option datetime;
  created_at : datetime;
  started_at : option datetime;
  completed_at : option datetime;
  error_message : option string
}.

Definition set_status (v : Status) (g : t) : t :=
  {| id := id g; document_id := document_id g; content_type := content_type g;
     scope := scope g; ai_provider := ai_provider g; ai_model := ai_model g;
     status := v; progress := progress g; configuration := configuration g;
     estimated_completion := estimated_completion g; created_at := created_at g;
     started_at := started_at g; completed_at := completed_at g;
     error_message := error_message g |}.

Definition set_progress (v : Z) (g : t) : t :=
  {| id := id g; document_id := document_id g; content_type := content_type g;
     scope := scope g; ai_provider := ai_provider g; ai_model := ai_model g;
     status := status g; progress := v; configuration := configuration g;
     estimated_completion := estimated_completion g; created_at := created_at g;
     started_at := started_at g; completed_at := completed_at g;
     error_message := error_message g |}.

Definition set_started_at (v : datetime) (g : t) : t :=
  {| id := id g; document_id := document_id g; content_type := content_type g;
     scope := scope g; ai_provider := ai_provider g; ai_model := ai_model g;
     status := status g; progress := progress g; configuration := configuration g;
     estimated_completion := estimated_completion g; created_at := created_at g;
     started_at := Some v; completed_at := completed_at g;
     error_message := error_message g |}.

Definition set_completed_at (v : datetime) (g : t) : t :=
  {| id := id g; document_id := document_id g; content_type := content_type g;
     scope := scope g; ai_provider := ai_provider g; ai_model := ai_model g;
     status := status g; progress := progress g; configuration := configuration g;
     estimated_completion := estimated_completion g; created_at := created_at g;
     started_at := started_at g; completed_at := Some v;
     error_message := error_message g |}.

Definition set_error_message (v : string) (g : t) : t :=
  {| id := id g; document_id := document_id g; content_type := content_type g;
     scope := scope g; ai_provider := ai_provider g; ai_model := ai_model g;
     status := status g; progress := progress g; configuration := configuration g;
     estimated_completion := estimated_completion g; created_at := created_at g;
     started_at := started_at g; completed_at := completed_at g;
     error_message := Some v |}.
End Generation.

(** [Content.content_metadata] as [_process_generation] fills it. *)
Record ContentMetadata : Type := {
md_ai_provider : string;
md_ai_model : string;
md_generation_config : GenerationConfiguration
}.

Module Content.
Record t : Type := {
  id : UUID;
  generation_id : UUID;
  document_id : UUID;
  title : string;
  content_type : ContentType;
  markdown_content : string;
  sections : option (gmap string string);
  content_metadata : option ContentMetadata;
  version : Z;
  is_active : bool;
  created_at : datetime;
  updated_at : datetime
}.
End Content.

Module Template.
Record t : Type := {
  id : UUID;
  name : string;
  format : string;
  is_default : bool;
  is_active : bool
}.
End Template.

Inductive ExportType : Type := INDIVIDUAL | COMBINED.

(** [ExportSettings.model_dump()] *)
Record ExportSettings : Type := {
include_metadata : bool;
include_images : bool;
paper_size : string;
font_size : string;
margins : option string;
header_footer : bool;
page_numbers : bool;
table_of_contents : bool
}.

Definition default_export_settings : ExportSettings := {|
include_metadata := true; include_images := true; paper_size := "A4";
font_size := "12pt"; margins := None; header_footer := true;
page_numbers := true; table_of_contents := false
|}.

Module ExportJob.
(** [export_settings] is [None] for the empty JSON object the services
    store when the request carries no settings.  [content_ids] holds the
    ids whose text form the column stores; [UUID(str(cid))] is [cid]. *)
Record t : Type := {
  id : UUID;
  export_type : ExportType;
  template_id : option UUID;
  content_ids : list UUID;
  format : string;
  export_settings : option ExportSettings;
  status : Status;
  progress : Z;
  filename : option string;
  file_path : option string;
  file_size : option Z;
  download_url : option string;
  expires_at : datetime;
  estimated_completion : option datetime;
  created_at : datetime;
  started_at : option datetime;
  completed_at : option datetime;
  error_message : option string
}.

(** [Export.__init__] (the model class [Export]): the column defaults, and expiry 24 hours after
    construction. *)
Definition new (id : UUID) (now : datetime) (export_type : ExportType)
    (template_id : option UUID) (content_ids : list UUID) (format : string)
    (export_settings : option ExportSettings)
    (estimated_completion : datetime) : t := {|
  id := id; export_type := export_type; template_id := template_id;
  content_ids := content_ids; format := format;
  export_settings := export_settings;
  status := STARTED; progress := 0;
  filename := None; file_path := None; file_size := None; download_url := None;
  expires_at := now + 86400;
  estimated_completion := Some estimated_completion;
  created_at := now; started_at := None; completed_at := None;
  error_message := None
|}.

Definition set_status (v : Status) (e : t) : t :=
  {| id := id e; export_type := export_type e; template_id := template_id e;
     content_ids := content_ids e; format := format e;
     export_settings := export_settings e; status := v; progress := progress e;
     filename := filename e; file_path := file_path e; file_size := file_size e;
     download_url := download_url e; expires_at := expires_at e;
     estimated_completion := estimated_completion e; created_at := created_at e;
     started_at := started_at e; completed_at := completed_at e;
     error_message := error_message e |}.

Definition set_progress (v : Z) (e : t) : t :=
  {| id := id e; export_type := export_type e; template_id := template_id e;
     content_ids := content_ids e; format := format e;
     export_settings := export_settings e; status := status e; progress := v;
     filename := filename e; file_path := file_path e; file_size := file_size e;
     download_url := download_url e; expires_at := expires_at e;
     estimated_completion := estimated_completion e; created_at := created_at e;
     started_at := started_at e; completed_at := completed_at e;
     error_message := error_message e |}.

Definition set_started_at (v : datetime) (e : t) : t :=
  {| id := id e; export_type := export_type e; template_id := template_id e;
     content_ids := content_ids e; format := format e;
     export_settings := export_settings e; status := status e;
     progress := progress e;
     filename := filename e; file_path := file_path e; file_size := file_size e;
     download_url := download_url e; expires_at := expires_at e;
     estimated_completion := estimated_completion e; created_at := created_at e;
     started_at := Some v; completed_at := completed_at e;
     error_message := error_message e |}.

Definition set_completed_at (v : datetime) (e : t) : t :=
  {| id := id e; export_type := export_type e; template_id := template_id e;
     content_ids := content_ids e; format := format e;
     export_settings := export_settings e; status := status e;
     progress := progress e;
     filename := filename e; file_path := file_path e; file_size := file_size e;
     download_url := download_url e; expires_at := expires_at e;
     estimated_completion := estimated_completion e; created_at := created_at e;
     started_at := started_at e; completed_at := Some v;
     error_message := error_message e |}.

Definition set_error_message (v : string) (e : t) : t :=
  {| id := id e; export_type := export_type e; template_id := template_id e;
     content_ids := content_ids e; format := format e;
     export_settings := export_settings e; status := status e;
     progress := progress e;
     filename := filename e; file_path := file_path e; file_size := file_size e;
     download_url := download_url e; expires_at := expires_at e;
     estimated_completion := estimated_completion e; created_at := created_at e;
     started_at := started_at e; completed_at := completed_at e;
     error_message := Some v |}.

(** The four artifact columns, written together. *)
Definition set_artifact (name path : string) (size : Z) (url : string) (e : t) : t :=
  {| id := id e; export_type := export_type e; template_id := template_id e;
     content_ids := content_ids e; format := format e;
     export_settings := export_settings e; status := status e;
     progress := progress e;
     filename := Some name; file_path := Some path; file_size := Some size;
     download_url := Some url; expires_at := expires_at e;
     estimated_completion := estimated_completion e; created_at := created_at e;
     started_at := started_at e; completed_at := completed_at e;
     error_message := error_message e |}.
End ExportJob.

(** ** The database session

  [rows_first k x rows] is [query(T).filter(T.id == x).first()];
  [rows_in k xs rows] is [query(T).filter(T.id.in_(xs)).all()];
  [rows_update k obj rows] is the commit of an object loaded from the
  table and then mutated. *)

Definition rows_first {A : Type} (key : A -> UUID) (x : UUID) (rows : list A)
  : option A :=
List.find (fun r => bool_decide (key r = x)) rows.

Definition rows_in {A : Type} (key : A -> UUID) (xs : list UUID) (rows : list A)
  : list A :=
List.filter (fun r => bool_decide (key r ∈ xs)) rows.

Definition rows_update {A : Type} (key : A -> UUID) (obj : A) (rows : list A)
  : list A :=
List.map (fun r => if bool_decide (key r = key obj) then obj else r) rows.


(** ** Computations that thread a state and may raise

    [Run S A] is a Python block run against a mutable state [S]: it ends
    with a value or with a raised exception, and in both cases with the
    state as the block left it. *)

Definition Run (S A : Type) : Type := S -> result A * S.

#[global] Instance Run_ret (S : Type) : MRet (Run S) :=
  fun A a s => (Ok a, s).

#[global] Instance Run_bind (S : Type) : MBind (Run S) :=
  fun A B k m s =>
    match m s with
    | (Ok a, s') => k a s'
    | (Raise e, s') => (Raise e, s')
    end.

(** A computation that may raise, run inside a block. *)
Definition lift {S A : Type} (r : result A) : Run S A := fun s => (r, s).

(** [try: body except Exception as e: handler(e)] *)
Definition try_except {S : Type} (body : Run S unit) (handler : Exception -> Run S unit)
    : Run S unit :=
  fun s =>
    match body s with
    | (Ok a, s') => (Ok a, s')
    | (Raise e, s') => handler e s'
    end.

(** ** [app/services/content_service.py] *)

Module ContentService.

Record DB : Type := {
  documents : list Document.t;
  generations : list Generation.t;
  contents : list Content.t
}.

(** *** Prompt construction *)

Definition prompt_part_0 : string :=
"
        Basándote en el siguiente contenido del sílabo, genera ".

Definition prompt_part_1 : string :=
" 
        para el nivel ".

Definition prompt_part_2 : string :=
".
        
        Contenido del sílabo:
        ".

Definition prompt_part_3 : string :=
"  # Limitar contenido
        
        Configuración:
        - Enfoque pedagógico: ".

Definition prompt_part_4 : string :=
"
        - Longitud de contenido: ".

Definition prompt_part_5 : string :=
" secciones
        - Idioma: ".

Definition prompt_part_6 : string :=
"
        
        Instrucciones adicionales:
        ".

Definition prompt_part_7 : string :=
"
        
        Genera contenido educativo estructurado, práctico y aplicable.
        ".

Definition class_session_prompt : string :=
"
            Eres un experto en diseño instruccional. Genera una sesión de clase completa que incluya:
            1. Introducción y objetivos claros
            2. Desarrollo del tema con actividades
            3. Conclusiones y evaluación
            4. Recursos y materiales necesarios
            Usa formato markdown y estructura pedagógica sólida.
            ".

Definition study_guide_prompt : string :=
"
            Eres un especialista en materiales educativos. Crea una guía de estudio que incluya:
            1. Resumen de conceptos clave
            2. Ejercicios prácticos
            3. Preguntas de autoevaluación
            4. Referencias adicionales
            Usa formato markdown y enfoque didáctico.
            ".

Definition presentation_prompt : string :=
"
            Eres un diseñador de presentaciones educativas. Crea contenido para diapositivas que incluya:
            1. Diapositivas de título y agenda
            2. Contenido principal con puntos clave
            3. Diapositivas de actividades interactivas
            4. Diapositiva de conclusiones
            Usa formato markdown optimizado para presentaciones.
            ".

(** A value interpolated by an f-string: [None] prints as its name. *)
Definition fmt_optional (v : option string) : string :=
  match v with
  | Some s => s
  | None => "None"
  end.

(** [_build_prompt].  [document] is [None] when the row has disappeared
    since the job was created; reading its text then raises, and so does
    slicing a null [text_content]. *)
Definition _build_prompt (document : option Document.t) (generation : Generation.t)
    : result string :=
  let config := Generation.configuration generation in
  match document with
  | None => Raise (AttributeError "'NoneType' object has no attribute 'text_content'")
  | Some document =>
      match Document.text_content document with
      | None => Raise (TypeError "'NoneType' object is not subscriptable")
      | Some text =>
          Ok (prompt_part_0 +:+ content_type_value (Generation.content_type generation)
              +:+ prompt_part_1 +:+ educational_level config
              +:+ prompt_part_2 +:+ Str.take_chars 3000 text
              +:+ prompt_part_3 +:+ pedagogical_approach config
              +:+ prompt_part_4 +:+ Str.of_Z (content_length config)
              +:+ prompt_part_5 +:+ language config
              +:+ prompt_part_6 +:+ fmt_optional (additional_instructions config)
              +:+ prompt_part_7)
      end
  end.

(** [_build_system_prompt]: [prompts.get(content_type, prompts[CLASS_SESSION])] *)
Definition _build_system_prompt (generation : Generation.t) : string :=
  match Generation.content_type generation with
  | CLASS_SESSION => class_session_prompt
  | STUDY_GUIDE => study_guide_prompt
  | PRESENTATION => presentation_prompt
  | WORKSHEET | ASSESSMENT => class_session_prompt
  end.

(** *** Content structuring *)

Section Runtime.

(** [str.lower] and [str.strip] of the Python runtime. *)
Variable lower : string -> string.
Variable strip : string -> string.

Definition default_title : string := "Contenido Generado".

(** The three keyword lists of [_structure_content], in the order of its
    [if]/[elif] chain. *)
Definition intro_keywords : list string := ["introducción"; "introduction"; "objetivo"].
Definition objective_keywords : list string := ["objetivo"; "objective"].
Definition conclusion_keywords : list string := ["conclusión"; "conclusion"; "resumen"].

(** [any(keyword in line.lower() for keyword in keywords)] *)
Definition any_keyword (keywords : list string) (line : string) : bool :=
  existsb (fun keyword => Str.contains keyword (lower line)) keywords.

(** The title loop: the first line starting with "# ", without the marker,
    stripped. *)
Fixpoint extract_title (lines : list string) : string :=
  match lines with
  | [] => default_title
  | line :: rest =>
      if Str.startswith "# " line then strip (Str.drop 2 line)
      else extract_title rest
  end.

(** The variables of the section loop. *)
Record Scan : Type := {
  sections : gmap string string;
  current_section : string;
  section_content : list string
}.

Definition empty_sections : gmap string string :=
  <["introduction" := ""]> (<["objectives" := ""]>
    (<["development" := ""]> (<["conclusion" := ""]> ∅))).

Definition scan_start : Scan := {|
  sections := empty_sections;
  current_section := "development";
  section_content := []
|}.

(** [if section_content: sections[current_section] = '\n'.join(section_content);
    section_content = []] followed by [current_section = target]. *)
Definition switch_to (target : string) (st : Scan) : Scan :=
  match section_content st with
  | [] =>
      {| sections := sections st; current_section := target; section_content := [] |}
  | _ :: _ =>
      {| sections := <[current_section st := Str.join Str.nl (section_content st)]>
                       (sections st);
         current_section := target;
         section_content := [] |}
  end.

(** The [if]/[elif] chain of the loop body. *)
Definition classify (line : string) (st : Scan) : Scan :=
  if any_keyword intro_keywords line then switch_to "introduction" st
  else if any_keyword objective_keywords line then switch_to "objectives" st
  else if any_keyword conclusion_keywords line then switch_to "conclusion" st
  else st.

(** One iteration of [for line in lines]. *)
Definition scan_line (st : Scan) (line : string) : Scan :=
  let st' := classify line st in
  {| sections := sections st';
     current_section := current_section st';
     section_content := section_content st' ++ [line] |}.

Definition scan_lines (st : Scan) (lines : list string) : Scan :=
  foldl scan_line st lines.

(** The flush after the loop. *)
Definition finish (st : Scan) : gmap string string :=
  match section_content st with
  | [] => sections st
  | _ :: _ => <[current_section st := Str.join Str.nl (section_content st)]> (sections st)
  end.

Record Structured : Type := {
  title : string;
  markdown : string;
  structured_sections : gmap string string
}.

(** [_structure_content] *)
Definition _structure_content (ai_content : string) (content_type : ContentType)
    : Structured :=
  let lines := Str.split_lines ai_content in
  {| title := extract_title lines;
     markdown := ai_content;
     structured_sections := finish (scan_lines scan_start lines) |}.

(** *** Vocabulary for the properties of the section scan *)

(** The line triggers a switch: one of the three tests of the chain fires. *)
Definition is_trigger (line : string) : bool :=
  any_keyword intro_keywords line || any_keyword objective_keywords line
  || any_keyword conclusion_keywords line.

(** The line contains an objective keyword and no keyword of the list the
    chain tests first. *)
Definition is_objective_line (line : string) : bool :=
  any_keyword objective_keywords line && negb (any_keyword intro_keywords line).

(** Every objective line of the text is found in the objectives slot of
    the section map returned for the text. *)
Definition objective_lines_in_objectives_slot (ai_content : string) : Prop :=
  forall line, line ∈ Str.split_lines ai_content ->
    is_objective_line line = true ->
    exists text,
      structured_sections (_structure_content ai_content CLASS_SESSION) !! "objectives"
        = Some text /\
      line ∈ Str.split_lines text.

(** The section a trigger line moves the pointer to: the first test of the
    chain that fires decides. *)
Definition trigger_target (line : string) : string :=
  if any_keyword intro_keywords line then "introduction"
  else if any_keyword objective_keywords line then "objectives"
  else "conclusion".

(** The four slots of the section map. *)
Definition slot_names : list string :=
  ["introduction"; "objectives"; "development"; "conclusion"].

(** The keys of a section map are the four slot names. *)
Definition four_slots (m : gmap string string) : Prop :=
  forall k, is_Some (m !! k) <-> k ∈ slot_names.

(** *** The generation worker

    A worker holds the job object it loaded and mutates it in memory;
    [db.commit()] writes the object back to its row, inserts the rows added
    since the last commit, and is the only moment at which a reader of the
    table can see the job change. *)

Record Worker : Type := {
  db : DB;
  generation : Generation.t;
  added : list Content.t;
  written : list Generation.t
}.

Definition W : Type -> Type := Run Worker.

Definition self_generation : W Generation.t := fun w => (Ok (generation w), w).

(** [generation.field = v] *)
Definition assign (f : Generation.t -> Generation.t) : W unit :=
  fun w =>
    (Ok tt, {| db := db w; generation := f (generation w);
               added := added w; written := written w |}).

(** [self.db.add(content)] *)
Definition db_add (c : Content.t) : W unit :=
  fun w =>
    (Ok tt, {| db := db w; generation := generation w;
               added := added w ++ [c]; written := written w |}).

(** [self.db.commit()] *)
Definition db_commit : W unit :=
  fun w =>
    (Ok tt,
     {| db := {| documents := documents (db w);
                 generations := rows_update Generation.id (generation w)
                                  (generations (db w));
                 contents := contents (db w) ++ added w |};
        generation := generation w;
        added := [];
        written := written w ++ [generation w] |}).

Definition query_document (document_id : UUID) : W (option Document.t) :=
  fun w => (Ok (rows_first Document.id document_id (documents (db w))), w).

(** What a run of the worker takes from outside: the provider registry of
    the service, the clock readings at pickup and at the end, and the
    identifier the table gives the new content row. *)
Record Env : Type := {
  ai_service : AI.MultiAIService;
  at_start : datetime;
  at_end : datetime;
  new_content_id : UUID
}.

Definition dispatch_kwargs (generation : Generation.t) : AI.Kwargs :=
  {| AI.system_prompt := Some (_build_system_prompt generation);
     AI.max_tokens := content_length (Generation.configuration generation) * 400;
     AI.temperature := (7 # 10)%Q |}.

Definition new_content (env : Env) (generation : Generation.t) (st : Structured)
    : Content.t :=
  {| Content.id := new_content_id env;
     Content.generation_id := Generation.id generation;
     Content.document_id := Generation.document_id generation;
     Content.title := title st;
     Content.content_type := Generation.content_type generation;
     Content.markdown_content := markdown st;
     Content.sections := Some (structured_sections st);
     Content.content_metadata :=
       Some {| md_ai_provider := AI.value (Generation.ai_provider generation);
               md_ai_model := Generation.ai_model generation;
               md_generation_config := Generation.configuration generation |};
     Content.version := 1;
     Content.is_active := true;
     Content.created_at := at_end env;
     Content.updated_at := at_end env |}.

(** The [try] block of [_process_generation]. *)
Definition generation_body (env : Env) : W unit :=
  assign (Generation.set_status IN_PROGRESS);;
  assign (Generation.set_started_at (at_start env));;
  assign (Generation.set_progress 10);;
  db_commit;;
  generation ← self_generation;
  document ← query_document (Generation.document_id generation);
  prompt ← lift (_build_prompt document generation);
  assign (Generation.set_progress 30);;
  db_commit;;
  ai_content ← lift (fst (AI.generate_content (ai_service env) prompt
                             (Some (Generation.ai_provider generation))
                             (dispatch_kwargs generation)));
  assign (Generation.set_progress 70);;
  db_commit;;
  db_add (new_content env generation
            (_structure_content ai_content (Generation.content_type generation)));;
  assign (Generation.set_status COMPLETED);;
  assign (Generation.set_progress 100);;
  assign (Generation.set_completed_at (at_end env));;
  db_commit.

(** The [except] block of [_process_generation]. *)
Definition generation_handler (env : Env) (e : Exception) : W unit :=
  assign (Generation.set_status FAILED);;
  assign (Generation.set_error_message (str_exc e));;
  assign (Generation.set_completed_at (at_end env));;
  db_commit.

(** [_process_generation]: the tables after the run, and the versions of
    the job row it committed, oldest first. *)
Definition _process_generation (env : Env) (generation_id : UUID) (d : DB)
    : DB * list Generation.t :=
  match rows_first Generation.id generation_id (generations d) with
  | None => (d, [])
  | Some generation =>
      let w := snd (try_except (generation_body env) (generation_handler env)
                      {| db := d; generation := generation;
                         added := []; written := [] |}) in
      (db w, written w)
  end.

(** *** Vocabulary for the properties of the worker *)

(** The job object after the first three assignments of the [try] block. *)
Definition picked_up (env : Env) (g : Generation.t) : Generation.t :=
  Generation.set_progress 10
    (Generation.set_started_at (at_start env) (Generation.set_status IN_PROGRESS g)).

(** The job object after the three assignments of the [except] block. *)
Definition failed_with (env : Env) (e : Exception) (g : Generation.t) : Generation.t :=
  Generation.set_completed_at (at_end env)
    (Generation.set_error_message (str_exc e) (Generation.set_status FAILED g)).

(** The job object after the last three assignments of the [try] block. *)
Definition completed (env : Env) (g : Generation.t) : Generation.t :=
  Generation.set_completed_at (at_end env)
    (Generation.set_progress 100 (Generation.set_status COMPLETED g)).

(** What the prompt build and the dispatch of a run evaluate to. *)
Definition prompt_of (d : DB) (g : Generation.t) : result string :=
  _build_prompt (rows_first Document.id (Generation.document_id g) (documents d)) g.

Definition answer_of (env : Env) (g : Generation.t) (prompt : string) : result string :=
  (AI.generate_content (ai_service env) prompt (Some (Generation.ai_provider g))
     (dispatch_kwargs g)).1.

Inductive Outcome : Type :=
| Succeeded (ai_content : string)
| PromptFailed (e : Exception)
| DispatchFailed (e : Exception).

Definition outcome (env : Env) (d : DB) (g : Generation.t) : Outcome :=
  match prompt_of d (picked_up env g) with
  | Raise e => PromptFailed e
  | Ok prompt =>
      match answer_of env (picked_up env g) prompt with
      | Raise e => DispatchFailed e
      | Ok ai_content => Succeeded ai_content
      end
  end.

(** The status and progress a reader sees after each commit. *)
Definition checkpoints (tr : list Generation.t) : list (Status * Z) :=
  List.map (fun g => (Generation.status g, Generation.progress g)) tr.


(** The versions of the job row a run commits, by outcome. *)
Definition expected_trace (env : Env) (o : Outcome) (g : Generation.t)
    : list Generation.t :=
  let g10 := picked_up env g in
  let g30 := Generation.set_progress 30 g10 in
  let g70 := Generation.set_progress 70 g30 in
  match o with
  | Succeeded _ => [g10; g30; g70; completed env g70]
  | PromptFailed e => [g10; failed_with env e g10]
  | DispatchFailed e => [g10; g30; failed_with env e g30]
  end.


(** *** The service operations *)

Record GenerateContentRequest : Type := {
  req_document_id : UUID;
  req_content_type : ContentType;
  req_scope : ContentScope;
  req_ai_provider : AI.AIProvider;
  req_configuration : GenerationConfiguration
}.

Record GenerationResponse : Type := {
  generation_id : UUID;
  resp_status : Status;
  resp_estimated_completion : option datetime;
  message : string
}.

(** The tables together with the workers handed to the event loop by
    [asyncio.create_task] and not yet run. *)
Record System : Type := {
  store : DB;
  spawned : list UUID
}.

(** [Generation(...)] with the column defaults. *)
Definition new_generation (request : GenerateContentRequest) (new_id : UUID)
    (now : datetime) : Generation.t :=
  {| Generation.id := new_id;
     Generation.document_id := req_document_id request;
     Generation.content_type := req_content_type request;
     Generation.scope := req_scope request;
     Generation.ai_provider := req_ai_provider request;
     Generation.ai_model := cfg_ai_model (req_configuration request);
     Generation.status := STARTED;
     Generation.progress := 0;
     Generation.configuration := req_configuration request;
     Generation.estimated_completion := Some (now + 300);
     Generation.created_at := now;
     Generation.started_at := None;
     Generation.completed_at := None;
     Generation.error_message := None |}.

(** [ContentService.generate_content]; [new_id] is the identifier drawn for
    the new row. *)
Definition generate_content (request : GenerateContentRequest) (new_id : UUID)
    (now : datetime) (sys : System) : result GenerationResponse * System :=
  match rows_first Document.id (req_document_id request) (documents (store sys)) with
  | None => (Raise (HTTPException 404 "Documento no encontrado"), sys)
  | Some _ =>
      let generation := new_generation request new_id now in
      (Ok {| generation_id := Generation.id generation;
             resp_status := Generation.status generation;
             resp_estimated_completion := Generation.estimated_completion generation;
             message := "Generación iniciada. Use GET /api/v1/content/generation/{generation_id} para monitorear el progreso." |},
       {| store := {| documents := documents (store sys);
                      generations := generations (store sys) ++ [generation];
                      contents := contents (store sys) |};
          spawned := spawned sys ++ [new_id] |})
  end.

(** The view of a job [get_generation_status] returns. *)
Record GenerationStatusResponse : Type := {
  st_generation_id : UUID;
  st_status : Status;
  st_progress : Z;
  st_results : list Content.t;
  st_error_message : option string;
  st_created_at : datetime;
  st_completed_at : option datetime
}.

Definition get_generation_status (generation_id : UUID) (d : DB)
    : result GenerationStatusResponse :=
  match rows_first Generation.id generation_id (generations d) with
  | None => Raise (HTTPException 404 "Generación no encontrada")
  | Some generation =>
      Ok {| st_generation_id := Generation.id generation;
            st_status := Generation.status generation;
            st_progress := Generation.progress generation;
            st_results :=
              List.filter (fun c => bool_decide (Content.generation_id c = generation_id))
                (contents d);
            st_error_message := Generation.error_message generation;
            st_created_at := Generation.created_at generation;
            st_completed_at := Generation.completed_at generation |}
  end.

(** The event loop runs a spawned worker. *)
Definition run_worker (env : Env) (generation_id : UUID) (sys : System) : System :=
  {| store := fst (_process_generation env generation_id (store sys));
     spawned := filter (fun t => t ≠ generation_id) (spawned sys) |}.




End Runtime.


(** *** The registry the service builds from its settings *)

(** The provider keys of [app/config.py]. *)
Record Settings : Type := {
  openai_api_key : option string;
  claude_api_key : option string;
  gemini_api_key : option string;
  groq_api_key : option string;
  cohere_api_key : option string
}.

(** [if settings.key:] holds for a key that is set and not empty. *)
Definition configured (key : option string) : option string :=
  match key with
  | Some k => if decide (k = "") then None else Some k
  | None => None
  end.

Definition add_if_configured (key : option string) (provider : AI.AIProvider)
    (model : string) (is_primary : bool) (self : AI.MultiAIService)
    : AI.MultiAIService :=
  match configured key with
  | Some k => AI.add_provider self provider k (Some model) is_primary
  | None => self
  end.

(** [_initialize_ai_service] *)
Definition _initialize_ai_service (settings : Settings) : AI.MultiAIService :=
  add_if_configured (cohere_api_key settings) AI.COHERE "command" false
    (add_if_configured (groq_api_key settings) AI.GROQ "mixtral-8x7b-32768" true
       (add_if_configured (gemini_api_key settings) AI.GEMINI "gemini-pro" false
          (add_if_configured (claude_api_key settings) AI.CLAUDE
             "claude-3-sonnet-20240229" false
             (add_if_configured (openai_api_key settings) AI.OPENAI "gpt-4" false
                AI.init)))).

(** The key the settings hold for a provider. *)
Definition key_of (settings : Settings) (p : AI.AIProvider) : option string :=
  match p with
  | AI.OPENAI => configured (openai_api_key settings)
  | AI.CLAUDE => configured (claude_api_key settings)
  | AI.GEMINI => configured (gemini_api_key settings)
  | AI.GROQ => configured (groq_api_key settings)
  | AI.COHERE => configured (cohere_api_key settings)
  | AI.OLLAMA | AI.XAI => None
  end.

(** The source document of a job has extracted text. *)
Definition document_has_text (d : DB) (g : Generation.t) : Prop :=
  exists doc text,
    rows_first Document.id (Generation.document_id g) (documents d) = Some doc /\
    Document.text_content doc = Some text.

(** *** Reading and editing content rows *)

Record ContentResponse : Type := {
  cr_content_id : UUID;
  cr_title : string;
  cr_content_type : ContentType;
  cr_markdown_content : string;
  cr_sections : option (gmap string string);
  cr_content_metadata : option ContentMetadata;
  cr_document_id : UUID;
  cr_generation_id : UUID;
  cr_version : Z;
  cr_created_at : datetime;
  cr_updated_at : datetime
}.

Definition content_response (content : Content.t) : ContentResponse :=
  {| cr_content_id := Content.id content;
     cr_title := Content.title content;
     cr_content_type := Content.content_type content;
     cr_markdown_content := Content.markdown_content content;
     cr_sections := Content.sections content;
     cr_content_metadata := Content.content_metadata content;
     cr_document_id := Content.document_id content;
     cr_generation_id := Content.generation_id content;
     cr_version := Content.version content;
     cr_created_at := Content.created_at content;
     cr_updated_at := Content.updated_at content |}.

(** [query(Content).filter(and_(Content.id == content_id,
    Content.is_active == True)).first()] *)
Definition active_content (content_id : UUID) (rows : list Content.t)
    : option Content.t :=
  List.find (fun c => bool_decide (Content.id c = content_id) && Content.is_active c)
    rows.

Definition content_not_found {A : Type} : result A :=
  Raise (HTTPException 404 "Contenido no encontrado").

(** [get_content_by_id] *)
Definition get_content_by_id (content_id : UUID) (d : DB) : result ContentResponse :=
  match active_content content_id (contents d) with
  | None => content_not_found
  | Some content => Ok (content_response content)
  end.

Record UpdateContentRequest : Type := {
  upd_title : option string;
  upd_markdown_content : option string;
  upd_sections : option (gmap string string)
}.

(** The assignments of [update_content] on the loaded row. *)
Definition edited (request : UpdateContentRequest) (now : datetime)
    (content : Content.t) : Content.t :=
  {| Content.id := Content.id content;
     Content.generation_id := Content.generation_id content;
     Content.document_id := Content.document_id content;
     Content.title :=
       match upd_title request with
       | Some t => t
       | None => Content.title content
       end;
     Content.content_type := Content.content_type content;
     Content.markdown_content :=
       match upd_markdown_content request with
       | Some m => m
       | None => Content.markdown_content content
       end;
     Content.sections :=
       match upd_sections request with
       | Some secs => Some secs
       | None => Content.sections content
       end;
     Content.content_metadata := Content.content_metadata content;
     Content.version := Content.version content + 1;
     Content.is_active := Content.is_active content;
     Content.created_at := Content.created_at content;
     Content.updated_at := now |}.

Definition with_contents (d : DB) (rows : list Content.t) : DB :=
  {| documents := documents d; generations := generations d; contents := rows |}.

(** [update_content] *)
Definition update_content (content_id : UUID) (request : UpdateContentRequest)
    (now : datetime) (d : DB) : result ContentResponse * DB :=
  match active_content content_id (contents d) with
  | None => (content_not_found, d)
  | Some content =>
      let d' := with_contents d
                  (rows_update Content.id (edited request now content) (contents d)) in
      (get_content_by_id content_id d', d')
  end.

(** The assignments of [delete_content] on the loaded row. *)
Definition deactivated (now : datetime) (content : Content.t) : Content.t :=
  {| Content.id := Content.id content;
     Content.generation_id := Content.generation_id content;
     Content.document_id := Content.document_id content;
     Content.title := Content.title content;
     Content.content_type := Content.content_type content;
     Content.markdown_content := Content.markdown_content content;
     Content.sections := Content.sections content;
     Content.content_metadata := Content.content_metadata content;
     Content.version := Content.version content;
     Content.is_active := false;
     Content.created_at := Content.created_at content;
     Content.updated_at := now |}.

(** [delete_content]: the message of the response, and the tables. *)
Definition delete_content (content_id : UUID) (now : datetime) (d : DB)
    : result string * DB :=
  match active_content content_id (contents d) with
  | None => (content_not_found, d)
  | Some content =>
      (Ok "Contenido eliminado exitosamente",
       with_contents d (rows_update Content.id (deactivated now content) (contents d)))
  end.

Record ContentListItem : Type := {
  li_content_id : UUID;
  li_title : string;
  li_content_type : ContentType;
  li_document_id : UUID;
  li_created_at : datetime
}.

Definition list_item (content : Content.t) : ContentListItem :=
  {| li_content_id := Content.id content;
     li_title := Content.title content;
     li_content_type := Content.content_type content;
     li_document_id := Content.document_id content;
     li_created_at := Content.created_at content |}.

Record ContentListResponse : Type := {
  lr_contents : list ContentListItem;
  lr_total : nat;
  lr_page : nat;
  lr_limit : nat;
  lr_pages : nat
}.

(** The filters of [get_contents]: active rows, of the document and of the
    type when these are given. *)
Definition listed (document_id : option UUID) (content_type : option ContentType)
    (content : Content.t) : bool :=
  Content.is_active content
  && match document_id with
     | Some x => bool_decide (Content.document_id content = x)
     | None => true
     end
  && match content_type with
     | Some t => bool_decide (Content.content_type content = t)
     | None => true
     end.

(** [math.ceil(total / limit)] for [limit > 0]; the quotient of two counts
    below 2^53 is rounded to a float on the same side of every integer, so
    the ceiling of the float is the ceiling of the quotient. *)
Definition ceil_div (total limit : nat) : nat :=
  ((total + limit - 1) / limit)%nat.

(** [get_contents]; [page] and [limit] are at least 1, as the route that
    calls it admits them. *)
Definition get_contents (document_id : option UUID) (content_type : option ContentType)
    (page limit : nat) (d : DB) : ContentListResponse :=
  let query := List.filter (listed document_id content_type) (contents d) in
  let total := length query in
  let offset := ((page - 1) * limit)%nat in
  {| lr_contents := List.map list_item (take limit (drop offset query));
     lr_total := total;
     lr_page := page;
     lr_limit := limit;
     lr_pages := ceil_div total limit |}.

(** A sequence of edits of one content row, each at its own time. *)
Definition update_all (content_id : UUID) (edits : list (UpdateContentRequest * datetime))
    (d : DB) : DB :=
  foldl (fun d' edit => (update_content content_id edit.1 edit.2 d').2) d edits.

End ContentService.

(** ** [app/services/export_service.py] *)

Module ExportService.

Record DB : Type := {
  contents : list Content.t;
  templates : list Template.t;
  exports : list ExportJob.t
}.

(** The tables, the files under the export directory (path to text), and
    the workers handed to the event loop and not yet run. *)
Record System : Type := {
  store : DB;
  files : gmap string string;
  spawned : list (ExportType * UUID)
}.

Record IndividualExportRequest : Type := {
  ind_content_id : UUID;
  ind_format : string;
  ind_template_id : option UUID;
  ind_export_settings : option ExportSettings
}.

Record CombinedExportRequest : Type := {
  comb_content_ids : list UUID;
  comb_format : string;
  comb_template_id : option UUID;
  comb_export_settings : option ExportSettings;
  comb_title : option string
}.

(** The constraint of the schema on a combined request,
    [content_ids: List[UUID] = Field(..., min_items=1)]: a request that
    breaks it is refused before [export_combined] is called. *)
Definition well_formed (request : CombinedExportRequest) : Prop :=
  comb_content_ids request <> [].

Record ExportResponse : Type := {
  export_id : UUID;
  resp_status : Status;
  resp_estimated_completion : option datetime
}.

Definition response_of (export : ExportJob.t) : ExportResponse :=
  {| export_id := ExportJob.id export;
     resp_status := ExportJob.status export;
     resp_estimated_completion := ExportJob.estimated_completion export |}.

(** [self.db.add(export); self.db.commit()] and [asyncio.create_task]. *)
Definition add_and_spawn (export : ExportJob.t) (sys : System) : System :=
  {| store := {| contents := contents (store sys);
                 templates := templates (store sys);
                 exports := exports (store sys) ++ [export] |};
     files := files sys;
     spawned := spawned sys ++ [(ExportJob.export_type export, ExportJob.id export)] |}.

(** [export_individual]; [new_id] is the identifier drawn for the new row. *)
Definition export_individual (request : IndividualExportRequest) (new_id : UUID)
    (now : datetime) (sys : System) : result ExportResponse * System :=
  match rows_first Content.id (ind_content_id request) (contents (store sys)) with
  | None => (Raise (HTTPException 404 "Contenido no encontrado"), sys)
  | Some _ =>
      let template_missing :=
        match ind_template_id request with
        | Some template_id =>
            match rows_first Template.id template_id (templates (store sys)) with
            | None => true
            | Some _ => false
            end
        | None => false
        end in
      if template_missing then
        (Raise (HTTPException 404 "Plantilla no encontrada"), sys)
      else
        let export :=
          ExportJob.new new_id now INDIVIDUAL (ind_template_id request)
            [ind_content_id request] (ind_format request)
            (ind_export_settings request) (now + 120) in
        (Ok (response_of export), add_and_spawn export sys)
  end.

(** [export_combined] *)
Definition export_combined (request : CombinedExportRequest) (new_id : UUID)
    (now : datetime) (sys : System) : result ExportResponse * System :=
  let found := rows_in Content.id (comb_content_ids request) (contents (store sys)) in
  if bool_decide (length found ≠ length (comb_content_ids request)) then
    (Raise (HTTPException 404 "Algunos contenidos no fueron encontrados"), sys)
  else
    let export :=
      ExportJob.new new_id now COMBINED (comb_template_id request)
        (comb_content_ids request) (comb_format request)
        (comb_export_settings request) (now + 180) in
    (Ok (response_of export), add_and_spawn export sys).

(** *** Rendering *)

(** [settings.get(key, default)] on the stored settings object. *)
Definition settings_get (field : ExportSettings -> string) (default : string)
    (settings : option ExportSettings) : string :=
  match settings with
  | Some s => field s
  | None => default
  end.

Definition dq : string := String (Stdlib.Strings.Ascii.ascii_of_nat 34) "".

(** The LaTeX preamble shared by the single and the combined document, up
    to the title. *)
Definition latex_preamble (settings : option ExportSettings) : string :=
  Str.nl +:+ "\documentclass[" +:+ settings_get font_size "12pt" settings
    +:+ "]{article}" +:+ Str.nl
  +:+ "\usepackage[utf8]{inputenc}" +:+ Str.nl
  +:+ "\usepackage[spanish]{babel}" +:+ Str.nl
  +:+ "\usepackage[" +:+ settings_get paper_size "a4paper" settings
    +:+ "]{geometry}" +:+ Str.nl
  +:+ Str.nl.

Definition latex_closing : string :=
  Str.nl +:+ Str.nl +:+ "\end{document}" +:+ Str.nl +:+ "        ".

(** [_generate_pdf_content] *)
Definition _generate_pdf_content (content : Content.t)
    (settings : option ExportSettings) : string :=
  latex_preamble settings
  +:+ "\title{" +:+ Content.title content +:+ "}" +:+ Str.nl
  +:+ "\date{\today}" +:+ Str.nl
  +:+ Str.nl
  +:+ "\begin{document}" +:+ Str.nl
  +:+ "\maketitle" +:+ Str.nl
  +:+ Str.nl
  +:+ Content.markdown_content content
  +:+ latex_closing.

(** [_generate_docx_content]: an HTML page. *)
Definition _generate_docx_content (content : Content.t)
    (settings : option ExportSettings) : string :=
  Str.nl +:+ "<!DOCTYPE html>" +:+ Str.nl
  +:+ "<html>" +:+ Str.nl
  +:+ "<head>" +:+ Str.nl
  +:+ "    <meta charset=" +:+ dq +:+ "utf-8" +:+ dq +:+ ">" +:+ Str.nl
  +:+ "    <title>" +:+ Content.title content +:+ "</title>" +:+ Str.nl
  +:+ "    <style>" +:+ Str.nl
  +:+ "        body { font-size: " +:+ settings_get font_size "12pt" settings
    +:+ "; }" +:+ Str.nl
  +:+ "    </style>" +:+ Str.nl
  +:+ "</head>" +:+ Str.nl
  +:+ "<body>" +:+ Str.nl
  +:+ "    <h1>" +:+ Content.title content +:+ "</h1>" +:+ Str.nl
  +:+ "    <div>" +:+ Content.markdown_content content +:+ "</div>" +:+ Str.nl
  +:+ "</body>" +:+ Str.nl
  +:+ "</html>" +:+ Str.nl
  +:+ "        ".

(** [_generate_latex_content] *)
Definition _generate_latex_content (content : Content.t)
    (settings : option ExportSettings) : string :=
  _generate_pdf_content content settings.

(** The text [_combine_contents] appends for one content. *)
Definition section_block (content : Content.t) : string :=
  "\section{" +:+ Content.title content +:+ "}" +:+ Str.nl
  +:+ Content.markdown_content content +:+ Str.nl +:+ Str.nl.

(** [_combine_contents]: the loop [combined += ...] over the rows given. *)
Definition _combine_contents (contents : list Content.t)
    (settings : option ExportSettings) : string :=
  foldl (fun combined content => combined +:+ section_block content) "" contents.

(** [_generate_combined_pdf] *)
Definition _generate_combined_pdf (combined_content : string)
    (settings : option ExportSettings) : string :=
  latex_preamble settings
  +:+ "\title{Documento Combinado}" +:+ Str.nl
  +:+ "\date{\today}" +:+ Str.nl
  +:+ Str.nl
  +:+ "\begin{document}" +:+ Str.nl
  +:+ "\maketitle" +:+ Str.nl
  +:+ "\tableofcontents" +:+ Str.nl
  +:+ "\newpage" +:+ Str.nl
  +:+ Str.nl
  +:+ combined_content
  +:+ latex_closing.

(** [_generate_combined_docx] *)
Definition _generate_combined_docx (combined_content : string)
    (settings : option ExportSettings) : string :=
  "<html><body><h1>Documento Combinado</h1>" +:+ combined_content +:+ "</body></html>".

(** [_generate_combined_latex] *)
Definition _generate_combined_latex (combined_content : string)
    (settings : option ExportSettings) : string :=
  _generate_combined_pdf combined_content settings.

(** *** The export workers *)

(** [str(uuid)]: 32 hexadecimal digits grouped 8-4-4-4-12. *)
Definition hex_digit (n : N) : ascii :=
  Stdlib.Strings.Ascii.ascii_of_N (if (n <? 10)%N then 48 + n else 87 + n)%N.

Fixpoint hex_digits (k : nat) (n : N) : string :=
  match k with
  | O => ""
  | S k' => hex_digits k' (n / 16)%N +:+ String (hex_digit (n mod 16)%N) ""
  end.

Definition uuid_str (u : UUID) : string :=
  let h := hex_digits 32 u in
  Str.take 8 h +:+ "-" +:+ Str.take 4 (Str.drop 8 h) +:+ "-"
  +:+ Str.take 4 (Str.drop 12 h) +:+ "-" +:+ Str.take 4 (Str.drop 16 h)
  +:+ "-" +:+ Str.drop 20 h.

(** The session of one worker: the committed tables, the files, the job
    object mutated in memory, and the versions of the job row it committed. *)
Record Worker : Type := {
  db : DB;
  disk : gmap string string;
  export : ExportJob.t;
  written : list ExportJob.t
}.

Definition W : Type -> Type := Run Worker.

Definition self_export : W ExportJob.t := fun w => (Ok (export w), w).

(** [export.field = v] *)
Definition assign (f : ExportJob.t -> ExportJob.t) : W unit :=
  fun w =>
    (Ok tt, {| db := db w; disk := disk w; export := f (export w);
               written := written w |}).

(** [self.db.commit()] *)
Definition db_commit : W unit :=
  fun w =>
    (Ok tt,
     {| db := {| contents := contents (db w);
                 templates := templates (db w);
                 exports := rows_update ExportJob.id (export w) (exports (db w)) |};
        disk := disk w;
        export := export w;
        written := written w ++ [export w] |}).

(** [with open(file_path, 'w', encoding='utf-8') as f: f.write(file_content)] *)
Definition write_file (file_path file_content : string) : W unit :=
  fun w =>
    (Ok tt, {| db := db w; disk := <[file_path := file_content]> (disk w);
               export := export w; written := written w |}).

(** [file_path.stat().st_size]: the bytes of the file just written. *)
Definition stat_size (file_path : string) : W Z :=
  fun w =>
    match disk w !! file_path with
    | Some text => (Ok (Z.of_nat (String.length text)), w)
    | None => (Raise (RuntimeError "FileNotFoundError"), w)
    end.

Definition query_content (content_id : UUID) : W (option Content.t) :=
  fun w => (Ok (rows_first Content.id content_id (contents (db w))), w).

Definition query_contents (content_ids : list UUID) : W (list Content.t) :=
  fun w => (Ok (rows_in Content.id content_ids (contents (db w))), w).

(** What a run takes from outside: the clock readings at pickup and at the
    end, and [datetime.now().strftime('%Y%m%d_%H%M%S')]. *)
Record Env : Type := {
  at_start : datetime;
  at_end : datetime;
  stamp : string
}.

Definition export_dir : string := "exports".

(** [self.export_dir / filename] *)
Definition path_in_export_dir (filename : string) : string :=
  export_dir +:+ "/" +:+ filename.

Definition download_url_of (export : ExportJob.t) : string :=
  "/api/v1/export/" +:+ uuid_str (ExportJob.id export) +:+ "/download".

Definition pickup (env : Env) : W unit :=
  assign (ExportJob.set_status IN_PROGRESS);;
  assign (ExportJob.set_started_at (at_start env));;
  assign (ExportJob.set_progress 10);;
  db_commit.

(** The writes after the file is on disk. *)
Definition complete (env : Env) (filename file_path : string) : W unit :=
  size ← stat_size file_path;
  export ← self_export;
  assign (ExportJob.set_artifact filename file_path size (download_url_of export));;
  assign (ExportJob.set_status COMPLETED);;
  assign (ExportJob.set_progress 100);;
  assign (ExportJob.set_completed_at (at_end env));;
  db_commit.

(** The [except] block of both workers. *)
Definition export_handler (env : Env) (e : Exception) : W unit :=
  assign (ExportJob.set_status FAILED);;
  assign (ExportJob.set_error_message (str_exc e));;
  assign (ExportJob.set_completed_at (at_end env));;
  db_commit.

Definition unsupported_format {A : Type} (format : string) : result A :=
  Raise (ValueError ("Formato no soportado: " +:+ format)).

(** Reading [content.title] of a row that is gone. *)
Definition render_individual (content : option Content.t) (export : ExportJob.t)
    : result string :=
  let settings := ExportJob.export_settings export in
  let format := ExportJob.format export in
  let render (f : Content.t -> option ExportSettings -> string) : result string :=
    match content with
    | Some content => Ok (f content settings)
    | None => Raise (AttributeError "'NoneType' object has no attribute 'title'")
    end in
  if decide (format = "pdf") then render _generate_pdf_content
  else if decide (format = "docx") then render _generate_docx_content
  else if decide (format = "latex") then render _generate_latex_content
  else unsupported_format format.

(** The [try] block of [_process_individual_export]. *)
Definition individual_body (env : Env) : W unit :=
  pickup env;;
  export ← self_export;
  content_id ← lift (match ExportJob.content_ids export with
                     | cid :: _ => Ok cid
                     | [] => Raise (RuntimeError "list index out of range")
                     end);
  content ← query_content content_id;
  assign (ExportJob.set_progress 30);;
  db_commit;;
  let filename := "content_" +:+ uuid_str content_id +:+ "_" +:+ stamp env
                  +:+ "." +:+ ExportJob.format export in
  let file_path := path_in_export_dir filename in
  assign (ExportJob.set_progress 60);;
  db_commit;;
  file_content ← lift (render_individual content export);
  write_file file_path file_content;;
  complete env filename file_path.

Definition render_combined (combined_content : string) (export : ExportJob.t)
    : result string :=
  let settings := ExportJob.export_settings export in
  let format := ExportJob.format export in
  if decide (format = "pdf") then Ok (_generate_combined_pdf combined_content settings)
  else if decide (format = "docx") then Ok (_generate_combined_docx combined_content settings)
  else if decide (format = "latex") then Ok (_generate_combined_latex combined_content settings)
  else unsupported_format format.

(** The [try] block of [_process_combined_export]. *)
Definition combined_body (env : Env) : W unit :=
  pickup env;;
  export ← self_export;
  contents ← query_contents (ExportJob.content_ids export);
  assign (ExportJob.set_progress 30);;
  db_commit;;
  let filename := "combined_" +:+ stamp env +:+ "." +:+ ExportJob.format export in
  let file_path := path_in_export_dir filename in
  assign (ExportJob.set_progress 60);;
  db_commit;;
  let combined_content := _combine_contents contents (ExportJob.export_settings export) in
  file_content ← lift (render_combined combined_content export);
  write_file file_path file_content;;
  complete env filename file_path.

Definition run_export (body : Env -> W unit) (env : Env) (export_id : UUID)
    (sys : System) : System * list ExportJob.t :=
  match rows_first ExportJob.id export_id (exports (store sys)) with
  | None => (sys, [])
  | Some export =>
      let w := snd (try_except (body env) (export_handler env)
                      {| db := store sys; disk := files sys; export := export;
                         written := [] |}) in
      ({| store := db w; files := disk w;
          spawned := List.filter (fun t => negb (bool_decide (t.2 = export_id)))
                       (spawned sys) |},
       written w)
  end.

(** [_process_individual_export] *)
Definition _process_individual_export : Env -> UUID -> System -> System * list ExportJob.t :=
  run_export individual_body.

(** [_process_combined_export] *)
Definition _process_combined_export : Env -> UUID -> System -> System * list ExportJob.t :=
  run_export combined_body.

(** *** Artifact retrieval *)

(** [os.path.exists]: the empty path names no file. *)
Definition os_path_exists (disk : gmap string string) (path : string) : bool :=
  bool_decide (path ≠ "" ∧ is_Some (disk !! path)).

(** [get_file_path] *)
Definition get_file_path (export_id : UUID) (now : datetime) (sys : System)
    : result string :=
  match rows_first ExportJob.id export_id (exports (store sys)) with
  | None => Raise (HTTPException 404 "Exportación no encontrada")
  | Some export =>
      if bool_decide (ExportJob.status export ≠ COMPLETED) then
        Raise (HTTPException 400 "Exportación no completada")
      else if bool_decide (ExportJob.expires_at export < now) then
        Raise (HTTPException 410 "Archivo expirado")
      else
        match ExportJob.file_path export with
        | None => Raise (HTTPException 404 "Archivo no encontrado")
        | Some path =>
            if bool_decide (path = "") || negb (os_path_exists (files sys) path) then
              Raise (HTTPException 404 "Archivo no encontrado")
            else Ok path
        end
  end.

(** *** Status and download *)

Record ExportStatusResponse : Type := {
  st_export_id : UUID;
  st_status : Status;
  st_progress : Z;
  st_download_url : option string;
  st_filename : option string;
  st_file_size : option Z;
  st_expires_at : datetime;
  st_error_message : option string;
  st_created_at : datetime;
  st_completed_at : option datetime
}.

(** [get_export_status] *)
Definition get_export_status (export_id : UUID) (sys : System)
    : result ExportStatusResponse :=
  match rows_first ExportJob.id export_id (exports (store sys)) with
  | None => Raise (HTTPException 404 "Exportación no encontrada")
  | Some export =>
      Ok {| st_export_id := ExportJob.id export;
            st_status := ExportJob.status export;
            st_progress := ExportJob.progress export;
            st_download_url := ExportJob.download_url export;
            st_filename := ExportJob.filename export;
            st_file_size := ExportJob.file_size export;
            st_expires_at := ExportJob.expires_at export;
            st_error_message := ExportJob.error_message export;
            st_created_at := ExportJob.created_at export;
            st_completed_at := ExportJob.completed_at export |}
  end.

(** The table [content_types] of the download route of
    [app/routers/export.py], with its default. *)
Definition content_type_of (file_extension : string) : string :=
  if decide (file_extension = "pdf") then "application/pdf"
  else if decide (file_extension = "docx") then
    "application/vnd.openxmlformats-officedocument.wordprocessingml.document"
  else if decide (file_extension = "latex") then "text/plain"
  else if decide (file_extension = "html") then "text/html"
  else if decide (file_extension = "txt") then "text/plain"
  else "application/octet-stream".

(** [export_info.filename.split('.')[-1] if export_info.filename else 'txt'] *)
Definition file_extension_of (filename : option string) : string :=
  match filename with
  | Some name => if decide (name = "") then "txt"
                 else Str.last_piece Str.dot name
  | None => "txt"
  end.

Record FileResponse : Type := {
  fr_path : string;
  fr_filename : option string;
  fr_media_type : string;
  fr_content_disposition : string
}.

(** [download_exported_file] of [app/routers/export.py]: the errors of the
    service pass through. *)
Definition download_exported_file (export_id : UUID) (now : datetime) (sys : System)
    : result FileResponse :=
  match get_file_path export_id now sys with
  | Raise e => Raise e
  | Ok file_path =>
      match get_export_status export_id sys with
      | Raise e => Raise e
      | Ok export_info =>
          Ok {| fr_path := file_path;
                fr_filename := st_filename export_info;
                fr_media_type :=
                  content_type_of (file_extension_of (st_filename export_info));
                fr_content_disposition :=
                  "attachment; filename=" +:+ dq
                  +:+ match st_filename export_info with
                      | Some name => name
                      | None => "None"
                      end
                  +:+ dq |}
      end
  end.

(** *** Vocabulary for the properties of the export workers *)

(** The job object after the assignments at pickup, after the third
    checkpoint, at completion and at failure. *)
Definition picked_up (env : Env) (job : ExportJob.t) : ExportJob.t :=
  ExportJob.set_progress 10
    (ExportJob.set_started_at (at_start env) (ExportJob.set_status IN_PROGRESS job)).

Definition at_60 (env : Env) (job : ExportJob.t) : ExportJob.t :=
  ExportJob.set_progress 60 (ExportJob.set_progress 30 (picked_up env job)).

Definition finished (env : Env) (job : ExportJob.t) (filename text : string)
    : ExportJob.t :=
  ExportJob.set_completed_at (at_end env)
    (ExportJob.set_progress 100
       (ExportJob.set_status COMPLETED
          (ExportJob.set_artifact filename (path_in_export_dir filename)
             (Z.of_nat (String.length text)) (download_url_of (at_60 env job))
             (at_60 env job)))).

Definition failed_with (env : Env) (e : Exception) (job : ExportJob.t) : ExportJob.t :=
  ExportJob.set_completed_at (at_end env)
    (ExportJob.set_error_message (str_exc e) (ExportJob.set_status FAILED job)).

Definition combined_filename (env : Env) (job : ExportJob.t) : string :=
  "combined_" +:+ stamp env +:+ "." +:+ ExportJob.format job.

Definition individual_filename (env : Env) (job : ExportJob.t) (content_id : UUID)
    : string :=
  "content_" +:+ uuid_str content_id +:+ "_" +:+ stamp env +:+ "."
  +:+ ExportJob.format job.

(** What the rendering step of a run evaluates to. *)
Definition combined_text (sys : System) (job : ExportJob.t) : result string :=
  render_combined
    (_combine_contents
       (rows_in Content.id (ExportJob.content_ids job) (contents (store sys)))
       (ExportJob.export_settings job)) job.

Definition individual_text (sys : System) (job : ExportJob.t) (content_id : UUID)
    : result string :=
  render_individual (rows_first Content.id content_id (contents (store sys))) job.

(** The versions of the job row a run commits once the file name is
    chosen, by the result of the rendering step. *)
Definition expected_trace (env : Env) (job : ExportJob.t) (filename : string)
    (rendered : result string) : list ExportJob.t :=
  [picked_up env job;
   ExportJob.set_progress 30 (picked_up env job);
   at_60 env job;
   match rendered with
   | Ok text => finished env job filename text
   | Raise e => failed_with env e (at_60 env job)
   end].

(** The system such a run leaves. *)
Definition after_run (env : Env) (sys : System) (job : ExportJob.t)
    (export_id : UUID) (filename : string) (rendered : result string) : System :=
  {| store :=
       {| contents := contents (store sys);
          templates := templates (store sys);
          exports := foldl (fun rows e => rows_update ExportJob.id e rows)
                       (exports (store sys))
                       (expected_trace env job filename rendered) |};
     files := match rendered with
              | Ok text => <[path_in_export_dir filename := text]> (files sys)
              | Raise _ => files sys
              end;
     spawned := List.filter (fun t => negb (bool_decide (t.2 = export_id)))
                  (spawned sys) |}.

Definition checkpoints (tr : list ExportJob.t) : list (Status * Z) :=
  List.map (fun e => (ExportJob.status e, ExportJob.progress e)) tr.

(** The four artifact columns of a job row. *)
Definition artifact (e : ExportJob.t)
    : option string * option string * option Z * option string :=
  (ExportJob.filename e, ExportJob.file_path e, ExportJob.file_size e,
   ExportJob.download_url e).

(** The formats the workers render. *)
Definition supported (format : string) : Prop :=
  format = "pdf" \/ format = "docx" \/ format = "latex".

End ExportService.

(** ** Sample data for the scenarios *)

Module Samples.

Import AI.

(** Two registrations, both marked primary. *)
Definition two_primaries : list Registration :=
  [ {| reg_provider := OPENAI; reg_api_key := "k1"; reg_model := Some "gpt-4";
       reg_is_primary := true |};
    {| reg_provider := GROQ; reg_api_key := "k2"; reg_model := None;
       reg_is_primary := true |} ].

Definition sample_kwargs : Kwargs :=
  {| system_prompt := None; max_tokens := 2000; temperature := (7 # 10)%Q |}.

(** The registry of the scenario: OPENAI, the primary, raises; GROQ, the
    only fallback, is the canned backend. *)
Definition failing_primary_registry : MultiAIService := {|
  services := <[OPENAI := failing_service (RuntimeError "boom")]>
                (<[GROQ := GroqService "key" "mixtral-8x7b-32768"]> ∅);
  primary_provider := Some OPENAI;
  fallback_providers := [GROQ]
|}.

Definition two_objective_blocks : string :=
  "objective 1" +:+ Str.nl +:+ "conclusion" +:+ Str.nl +:+ "objective 2".

Definition one_objective_block : string :=
  "notes" +:+ Str.nl +:+ "objective 1" +:+ Str.nl +:+ "more" +:+ Str.nl
  +:+ "conclusion" +:+ Str.nl +:+ "end".

Definition plain_text : string := "hello" +:+ Str.nl +:+ "world".

Definition sample_content (id : UUID) (title body : string) : Content.t :=
  {| Content.id := id; Content.generation_id := 3%N; Content.document_id := 5%N;
     Content.title := title; Content.content_type := CLASS_SESSION;
     Content.markdown_content := body; Content.sections := None;
     Content.content_metadata := None; Content.version := 1;
     Content.is_active := true; Content.created_at := 900;
     Content.updated_at := 900 |}.

Definition content_A : Content.t := sample_content 1%N "A" "alpha".
Definition content_B : Content.t := sample_content 2%N "B" "beta".

(** The content table holds B before A. *)
Definition table_B_then_A : ExportService.System :=
  {| ExportService.store :=
       {| ExportService.contents := [content_B; content_A];
          ExportService.templates := [];
          ExportService.exports := [] |};
     ExportService.files := ∅;
     ExportService.spawned := [] |}.

Definition request_A_then_B : ExportService.CombinedExportRequest :=
  {| ExportService.comb_content_ids := [1%N; 2%N];
     ExportService.comb_format := "latex";
     ExportService.comb_template_id := None;
     ExportService.comb_export_settings := None;
     ExportService.comb_title := None |}.

Definition request_A_twice : ExportService.CombinedExportRequest :=
  {| ExportService.comb_content_ids := [1%N; 1%N];
     ExportService.comb_format := "pdf";
     ExportService.comb_template_id := None;
     ExportService.comb_export_settings := None;
     ExportService.comb_title := None |}.

Definition request_unknown : ExportService.IndividualExportRequest :=
  {| ExportService.ind_content_id := 9%N;
     ExportService.ind_format := "pdf";
     ExportService.ind_template_id := None;
     ExportService.ind_export_settings := Some default_export_settings |}.

Definition export_env : ExportService.Env :=
  {| ExportService.at_start := 1001; ExportService.at_end := 1002;
     ExportService.stamp := "20240101_000000" |}.

(** The system after the combined export of A then B, created at time 1000
    with id 7, has been accepted and its worker has run. *)
Definition exported_A_then_B : ExportService.System :=
  (ExportService._process_combined_export export_env 7%N
     (ExportService.export_combined request_A_then_B 7%N 1000 table_B_then_A).2).1.

Definition sample_configuration : GenerationConfiguration :=
  {| educational_level := "Undergraduate"; pedagogical_approach := "Competency-based";
     cfg_ai_model := "mixtral-8x7b-32768"; content_length := 5;
     include_web_content := true; cfg_include_images := true;
     include_rich_content := true; language := "es";
     additional_instructions := None |}.

Definition sample_request : ContentService.GenerateContentRequest :=
  {| ContentService.req_document_id := 5%N;
     ContentService.req_content_type := STUDY_GUIDE;
     ContentService.req_scope := SPECIFIC_SESSION;
     ContentService.req_ai_provider := GROQ;
     ContentService.req_configuration := sample_configuration |}.

Definition sample_document : Document.t :=
  {| Document.id := 5%N; Document.filename := "silabo.pdf";
     Document.text_content := Some "Unidad 1" |}.

(** One document and the job [generate_content] creates for it at time
    1000 with id 3. *)
Definition sample_db : ContentService.DB :=
  {| ContentService.documents := [sample_document];
     ContentService.generations := [ContentService.new_generation sample_request 3%N 1000];
     ContentService.contents := [] |}.

Definition sample_env : ContentService.Env :=
  {| ContentService.ai_service := add_provider init GROQ "key" None true;
     ContentService.at_start := 1001;
     ContentService.at_end := 1002;
     ContentService.new_content_id := 4%N |}.

(** GROQ registered twice, the second time with another model. *)
Definition groq_twice : list Registration :=
  [ {| reg_provider := GROQ; reg_api_key := "k1"; reg_model := None;
       reg_is_primary := false |};
    {| reg_provider := GROQ; reg_api_key := "k2"; reg_model := Some "gemma-7b-it";
       reg_is_primary := true |} ].

Definition headed_text : string :=
  "## Unidad" +:+ Str.nl +:+ "# Primer titulo " +:+ Str.nl +:+ "# Segundo".

Definition spanish_objectives : string :=
  "## Objetivos" +:+ Str.nl +:+ "- aprender".

Definition sample_edit : ContentService.UpdateContentRequest :=
  {| ContentService.upd_title := Some "Nuevo";
     ContentService.upd_markdown_content := None;
     ContentService.upd_sections := None |}.

(** Three content rows: A and B active, a third one soft-deleted. *)
Definition content_C : Content.t := ContentService.deactivated 950 (sample_content 6%N "C" "gamma").

Definition three_contents_db : ContentService.DB :=
  {| ContentService.documents := [sample_document];
     ContentService.generations := [];
     ContentService.contents := [content_A; content_C; content_B] |}.

Definition request_A_pdf : ExportService.IndividualExportRequest :=
  {| ExportService.ind_content_id := 1%N;
     ExportService.ind_format := "pdf";
     ExportService.ind_template_id := None;
     ExportService.ind_export_settings := Some default_export_settings |}.

Definition request_missing_template : ExportService.IndividualExportRequest :=
  {| ExportService.ind_content_id := 1%N;
     ExportService.ind_format := "pdf";
     ExportService.ind_template_id := Some 77%N;
     ExportService.ind_export_settings := None |}.

(** The one registration behind the registry of [sample_env]. *)
Definition groq_primary : list Registration :=
  [ {| reg_provider := GROQ; reg_api_key := "key"; reg_model := None;
       reg_is_primary := true |} ].

(** The service before any request: one document, no job, no content. *)
Definition sample_system : ContentService.System :=
  {| ContentService.store :=
       {| ContentService.documents := [sample_document];
          ContentService.generations := [];
          ContentService.contents := [] |};
     ContentService.spawned := [] |}.

Definition request_unknown_document : ContentService.GenerateContentRequest :=
  {| ContentService.req_document_id := 6%N;
     ContentService.req_content_type := STUDY_GUIDE;
     ContentService.req_scope := SPECIFIC_SESSION;
     ContentService.req_ai_provider := GROQ;
     ContentService.req_configuration := sample_configuration |}.

(** The export service over the content table of [three_contents_db] after
    A was soft-deleted at time 960. *)
Definition deleted_A_system : ExportService.System :=
  {| ExportService.store :=
       {| ExportService.contents :=
            ContentService.contents
              (ContentService.delete_content 1%N 960 three_contents_db).2;
          ExportService.templates := [];
          ExportService.exports := [] |};
     ExportService.files := ∅;
     ExportService.spawned := [] |}.

(** Settings without a usable key: the GROQ key is the empty string. *)
Definition no_keys : ContentService.Settings :=
  {| ContentService.openai_api_key := None;
     ContentService.claude_api_key := None;
     ContentService.gemini_api_key := None;
     ContentService.groq_api_key := Some "";
     ContentService.cohere_api_key := None |}.

(** GROQ, the primary, raises; OPENAI is registered and would answer, but
    is neither the primary nor in the fallback list. *)
Definition unlisted_working_registry : MultiAIService := {|
  services := <[GROQ := failing_service (RuntimeError "boom")]>
                (<[OPENAI := GroqService "key" "gpt-4"]> ∅);
  primary_provider := Some GROQ;
  fallback_providers := []
|}.

End Samples.

(** * Properties *)

(** ** The provider registry *)

Section Registry.

Import AI Samples.

Lemma register_all_cons self r rs :
  register_all self (r :: rs) = register_all (register self r) rs.
Proof. reflexivity. Qed.

Lemma register_all_primary rs : forall self,
  primary_provider (register_all self rs) =
    match last (primary_registrations rs) with
    | Some p => Some p
    | None => primary_provider self
    end.
Proof.
  induction rs as [|r rs IH]; intros self; [reflexivity|].
  rewrite register_all_cons, IH.
  unfold primary_registrations, register, add_provider.
  cbn [List.filter]. destruct (reg_is_primary r); cbn [List.map primary_provider].
  - rewrite last_cons. by destruct (last _).
  - reflexivity.
Qed.

Lemma register_all_fallbacks rs : forall self,
  fallback_providers (register_all self rs) =
    fallback_providers self ++ fallback_registrations rs.
Proof.
  induction rs as [|r rs IH]; intros self.
  - simpl. unfold fallback_registrations. simpl. by rewrite app_nil_r.
  - rewrite register_all_cons, IH.
    unfold fallback_registrations, register, add_provider. simpl.
    destruct (reg_is_primary r); simpl; [reflexivity|].
    by rewrite <- app_assoc.
Qed.

Lemma register_all_services rs : forall self p,
  is_Some (services (register_all self rs) !! p) <->
  is_Some (services self !! p) \/ p ∈ List.map reg_provider rs.
Proof.
  induction rs as [|r rs IH]; intros self p.
  - simpl. split; [auto|]. intros [H|H]; [exact H|]. by apply elem_of_nil in H.
  - rewrite register_all_cons, IH. simpl.
    assert (Hs : services (register self r)
                 = <[reg_provider r := create_service (reg_provider r) (reg_api_key r)
                                         (reg_model r)]> (services self)).
    { unfold register, add_provider. by destruct (reg_is_primary r). }
    rewrite Hs, elem_of_cons.
    destruct (decide (reg_provider r = p)) as [->|Hne].
    + rewrite lookup_insert_eq. split; [intros _; right; by left|intros _; left; eauto].
    + rewrite lookup_insert_ne by done. split; intros [H|H]; auto.
      destruct H as [H|H]; [congruence|auto].
Qed.

(** The chain after the explicit-provider test never raises. *)
Lemma try_fallbacks_ok svcs fallbacks prompt kw :
  exists text, (try_fallbacks svcs fallbacks prompt kw).1 = Ok text.
Proof.
  induction fallbacks as [|q qs IH]; simpl; [eauto|].
  destruct (svcs !! q) as [svc|]; [|exact IH].
  destruct (generate svc prompt kw); simpl; [eauto|].
  destruct (try_fallbacks svcs qs prompt kw). exact IH.
Qed.

Lemma dispatch_chain_ok self prompt kw :
  exists text, (dispatch_chain self prompt kw).1 = Ok text.
Proof.
  unfold dispatch_chain.
  pose proof (try_fallbacks_ok (services self) (fallback_providers self) prompt kw) as H.
  destruct (primary_provider self) as [p|]; [|exact H].
  destruct (services self !! p) as [svc|]; [|exact H].
  destruct (generate svc prompt kw); simpl; [eauto|].
  destruct (try_fallbacks _ _ _ _). exact H.
Qed.

Lemma invoked_app evs1 evs2 : invoked (evs1 ++ evs2) = invoked evs1 ++ invoked evs2.
Proof.
  induction evs1 as [|ev evs1 IH]; [reflexivity|].
  destruct ev; simpl; by rewrite IH.
Qed.

Lemma failure_events_unregistered svcs prompt kw printed q :
  svcs !! q = None -> failure_events svcs prompt kw printed q = [].
Proof. intros H. unfold failure_events. by rewrite H. Qed.

Lemma failure_events_raise svcs prompt kw printed q svc e :
  svcs !! q = Some svc -> generate svc prompt kw = Raise e ->
  failure_events svcs prompt kw printed q = [Invoked q; printed q e].
Proof. intros H He. unfold failure_events. by rewrite H, He. Qed.

(** The fallbacks before the first one that answers leave their failures,
    and the loop stops at the answer. *)
Lemma try_fallbacks_first_success svcs prompt kw failed F rest svcF out :
  Forall (skipped svcs prompt kw) failed ->
  svcs !! F = Some svcF ->
  generate svcF prompt kw = Ok out ->
  try_fallbacks svcs (failed ++ F :: rest) prompt kw
    = (Ok out,
       concat (List.map (failure_events svcs prompt kw PrintedFallbackError) failed)
       ++ [Invoked F]).
Proof.
  intros Hfailed HF Hout. induction Hfailed as [|q qs Hq _ IH]; simpl.
  - by rewrite HF, Hout.
  - destruct (svcs !! q) as [svc|] eqn:Eq.
    + destruct (Hq svc Eq) as [e He].
      by rewrite He, IH, (failure_events_raise _ _ _ _ _ _ _ Eq He).
    + by rewrite IH, (failure_events_unregistered _ _ _ _ _ Eq).
Qed.

Lemma try_fallbacks_all_skipped svcs prompt kw fallbacks :
  Forall (skipped svcs prompt kw) fallbacks ->
  try_fallbacks svcs fallbacks prompt kw
    = (Ok demo_document,
       concat (List.map (failure_events svcs prompt kw PrintedFallbackError) fallbacks)).
Proof.
  induction 1 as [|q qs Hq _ IH]; simpl; [reflexivity|].
  destruct (svcs !! q) as [svc|] eqn:Eq.
  - destruct (Hq svc Eq) as [e He].
    by rewrite He, IH, (failure_events_raise _ _ _ _ _ _ _ Eq He).
  - by rewrite IH, (failure_events_unregistered _ _ _ _ _ Eq).
Qed.

Lemma dispatch_chain_all_fail self prompt kw :
  Forall (skipped (services self) prompt kw) (chain_order self) ->
  dispatch_chain self prompt kw = (Ok demo_document, chain_failure_events self prompt kw).
Proof.
  unfold dispatch_chain, chain_order, chain_failure_events. intros Hall.
  destruct (primary_provider self) as [p|].
  - apply Forall_cons in Hall as [Hp Hall].
    rewrite (try_fallbacks_all_skipped _ _ _ _ Hall).
    destruct (services self !! p) as [svc|] eqn:Ep.
    + destruct (Hp svc Ep) as [e He].
      by rewrite He, (failure_events_raise _ _ _ _ _ _ _ Ep He).
    + by rewrite (failure_events_unregistered _ _ _ _ _ Ep).
  - by rewrite (try_fallbacks_all_skipped _ _ _ _ Hall).
Qed.

(** A provider that does not answer is invoked exactly when it is
    registered. *)
Lemma invoked_failure_events svcs prompt kw printed qs :
  (forall q e, invoked [printed q e] = []) ->
  Forall (skipped svcs prompt kw) qs ->
  invoked (concat (List.map (failure_events svcs prompt kw printed) qs))
    = List.filter (fun q => bool_decide (is_Some (svcs !! q))) qs.
Proof.
  intros Hpr. induction 1 as [|q qs Hq _ IH]; [reflexivity|].
  cbn [List.map concat List.filter]. rewrite invoked_app, IH.
  destruct (svcs !! q) as [svc|] eqn:Eq.
  - destruct (Hq svc Eq) as [e He]. rewrite (failure_events_raise _ _ _ _ _ _ _ Eq He).
    rewrite bool_decide_eq_true_2 by eauto.
    change (invoked [Invoked q; printed q e]) with (q :: invoked [printed q e]).
    by rewrite Hpr.
  - rewrite (failure_events_unregistered _ _ _ _ _ Eq).
    rewrite bool_decide_eq_false_2; [reflexivity|]. by intros [? ?].
Qed.

Lemma invoked_chain_failure_events self prompt kw :
  Forall (skipped (services self) prompt kw) (chain_order self) ->
  invoked (chain_failure_events self prompt kw) = attempts self.
Proof.
  intros Hall.
  pose proof (invoked_failure_events (services self) prompt kw PrintedFallbackError)
    as Hfb.
  unfold chain_failure_events, attempts, chain_order in *.
  rewrite invoked_app.
  destruct (primary_provider self) as [p|].
  - apply Forall_cons in Hall as [Hp Hall].
    rewrite Hfb by done. cbn [List.filter].
    destruct (services self !! p) as [svc|] eqn:Ep.
    + destruct (Hp svc Ep) as [e He]. rewrite (failure_events_raise _ _ _ _ _ _ _ Ep He).
      by rewrite bool_decide_eq_true_2 by eauto.
    + rewrite (failure_events_unregistered _ _ _ _ _ Ep).
      rewrite bool_decide_eq_false_2; [reflexivity|]. by intros [? ?].
  - by rewrite Hfb.
Qed.

(** The loop over a list of providers: the first registered one that
    answers gives the result, those tried before it having raised; the demo
    document comes only after every registered one has raised. *)
Lemma try_fallbacks_first_answer self qs prompt kw :
  let r := try_fallbacks (services self) qs prompt kw in
  let order := List.filter (fun q => bool_decide (is_Some (services self !! q))) qs in
  (exists before q after text,
      order = before ++ q :: after /\
      Forall (raises self prompt kw) before /\
      answers self prompt kw q text /\
      r.1 = Ok text /\ invoked r.2 = before ++ [q])
  \/ (Forall (raises self prompt kw) order /\
      r.1 = Ok demo_document /\ invoked r.2 = order).
Proof.
  induction qs as [|q qs IH]; cbn [try_fallbacks List.filter].
  - right. by repeat split.
  - destruct (services self !! q) as [svc|] eqn:Eq.
    + rewrite bool_decide_eq_true_2 by eauto.
      destruct (generate svc prompt kw) as [text|e] eqn:Eg.
      * left.
        exists [], q,
          (List.filter (fun q => bool_decide (is_Some (services self !! q))) qs), text.
        repeat split; try done. by exists svc.
      * assert (Hq : raises self prompt kw q) by (by exists svc, e).
        destruct (try_fallbacks (services self) qs prompt kw) as [r evs].
        cbn [fst snd invoked] in *.
        destruct IH as [(before & q' & after & text & Ho & Hb & Ha & Hr & Hi)
                       |(Hall & Hr & Hi)].
        -- left. exists (q :: before), q', after, text.
           rewrite Ho, Hi. repeat split; try done. by constructor.
        -- right. rewrite Hi. repeat split; try done. by constructor.
    + rewrite bool_decide_eq_false_2 by (by intros [? ?]). exact IH.
Qed.

(** The chain returns and invokes what the loop over the primary followed
    by the fallback list does. *)
Lemma dispatch_chain_as_loop self prompt kw :
  (dispatch_chain self prompt kw).1
    = (try_fallbacks (services self) (chain_order self) prompt kw).1 /\
  invoked (dispatch_chain self prompt kw).2
    = invoked (try_fallbacks (services self) (chain_order self) prompt kw).2.
Proof.
  unfold dispatch_chain, chain_order.
  destruct (primary_provider self) as [p|]; [|by split].
  cbn [try_fallbacks].
  destruct (services self !! p) as [svc|]; [|by split].
  destruct (generate svc prompt kw); [by split|].
  by destruct (try_fallbacks (services self) (fallback_providers self) prompt kw).
Qed.

Lemma dispatch_chain_first_answer self prompt kw :
  let r := dispatch_chain self prompt kw in
  (exists before q after text,
      attempts self = before ++ q :: after /\
      Forall (raises self prompt kw) before /\
      answers self prompt kw q text /\
      r.1 = Ok text /\ invoked r.2 = before ++ [q])
  \/ (Forall (raises self prompt kw) (attempts self) /\
      r.1 = Ok demo_document /\ invoked r.2 = attempts self).
Proof.
  destruct (dispatch_chain_as_loop self prompt kw) as [H1 H2].
  cbv zeta. rewrite H1, H2. apply try_fallbacks_first_answer.
Qed.

(** C4, as stated, fails: after OPENAI and then GROQ are registered as
    primary, GROQ is the primary and OPENAI is registered, yet OPENAI is not
    among the fallback candidates. *)
Lemma superseded_primary_is_no_fallback :
  primary_provider (register_all init two_primaries) = Some GROQ /\
  is_Some (services (register_all init two_primaries) !! OPENAI) /\
  fallback_providers (register_all init two_primaries) = [] /\
  ~ others_are_fallbacks (register_all init two_primaries).
Proof.
  assert (Hs : is_Some (services (register_all init two_primaries) !! OPENAI)).
  { apply register_all_services. right. vm_compute. by left. }
  repeat split; [exact Hs|].
  intros H. specialize (H OPENAI Hs).
  assert (Hp : primary_provider (register_all init two_primaries) ≠ Some OPENAI)
    by discriminate.
  apply H in Hp. by apply elem_of_nil in Hp.
Qed.

(** C4, amended: on a new registry, the primary is the provider of the last
    registration marked primary (none when no registration is), the fallback
    list is the providers of the registrations not marked primary, in
    registration order, and every registered provider stays in the service
    table; so a provider is a fallback candidate exactly when one of its
    registrations was not marked primary. *)
Theorem register_last_primary_wins (rs : list Registration) :
  primary_provider (register_all init rs) = last (primary_registrations rs) /\
  fallback_providers (register_all init rs) = fallback_registrations rs /\
  (forall p, is_Some (services (register_all init rs) !! p) <->
             p ∈ List.map reg_provider rs) /\
  (forall p, p ∈ fallback_providers (register_all init rs) <->
             exists r, r ∈ rs /\ reg_provider r = p /\ reg_is_primary r = false).
Proof.
  assert (Hf : fallback_providers (register_all init rs) = fallback_registrations rs)
    by apply register_all_fallbacks.
  split; [|split; [exact Hf|split]].
  - rewrite register_all_primary. by destruct (last _).
  - intros p. rewrite register_all_services. simpl. rewrite lookup_empty.
    split; [intros [H|H]; [by destruct H|exact H]|auto].
  - intros p. rewrite Hf. unfold fallback_registrations.
    rewrite list_elem_of_In, in_map_iff. split.
    + intros (r & Hr & Hin). apply filter_In in Hin as [Hin Hb].
      exists r. rewrite list_elem_of_In. by destruct (reg_is_primary r).
    + intros (r & Hin & Hr & Hb). exists r. split; [exact Hr|].
      apply filter_In. rewrite <- list_elem_of_In. by rewrite Hb.
Qed.

(** C9: an explicit provider that is not registered changes nothing: the
    call is the call without an explicit provider, event for event, and does
    not raise.  It goes through the chain: a registered primary that answers
    is the only backend invoked and gives the result; in general the result
    is the answer of the first registered provider, in the order primary and
    then fallback list, that does not raise, every one before it having been
    invoked and having raised; and the demo document is returned exactly
    after every registered provider of the chain was invoked and raised.  On
    a registry built by registrations that order is the last registration
    marked primary followed by the unmarked ones in registration order. *)
Theorem dispatch_unregistered_explicit_falls_through
    (self : MultiAIService) (prompt : string) (kw : Kwargs) (p : AIProvider) :
  services self !! p = None ->
  let r := generate_content self prompt (Some p) kw in
  r = generate_content self prompt None kw /\
  (exists text, r.1 = Ok text) /\
  (forall P text, primary_provider self = Some P ->
     answers self prompt kw P text -> r = (Ok text, [Invoked P])) /\
  ((exists before q after text,
       attempts self = before ++ q :: after /\
       Forall (raises self prompt kw) before /\
       answers self prompt kw q text /\
       r.1 = Ok text /\ invoked r.2 = before ++ [q])
   \/ (Forall (raises self prompt kw) (attempts self) /\
       r.1 = Ok demo_document /\ invoked r.2 = attempts self)) /\
  (forall rs, self = register_all init rs ->
     chain_order self
       = match last (primary_registrations rs) with
         | Some P => P :: fallback_registrations rs
         | None => fallback_registrations rs
         end).
Proof.
  intros Hp r. unfold r, generate_content. rewrite Hp.
  split; [reflexivity|]. split; [apply dispatch_chain_ok|].
  split; [|split; [apply dispatch_chain_first_answer|]].
  - intros P text HP (svc & Hsvc & Hg). unfold dispatch_chain.
    by rewrite HP, Hsvc, Hg.
  - intros rs ->. unfold chain_order.
    rewrite register_all_primary, register_all_fallbacks. simpl.
    by destruct (last (primary_registrations rs)).
Qed.

(** A registry with GROQ as its only provider, asked for OLLAMA. *)
Lemma dispatch_unregistered_explicit_falls_through_witness :
  let self := add_provider init GROQ "key" None true in
  generate_content self "p" (Some OLLAMA) sample_kwargs
    = generate_content self "p" None sample_kwargs /\
  generate_content self "p" (Some OLLAMA) sample_kwargs
    = (Ok (groq_document "mixtral-8x7b-32768"), [Invoked GROQ]).
Proof.
  destruct (dispatch_unregistered_explicit_falls_through
              (add_provider init GROQ "key" None true) "p" sample_kwargs OLLAMA eq_refl)
    as (H1 & _ & H3 & _).
  split; [exact H1|].
  apply H3; [reflexivity|]. eexists. split; reflexivity.
Defined.

(** C6: with a primary [P] that raises and a fallback [F] that answers, the
    fallbacks listed before [F] being unregistered or raising, the call
    without an explicit provider invokes [P], prints its failure, invokes the
    registered fallbacks before [F] in order, printing the failure of each,
    then invokes [F] and returns its answer; the call that names [P] raises
    the failure of [P] and invokes [P] alone.  A call that names no
    registered provider returns the demo document whenever every provider of
    the chain, the primary and the fallback list, is unregistered or raises:
    it has then invoked every registered one of them, in chain order, and
    printed each failure; in particular it returns the demo document and
    invokes nothing when no provider is registered. *)
Theorem dispatch_fallback_contract
    (self : MultiAIService) (prompt : string) (kw : Kwargs)
    (P F : AIProvider) (svcP svcF : AIServiceBase) (eP : Exception)
    (out : string) (failed rest : list AIProvider) :
  primary_provider self = Some P ->
  services self !! P = Some svcP ->
  generate svcP prompt kw = Raise eP ->
  fallback_providers self = failed ++ F :: rest ->
  Forall (skipped (services self) prompt kw) failed ->
  services self !! F = Some svcF ->
  generate svcF prompt kw = Ok out ->
  generate_content self prompt None kw
    = (Ok out,
       Invoked P :: PrintedPrimaryError P eP
       :: concat (List.map (failure_events (services self) prompt kw PrintedFallbackError)
                    failed)
       ++ [Invoked F]) /\
  generate_content self prompt (Some P) kw = (Raise eP, [Invoked P]) /\
  (forall (other : MultiAIService) (provider : option AIProvider),
      Forall (skipped (services other) prompt kw) (chain_order other) ->
      (forall p, provider = Some p -> services other !! p = None) ->
      generate_content other prompt provider kw
        = (Ok demo_document, chain_failure_events other prompt kw) /\
      invoked (generate_content other prompt provider kw).2 = attempts other) /\
  (forall (other : MultiAIService) (provider : option AIProvider),
      services other = ∅ ->
      generate_content other prompt provider kw = (Ok demo_document, [])).
Proof.
  intros Hprim HP HeP Hfb Hfailed HF Hout.
  assert (Hdemo : forall (other : MultiAIService) (provider : option AIProvider),
             Forall (skipped (services other) prompt kw) (chain_order other) ->
             (forall p, provider = Some p -> services other !! p = None) ->
             generate_content other prompt provider kw
               = (Ok demo_document, chain_failure_events other prompt kw)).
  { intros other provider Hall Hun. unfold generate_content.
    destruct provider as [p|]; [rewrite (Hun p eq_refl)|];
      by apply dispatch_chain_all_fail. }
  split; [|split; [|split]].
  - unfold generate_content, dispatch_chain. rewrite Hprim, HP, HeP, Hfb.
    by rewrite (try_fallbacks_first_success (services self) prompt kw failed F rest
                  svcF out Hfailed HF Hout).
  - unfold generate_content. by rewrite HP, HeP.
  - intros other provider Hall Hun. split; [by apply Hdemo|].
    rewrite (Hdemo other provider Hall Hun). cbn [snd].
    by apply invoked_chain_failure_events.
  - intros other provider Hempty.
    assert (Hskip : Forall (skipped (services other) prompt kw) (chain_order other)).
    { apply Forall_forall. intros q _ svc Hq. by rewrite Hempty, lookup_empty in Hq. }
    rewrite (Hdemo other provider Hskip);
      [|intros q _; by rewrite Hempty, lookup_empty].
    f_equal. unfold chain_failure_events.
    assert (Hno : forall printed q,
               failure_events (services other) prompt kw printed q = []).
    { intros printed q. apply failure_events_unregistered.
      by rewrite Hempty, lookup_empty. }
    assert (Hfbs : concat (List.map (failure_events (services other) prompt kw
                                       PrintedFallbackError)
                             (fallback_providers other)) = []).
    { induction (fallback_providers other) as [|q' qs IH]; [reflexivity|].
      cbn [List.map concat]. by rewrite Hno, IH. }
    rewrite Hfbs. destruct (primary_provider other) as [q|]; [by rewrite Hno|done].
Qed.

(** OPENAI, the primary, raises and GROQ, the fallback, answers; and a
    registry whose primary GROQ raises while OPENAI, which would answer, is
    outside the chain. *)
Lemma dispatch_fallback_contract_witness :
  generate_content failing_primary_registry "p" None sample_kwargs
    = (Ok (groq_document "mixtral-8x7b-32768"),
       [Invoked OPENAI; PrintedPrimaryError OPENAI (RuntimeError "boom"); Invoked GROQ]) /\
  generate_content failing_primary_registry "p" (Some OPENAI) sample_kwargs
    = (Raise (RuntimeError "boom"), [Invoked OPENAI]) /\
  generate_content unlisted_working_registry "p" None sample_kwargs
    = (Ok demo_document, [Invoked GROQ; PrintedPrimaryError GROQ (RuntimeError "boom")]) /\
  generate_content init "p" (Some GROQ) sample_kwargs = (Ok demo_document, []).
Proof.
  destruct (dispatch_fallback_contract failing_primary_registry "p" sample_kwargs
              OPENAI GROQ (failing_service (RuntimeError "boom"))
              (GroqService "key" "mixtral-8x7b-32768") (RuntimeError "boom")
              (groq_document "mixtral-8x7b-32768") [] [])
    as (H1 & H2 & H3 & H4); try reflexivity; [constructor|].
  split; [exact H1|]. split; [exact H2|]. split.
  - apply (H3 unlisted_working_registry None); [|discriminate].
    repeat constructor. intros svc Hsvc.
    exists (RuntimeError "boom"). by inversion Hsvc.
  - by apply H4.
Defined.

End Registry.

(** ** Content structuring *)

Section Structuring.

Import ContentService.

Variable lower : string -> string.
Variable strip : string -> string.

Lemma append_cons c (s1 s2 : string) : String c s1 +:+ s2 = String c (s1 +:+ s2).
Proof. reflexivity. Qed.

Lemma split_lines_cons s : exists l ls, Str.split_lines s = l :: ls.
Proof.
  destruct s as [|c s]; simpl; [eauto|].
  destruct (Stdlib.Strings.Ascii.eqb c Str.LF); [eauto|].
  destruct (Str.split_lines s); eauto.
Qed.

Lemma join_cons_char c l ls :
  Str.join Str.nl (String c l :: ls) = String c (Str.join Str.nl (l :: ls)).
Proof. destruct ls; reflexivity. Qed.

(** Joining the lines of a text with line feeds gives the text back. *)
Lemma join_split_lines s : Str.join Str.nl (Str.split_lines s) = s.
Proof.
  induction s as [|c s IH]; [reflexivity|]. simpl.
  destruct (Stdlib.Strings.Ascii.eqb c Str.LF) eqn:Ec.
  - apply Stdlib.Strings.Ascii.eqb_eq in Ec. subst c.
    destruct (split_lines_cons s) as (l & ls & E). rewrite E in *.
    change (Str.join Str.nl ("" :: l :: ls)) with (Str.nl +:+ Str.join Str.nl (l :: ls)).
    by rewrite IH.
  - destruct (split_lines_cons s) as (l & ls & E). rewrite E in *.
    by rewrite join_cons_char, IH.
Qed.

Lemma is_trigger_false line :
  is_trigger lower line = false ->
  any_keyword lower intro_keywords line = false /\
  any_keyword lower objective_keywords line = false /\
  any_keyword lower conclusion_keywords line = false.
Proof.
  unfold is_trigger. intros H.
  apply orb_false_iff in H as [H H3]. apply orb_false_iff in H as [H1 H2]. auto.
Qed.

Lemma classify_no_trigger st line :
  is_trigger lower line = false -> classify lower line st = st.
Proof.
  intros H. apply is_trigger_false in H as (H1 & H2 & H3).
  unfold classify. by rewrite H1, H2, H3.
Qed.

Lemma classify_objective st line :
  is_objective_line lower line = true ->
  classify lower line st = switch_to "objectives" st.
Proof.
  unfold is_objective_line, classify. intros H.
  apply andb_true_iff in H as [Ho Hi]. apply negb_true_iff in Hi.
  by rewrite Hi, Ho.
Qed.

Lemma scan_lines_app st ls1 ls2 :
  scan_lines lower st (ls1 ++ ls2) = scan_lines lower (scan_lines lower st ls1) ls2.
Proof. apply foldl_app. Qed.

(** Lines without keywords only grow the buffer. *)
Lemma scan_lines_no_trigger ls : forall st,
  Forall (fun l => is_trigger lower l = false) ls ->
  scan_lines lower st ls =
    {| sections := sections st; current_section := current_section st;
       section_content := section_content st ++ ls |}.
Proof.
  induction ls as [|l ls IH]; intros st Hls.
  - simpl. rewrite app_nil_r. by destruct st.
  - inversion Hls as [|? ? Hl Hls']; subst.
    change (scan_lines lower st (l :: ls))
      with (scan_lines lower (scan_line lower st l) ls).
    rewrite IH by exact Hls'. unfold scan_line.
    rewrite (classify_no_trigger st l Hl). simpl. by rewrite <- app_assoc.
Qed.

Lemma extract_title_default lines :
  Forall (fun l => Str.startswith "# " l = false) lines ->
  extract_title strip lines = default_title.
Proof.
  induction 1 as [|l ls Hl _ IH]; [reflexivity|].
  cbn [extract_title]. by rewrite Hl.
Qed.

Lemma switch_to_current target st : current_section (switch_to target st) = target.
Proof. unfold switch_to. by destruct (section_content st). Qed.

Lemma switch_to_content target st : section_content (switch_to target st) = [].
Proof. unfold switch_to. by destruct (section_content st). Qed.

Lemma switch_to_other target st k :
  k ≠ current_section st -> sections (switch_to target st) !! k = sections st !! k.
Proof.
  intros Hk. unfold switch_to. destruct (section_content st); simpl; [reflexivity|].
  by rewrite lookup_insert_ne.
Qed.

Lemma switch_to_flushes target st :
  section_content st ≠ [] ->
  sections (switch_to target st) !! current_section st
    = Some (Str.join Str.nl (section_content st)).
Proof.
  intros Hc. unfold switch_to. destruct (section_content st); [done|]. simpl.
  by rewrite lookup_insert_eq.
Qed.

(** While the pointer is elsewhere and no objective line comes, the
    objectives slot keeps its text to the end of the scan. *)
Lemma objectives_slot_kept ls : forall st,
  current_section st ≠ "objectives" ->
  Forall (fun l => is_objective_line lower l = false) ls ->
  finish (scan_lines lower st ls) !! "objectives" = sections st !! "objectives".
Proof.
  induction ls as [|l ls IH]; intros st Hcur Hls.
  - simpl. unfold finish. destruct (section_content st); [reflexivity|].
    by rewrite lookup_insert_ne.
  - inversion Hls as [|? ? Hl Hls']; subst.
    change (scan_lines lower st (l :: ls))
      with (scan_lines lower (scan_line lower st l) ls).
    unfold is_objective_line in Hl.
    assert (Hstep : current_section (classify lower l st) ≠ "objectives" /\
                    sections (classify lower l st) !! "objectives"
                      = sections st !! "objectives").
    { unfold classify.
      destruct (any_keyword lower intro_keywords l) eqn:E1.
      - rewrite switch_to_current, switch_to_other by done. done.
      - destruct (any_keyword lower objective_keywords l) eqn:E2; [discriminate|].
        destruct (any_keyword lower conclusion_keywords l) eqn:E3; [|done].
        rewrite switch_to_current, switch_to_other by done. done. }
    destruct Hstep as [Hc Hs].
    rewrite IH; [exact Hs|exact Hc|exact Hls'].
Qed.

(** A trigger that is not an objective line, met while the pointer is on
    objectives, writes the buffer to the objectives slot and moves the
    pointer away. *)
Lemma objectives_flushed_by_trigger st t :
  current_section st = "objectives" ->
  section_content st ≠ [] ->
  is_trigger lower t = true ->
  is_objective_line lower t = false ->
  sections (scan_line lower st t) !! "objectives"
    = Some (Str.join Str.nl (section_content st)) /\
  current_section (scan_line lower st t) ≠ "objectives".
Proof.
  intros Hcur Hc Ht Ho. unfold scan_line. simpl.
  unfold is_trigger in Ht. unfold is_objective_line in Ho. unfold classify.
  destruct (any_keyword lower intro_keywords t) eqn:E1.
  - rewrite switch_to_current. rewrite <- Hcur at 1.
    by rewrite switch_to_flushes.
  - destruct (any_keyword lower objective_keywords t) eqn:E2; [discriminate|].
    destruct (any_keyword lower conclusion_keywords t) eqn:E3; [|discriminate].
    rewrite switch_to_current. rewrite <- Hcur at 1.
    by rewrite switch_to_flushes.
Qed.

(** C7: when no line of the text contains a keyword, the whole text is the
    development slot and the three other slots are empty; when moreover no
    line starts with the heading marker, the title is the default title. *)
Theorem structure_without_keywords (ai_content : string) (content_type : ContentType) :
  Forall (fun l => is_trigger lower l = false) (Str.split_lines ai_content) ->
  let out := _structure_content lower strip ai_content content_type in
  structured_sections out = <["development" := ai_content]> empty_sections /\
  structured_sections out !! "development" = Some ai_content /\
  structured_sections out !! "introduction" = Some "" /\
  structured_sections out !! "objectives" = Some "" /\
  structured_sections out !! "conclusion" = Some "" /\
  markdown out = ai_content /\
  (Forall (fun l => Str.startswith "# " l = false) (Str.split_lines ai_content) ->
   title out = default_title).
Proof.
  intros Hno out.
  assert (Hs : structured_sections out = <["development" := ai_content]> empty_sections).
  { unfold out, _structure_content. cbn [structured_sections].
    rewrite (scan_lines_no_trigger _ scan_start Hno). unfold finish. simpl.
    destruct (split_lines_cons ai_content) as (l & ls & E).
    rewrite <- (join_split_lines ai_content) at 2. by rewrite E. }
  split; [exact Hs|]. rewrite Hs.
  split; [apply lookup_insert_eq|].
  split; [by rewrite lookup_insert_ne|].
  split; [by rewrite lookup_insert_ne|].
  split; [by rewrite lookup_insert_ne|].
  split; [reflexivity|].
  intros Hnt. unfold out, _structure_content. cbn [title].
  by apply extract_title_default.
Qed.

(** C3, amended: an objective line moves the pointer to objectives, whatever
    the scan did before; the line and the lines after it up to the next
    trigger are written as one block to the objectives slot, and the block is
    the objectives slot of the returned map when no later line is an
    objective line. *)
Theorem objective_block_assigned
    (ai_content : string) (content_type : ContentType)
    (before block after : list string) (line : string) :
  Str.split_lines ai_content = before ++ line :: block ++ after ->
  is_objective_line lower line = true ->
  Forall (fun l => is_trigger lower l = false) block ->
  (after = [] \/ exists t rest, after = t :: rest /\ is_trigger lower t = true) ->
  Forall (fun l => is_objective_line lower l = false) after ->
  (forall st, current_section (scan_line lower st line) = "objectives") /\
  current_section (scan_lines lower scan_start (before ++ [line])) = "objectives" /\
  section_content (scan_lines lower scan_start (before ++ line :: block))
    = line :: block /\
  structured_sections (_structure_content lower strip ai_content content_type)
    !! "objectives" = Some (Str.join Str.nl (line :: block)).
Proof.
  intros Hlines Hobj Hblock Hafter Hnone.
  assert (Hptr : forall st, current_section (scan_line lower st line) = "objectives").
  { intros st. unfold scan_line. cbn [current_section].
    by rewrite classify_objective, switch_to_current. }
  assert (Hbuf : forall st, section_content (scan_line lower st line) = [line]).
  { intros st. unfold scan_line. cbn [section_content].
    by rewrite classify_objective, switch_to_content. }
  set (s0 := scan_lines lower scan_start before).
  set (s1 := scan_line lower s0 line).
  assert (E1 : scan_lines lower scan_start (before ++ [line]) = s1).
  { by rewrite scan_lines_app. }
  assert (E2 : scan_lines lower scan_start (before ++ line :: block)
               = {| sections := sections s1; current_section := "objectives";
                    section_content := line :: block |}).
  { change (line :: block) with ([line] ++ block) at 1.
    rewrite app_assoc, scan_lines_app, E1.
    rewrite (scan_lines_no_trigger _ s1 Hblock).
    unfold s1. by rewrite Hptr, Hbuf. }
  split; [exact Hptr|]. split; [by rewrite E1; apply Hptr|].
  split; [by rewrite E2|].
  unfold _structure_content. cbn [structured_sections]. rewrite Hlines.
  replace (before ++ line :: block ++ after) with ((before ++ line :: block) ++ after)
    by (by rewrite <- app_assoc).
  rewrite scan_lines_app, E2.
  destruct Hafter as [->|(t & rest & -> & Ht)].
  - simpl. unfold finish. simpl. by rewrite lookup_insert_eq.
  - inversion Hnone as [|? ? Hto Hrest]; subst.
    change (scan_lines lower ?st (t :: rest))
      with (scan_lines lower (scan_line lower st t) rest).
    match goal with |- finish (scan_lines lower (scan_line lower ?st t) rest) !! _ = _ =>
      destruct (objectives_flushed_by_trigger st t) as [Hslot Hcur]; try done;
      rewrite (objectives_slot_kept rest _ Hcur Hrest); exact Hslot
    end.
Qed.

End Structuring.

(** *** The scan on concrete texts *)

Section StructuringExamples.

Import ContentService Samples.

(** C3, as stated, fails: in the text with the lines "objective 1",
    "conclusion", "objective 2" the first line is an objective line, yet the
    objectives slot of the returned map is "objective 2": the second flush to
    the slot replaced the first block. *)
Lemma objective_line_overwritten :
  is_objective_line Str.ascii_lower "objective 1" = true /\
  "objective 1" ∈ Str.split_lines two_objective_blocks /\
  structured_sections
    (_structure_content Str.ascii_lower Str.ascii_strip two_objective_blocks CLASS_SESSION)
    !! "objectives" = Some "objective 2" /\
  ~ objective_lines_in_objectives_slot Str.ascii_lower Str.ascii_strip
      two_objective_blocks.
Proof.
  assert (Hin : "objective 1" ∈ Str.split_lines two_objective_blocks)
    by (vm_compute; by left).
  split; [by vm_compute|]. split; [exact Hin|]. split; [by vm_compute|].
  intros H. destruct (H "objective 1" Hin) as (text & Htext & Hline); [by vm_compute|].
  vm_compute in Htext. inversion Htext; subst text.
  vm_compute in Hline. apply list_elem_of_singleton in Hline. discriminate.
Qed.

Lemma objective_block_assigned_witness :
  (forall st, current_section (scan_line Str.ascii_lower st "objective 1") = "objectives") /\
  current_section (scan_lines Str.ascii_lower scan_start (["notes"] ++ ["objective 1"]))
    = "objectives" /\
  section_content (scan_lines Str.ascii_lower scan_start
                     (["notes"] ++ "objective 1" :: ["more"]))
    = "objective 1" :: ["more"] /\
  structured_sections
    (_structure_content Str.ascii_lower Str.ascii_strip one_objective_block CLASS_SESSION)
    !! "objectives" = Some (Str.join Str.nl ("objective 1" :: ["more"])).
Proof.
  apply (objective_block_assigned Str.ascii_lower Str.ascii_strip one_objective_block
           CLASS_SESSION ["notes"] ["more"] ["conclusion"; "end"] "objective 1").
  - reflexivity.
  - reflexivity.
  - repeat constructor.
  - right. exists "conclusion", ["end"]. split; reflexivity.
  - repeat constructor.
Defined.

Lemma structure_without_keywords_witness :
  let out := _structure_content Str.ascii_lower Str.ascii_strip plain_text STUDY_GUIDE in
  structured_sections out = <["development" := plain_text]> empty_sections /\
  structured_sections out !! "development" = Some plain_text /\
  structured_sections out !! "introduction" = Some "" /\
  structured_sections out !! "objectives" = Some "" /\
  structured_sections out !! "conclusion" = Some "" /\
  markdown out = plain_text /\
  (Forall (fun l => Str.startswith "# " l = false) (Str.split_lines plain_text) ->
   title out = default_title).
Proof.
  apply (structure_without_keywords Str.ascii_lower Str.ascii_strip plain_text STUDY_GUIDE).
  repeat constructor.
Defined.

(** The canned document of the Groq backend: its "## Objetivos" line
    matches the first test of the chain, so the objectives slot stays empty
    and the text from that line on is filed under introduction. *)
Example groq_document_objectives_slot :
  structured_sections
    (_structure_content Str.ascii_lower Str.ascii_strip
       (AI.groq_document "mixtral-8x7b-32768") CLASS_SESSION)
    !! "objectives" = Some "" /\
  any_keyword Str.ascii_lower intro_keywords "## Objetivos" = true /\
  current_section (scan_line Str.ascii_lower scan_start "## Objetivos") = "introduction".
Proof. by vm_compute. Qed.

End StructuringExamples.

(** ** Queries and commits on a table *)

Section Rows.

Context {A : Type} (key : A -> UUID).

Lemma rows_first_Some x rows r :
  rows_first key x rows = Some r -> r ∈ rows /\ key r = x.
Proof.
  unfold rows_first. intros H. apply find_some in H as [Hin Hk].
  split; [by apply list_elem_of_In|]. by apply bool_decide_eq_true in Hk.
Qed.

Lemma rows_first_None x rows :
  rows_first key x rows = None <-> (forall r, r ∈ rows -> key r ≠ x).
Proof.
  unfold rows_first. split.
  - intros H r Hin Hk. apply list_elem_of_In in Hin.
    pose proof (find_none _ _ H r Hin) as Hn. simpl in Hn.
    by apply bool_decide_eq_false in Hn.
  - intros H. induction rows as [|r rows IH]; [reflexivity|]. simpl.
    rewrite bool_decide_eq_false_2 by (apply H; by left).
    apply IH. intros r' Hin. apply H. by right.
Qed.

Lemma rows_first_is_Some x rows :
  is_Some (rows_first key x rows) <-> x ∈ List.map key rows.
Proof.
  split.
  - intros [r Hr]. apply rows_first_Some in Hr as [Hin <-].
    apply list_elem_of_In, in_map. by apply list_elem_of_In.
  - intros Hin. destruct (rows_first key x rows) eqn:E; [eauto|].
    apply list_elem_of_In, in_map_iff in Hin as (r & Hk & Hin).
    apply list_elem_of_In in Hin. by destruct (proj1 (rows_first_None x rows) E r Hin).
Qed.

(** Under the primary-key constraint a row is the one its key finds. *)
Lemma rows_first_unique rows r :
  NoDup (List.map key rows) -> r ∈ rows -> rows_first key (key r) rows = Some r.
Proof.
  unfold rows_first. induction rows as [|r' rows IH]; intros Hnd Hin.
  - by apply elem_of_nil in Hin.
  - simpl in *. apply NoDup_cons in Hnd as [Hnotin Hnd].
    apply elem_of_cons in Hin as [->|Hin].
    + by rewrite bool_decide_eq_true_2.
    + rewrite bool_decide_eq_false_2; [by apply IH|].
      intros Heq. apply Hnotin. rewrite Heq.
      apply list_elem_of_In, in_map. by apply list_elem_of_In.
Qed.

Lemma rows_update_keys obj rows :
  List.map key (rows_update key obj rows) = List.map key rows.
Proof.
  unfold rows_update. induction rows as [|r rows IH]; [reflexivity|]. simpl.
  rewrite IH. by case_bool_decide as Hk; [rewrite Hk|].
Qed.

Lemma rows_update_twice o1 o2 rows :
  key o1 = key o2 ->
  rows_update key o2 (rows_update key o1 rows) = rows_update key o2 rows.
Proof.
  intros Hk. unfold rows_update. rewrite List.map_map. apply map_ext. intros r.
  rewrite Hk. destruct (decide (key r = key o2)) as [H1|H1].
  - rewrite (bool_decide_eq_true_2 _ H1). by rewrite bool_decide_eq_true_2.
  - rewrite (bool_decide_eq_false_2 _ H1). by rewrite bool_decide_eq_false_2.
Qed.

Lemma rows_update_other obj rows r :
  r ∈ rows -> key r ≠ key obj -> r ∈ rows_update key obj rows.
Proof.
  intros Hin Hk. unfold rows_update.
  apply list_elem_of_In, in_map_iff. exists r. split; [|by apply list_elem_of_In].
  by rewrite bool_decide_eq_false_2.
Qed.

Lemma rows_update_elem obj rows r :
  r ∈ rows_update key obj rows -> r = obj \/ r ∈ rows.
Proof.
  unfold rows_update. intros Hin.
  apply list_elem_of_In, in_map_iff in Hin as (r' & Hr & Hin).
  apply list_elem_of_In in Hin. case_bool_decide; subst; auto.
Qed.

Lemma rows_update_first obj rows :
  is_Some (rows_first key (key obj) rows) ->
  rows_first key (key obj) (rows_update key obj rows) = Some obj.
Proof.
  unfold rows_first, rows_update. induction rows as [|r rows IH]; intros [r0 H].
  - discriminate.
  - simpl in *. case_bool_decide as Hk.
    + by rewrite bool_decide_eq_true_2.
    + rewrite bool_decide_eq_false_2 by done. apply IH. eauto.
Qed.

Lemma rows_update_first_ne obj rows x :
  x ≠ key obj ->
  rows_first key x (rows_update key obj rows) = rows_first key x rows.
Proof.
  intros Hx. unfold rows_first, rows_update.
  induction rows as [|r rows IH]; [reflexivity|]. simpl.
  destruct (decide (key r = key obj)) as [Hk|Hk].
  - rewrite (bool_decide_eq_true_2 _ Hk).
    rewrite !bool_decide_eq_false_2 by congruence. exact IH.
  - rewrite (bool_decide_eq_false_2 _ Hk). by rewrite IH.
Qed.

Lemma rows_first_app x rows r :
  rows_first key x (rows ++ [r]) =
    match rows_first key x rows with
    | Some r' => Some r'
    | None => if bool_decide (key r = x) then Some r else None
    end.
Proof.
  unfold rows_first. induction rows as [|r' rows IH]; simpl; [done|].
  by destruct (bool_decide (key r' = x)).
Qed.

(** The rows a query by a list of ids returns do not depend on the order of
    the list, nor on repetitions in it. *)
Lemma rows_in_ext xs ys rows :
  (forall x, x ∈ xs <-> x ∈ ys) -> rows_in key xs rows = rows_in key ys rows.
Proof.
  intros H. unfold rows_in. apply filter_ext. intros r.
  apply bool_decide_ext, H.
Qed.

Lemma rows_in_keys xs rows x :
  x ∈ List.map key (rows_in key xs rows) <-> x ∈ xs /\ x ∈ List.map key rows.
Proof.
  unfold rows_in. rewrite !list_elem_of_In, !in_map_iff. split.
  - intros (r & Hk & Hin). apply filter_In in Hin as [Hin Hm].
    apply bool_decide_eq_true in Hm. subst x.
    split; [by apply list_elem_of_In|eauto].
  - intros [Hx (r & Hk & Hin)]. exists r. split; [exact Hk|].
    apply filter_In. split; [exact Hin|]. apply bool_decide_eq_true.
    rewrite Hk. by apply list_elem_of_In.
Qed.

Lemma rows_in_NoDup xs rows :
  NoDup (List.map key rows) -> NoDup (List.map key (rows_in key xs rows)).
Proof.
  unfold rows_in. induction rows as [|r rows IH]; intros Hnd; [constructor|].
  simpl in *. apply NoDup_cons in Hnd as [Hnotin Hnd].
  case_bool_decide; [|by apply IH]. simpl. apply NoDup_cons. split; [|by apply IH].
  intros Hin. apply Hnotin.
  apply list_elem_of_In, in_map_iff in Hin as (r' & Hk & Hin).
  apply filter_In in Hin as [Hin _].
  apply list_elem_of_In, in_map_iff. eauto.
Qed.

End Rows.

Lemma remove_dups_length_le (l : list UUID) : (length (remove_dups l) <= length l)%nat.
Proof.
  induction l as [|x l IH]; simpl; [lia|]. case_decide; simpl; lia.
Qed.

Lemma remove_dups_length_lt (l : list UUID) :
  ~ NoDup l -> (length (remove_dups l) < length l)%nat.
Proof.
  induction l as [|x l IH]; intros Hnd.
  - destruct Hnd. constructor.
  - simpl. pose proof (remove_dups_length_le l). case_decide as Hx; simpl; [lia|].
    assert (~ NoDup l) by (intros H'; apply Hnd; by constructor).
    specialize (IH ltac:(assumption)). lia.
Qed.

(** ** The generation pipeline *)

Section GenerationPipeline.

Import ContentService.

Variable lower : string -> string.
Variable strip : string -> string.

Ltac run_worker :=
  cbv beta iota zeta delta
    [_process_generation mbind Run_bind assign db_commit self_generation
     query_document lift db_add generation_body generation_handler try_except
     db generation added written].

(** The commits of a run, and the generation table after it. *)
Lemma process_generation_run env id d g :
  rows_first Generation.id id (generations d) = Some g ->
  (_process_generation lower strip env id d).2
    = expected_trace env (outcome env d g) g /\
  generations (_process_generation lower strip env id d).1
    = foldl (fun rows g' => rows_update Generation.id g' rows) (generations d)
        (expected_trace env (outcome env d g) g) /\
  documents (_process_generation lower strip env id d).1 = documents d.
Proof.
  intros Hg. unfold outcome, prompt_of, answer_of.
  run_worker. rewrite Hg. cbn [snd fst].
  change (Generation.set_progress 10
            (Generation.set_started_at (at_start env)
               (Generation.set_status IN_PROGRESS g))) with (picked_up env g).
  destruct (_build_prompt _ (picked_up env g)) as [prompt|e]; [|done].
  destruct (AI.generate_content _ _ _ _) as [[ai|e] evs]; done.
Qed.

Lemma expected_trace_ids env o g g' :
  g' ∈ expected_trace env o g -> Generation.id g' = Generation.id g.
Proof.
  destruct o; simpl; intros H;
    repeat (apply elem_of_cons in H as [->|H]; [reflexivity|]);
    by apply elem_of_nil in H.
Qed.

(** A run rewrites the row of its job with the last version it committed,
    which is terminal, and no other row. *)
Lemma generations_after_run env id d g :
  rows_first Generation.id id (generations d) = Some g ->
  exists g', last (_process_generation lower strip env id d).2 = Some g' /\
             Generation.id g' = id /\
             terminal (Generation.status g') = true /\
             generations (_process_generation lower strip env id d).1
               = rows_update Generation.id g' (generations d).
Proof.
  intros Hg. destruct (process_generation_run env id d g Hg) as (Ht & Hgens & _).
  destruct (rows_first_Some _ _ _ _ Hg) as [_ Hid].
  rewrite Ht, Hgens. destruct (outcome env d g); simpl;
    eexists; (split; [reflexivity|]); (split; [exact Hid|]);
    (split; [reflexivity|]); by rewrite !rows_update_twice.
Qed.









End GenerationPipeline.

(** ** The export pipeline *)

Section ExportPipeline.

Import ExportService.

(** C8: an individual export whose content id names no content row raises
    the 404 error at once and returns the system as it was: no export row,
    hence no FAILED job, and no worker. *)
Theorem export_individual_unknown_content
    (request : IndividualExportRequest) (new_id : UUID) (now : datetime)
    (sys : System) :
  (forall c, c ∈ contents (store sys) -> Content.id c ≠ ind_content_id request) ->
  export_individual request new_id now sys
    = (Raise (HTTPException 404 "Contenido no encontrado"), sys) /\
  exports (store (export_individual request new_id now sys).2) = exports (store sys) /\
  spawned (export_individual request new_id now sys).2 = spawned sys.
Proof.
  intros Hnone. apply rows_first_None in Hnone.
  unfold export_individual. by rewrite Hnone.
Qed.

(** With every requested id present and the table keyed by id, the rows
    fetched are as many as the distinct ids requested. *)
Lemma rows_in_length_distinct (ids : list UUID) (rows : list Content.t) :
  NoDup (List.map Content.id rows) ->
  (forall cid, cid ∈ ids -> cid ∈ List.map Content.id rows) ->
  length (rows_in Content.id ids rows) = length (remove_dups ids).
Proof.
  intros Hkeys Hall.
  rewrite <- (length_map Content.id (rows_in Content.id ids rows)).
  apply Permutation_length, NoDup_Permutation.
  - by apply rows_in_NoDup.
  - apply NoDup_remove_dups.
  - intros x. rewrite rows_in_keys, elem_of_remove_dups.
    split; [by intros [? _]|]. intros Hx. split; [exact Hx|by apply Hall].
Qed.

(** C10: a combined export that lists an existing content id twice raises
    the 404 error and returns the system as it was, because the rows fetched
    are as many as the distinct ids, fewer than the ids listed. *)
Theorem export_combined_rejects_repeated_id
    (request : CombinedExportRequest) (new_id : UUID) (now : datetime)
    (sys : System) :
  NoDup (List.map Content.id (contents (store sys))) ->
  (forall cid, cid ∈ comb_content_ids request ->
     exists c, c ∈ contents (store sys) /\ Content.id c = cid) ->
  ~ NoDup (comb_content_ids request) ->
  export_combined request new_id now sys
    = (Raise (HTTPException 404 "Algunos contenidos no fueron encontrados"), sys) /\
  length (rows_in Content.id (comb_content_ids request) (contents (store sys)))
    = length (remove_dups (comb_content_ids request)) /\
  (length (remove_dups (comb_content_ids request))
     < length (comb_content_ids request))%nat /\
  exports (store (export_combined request new_id now sys).2) = exports (store sys).
Proof.
  intros Hkeys Hall Hdup.
  assert (Hlen : length (rows_in Content.id (comb_content_ids request)
                           (contents (store sys)))
                 = length (remove_dups (comb_content_ids request))).
  { apply rows_in_length_distinct; [exact Hkeys|].
    intros cid Hcid. destruct (Hall cid Hcid) as (c & Hc & <-).
    apply list_elem_of_In, in_map. by apply list_elem_of_In. }
  pose proof (remove_dups_length_lt _ Hdup) as Hlt.
  assert (Hraise : export_combined request new_id now sys
            = (Raise (HTTPException 404 "Algunos contenidos no fueron encontrados"), sys)).
  { unfold export_combined. rewrite bool_decide_eq_true_2; [reflexivity|]. lia. }
  split; [exact Hraise|]. split; [exact Hlen|]. split; [exact Hlt|].
  by rewrite Hraise.
Qed.

(** C2: [get_file_path] returns a path exactly when the job exists, is
    COMPLETED, the clock has not passed [expires_at], and the recorded path
    exists on disk; otherwise it raises the error of the first check that
    fails, the checks being in this order: 404 for a missing job, 400 for a
    status other than COMPLETED, 410 for an expired job, 404 for a path
    missing on disk. *)
Theorem get_file_path_guard (export_id : UUID) (now : datetime) (sys : System) :
  let job := rows_first ExportJob.id export_id (exports (store sys)) in
  let r := get_file_path export_id now sys in
  (forall path,
     r = Ok path <->
     exists export, job = Some export /\
       ExportJob.status export = COMPLETED /\
       now <= ExportJob.expires_at export /\
       ExportJob.file_path export = Some path /\
       os_path_exists (files sys) path = true) /\
  (job = None -> r = Raise (HTTPException 404 "Exportación no encontrada")) /\
  (forall export, job = Some export ->
     ExportJob.status export ≠ COMPLETED ->
     r = Raise (HTTPException 400 "Exportación no completada")) /\
  (forall export, job = Some export ->
     ExportJob.status export = COMPLETED ->
     ExportJob.expires_at export < now ->
     r = Raise (HTTPException 410 "Archivo expirado")) /\
  (forall export, job = Some export ->
     ExportJob.status export = COMPLETED ->
     now <= ExportJob.expires_at export ->
     (forall path, ExportJob.file_path export = Some path ->
                   os_path_exists (files sys) path = false) ->
     r = Raise (HTTPException 404 "Archivo no encontrado")).
Proof.
  intros job r. unfold r, get_file_path. fold job.
  assert (Hexists : forall path, os_path_exists (files sys) path = true -> path ≠ "").
  { intros path H. unfold os_path_exists in H. apply bool_decide_eq_true in H. tauto. }
  split; [|split; [|split; [|split]]].
  - intros path. split.
    + destruct job as [export|]; [|discriminate].
      case_bool_decide as Hs; [discriminate|].
      case_bool_decide as He; [discriminate|].
      destruct (ExportJob.file_path export) as [p|] eqn:Ep; [|discriminate].
      case_bool_decide as Hp; simpl; [discriminate|].
      destruct (os_path_exists (files sys) p) eqn:Ex; simpl; [|discriminate].
      intros [= <-]. exists export. repeat split; try done. lia.
    + intros (export & -> & Hs & He & Hp & Hx).
      rewrite bool_decide_eq_false_2 by (by rewrite Hs; intros H; apply H).
      rewrite bool_decide_eq_false_2 by lia. rewrite Hp, Hx.
      by rewrite bool_decide_eq_false_2 by (by apply Hexists).
  - by intros ->.
  - intros export -> Hs. by rewrite bool_decide_eq_true_2.
  - intros export -> Hs He.
    rewrite bool_decide_eq_false_2 by (by rewrite Hs; intros H; apply H).
    by rewrite bool_decide_eq_true_2.
  - intros export -> Hs He Hp.
    rewrite bool_decide_eq_false_2 by (by rewrite Hs; intros H; apply H).
    rewrite bool_decide_eq_false_2 by lia.
    destruct (ExportJob.file_path export) as [p|]; [|reflexivity].
    rewrite (Hp p eq_refl). simpl. by rewrite orb_true_r.
Qed.

Lemma string_append_assoc (a b c : string) : (a +:+ b) +:+ c = a +:+ (b +:+ c).
Proof. induction a as [|x a IH]; [reflexivity|]. by rewrite !append_cons, IH. Qed.



(** The rows the worker combines are those of the content table, in table
    order: two requests listing the same ids in different orders get the same
    combined text. *)
Lemma combined_text_ignores_request_order ids ids' rows settings :
  ids ≡ₚ ids' ->
  _combine_contents (rows_in Content.id ids rows) settings
    = _combine_contents (rows_in Content.id ids' rows) settings.
Proof.
  intros Hp. f_equal. apply rows_in_ext. intros x. by rewrite Hp.
Qed.

Ltac run_export_worker :=
  cbv beta iota zeta delta
    [_process_combined_export run_export combined_body pickup complete
     export_handler mbind Run_bind assign db_commit self_export query_contents
     write_file stat_size lift try_except db disk export written].

(** The file a combined export writes, for a format the worker supports. *)
Lemma combined_export_artifact env export_id sys job text :
  rows_first ExportJob.id export_id (exports (store sys)) = Some job ->
  render_combined
    (_combine_contents (rows_in Content.id (ExportJob.content_ids job) (contents (store sys)))
       (ExportJob.export_settings job)) job = Ok text ->
  files (_process_combined_export env export_id sys).1
    !! path_in_export_dir ("combined_" +:+ stamp env +:+ "." +:+ ExportJob.format job)
    = Some text.
Proof.
  intros Hjob Htext. run_export_worker. rewrite Hjob. cbn [snd fst].
  cbn [ExportJob.content_ids ExportJob.export_settings ExportJob.format
       ExportJob.set_progress ExportJob.set_started_at ExportJob.set_status
       contents].
  unfold render_combined in *.
  cbn [ExportJob.content_ids ExportJob.export_settings ExportJob.format
       ExportJob.set_progress ExportJob.set_started_at ExportJob.set_status].
  destruct (decide (ExportJob.format job = "pdf")) as [Hf|Hf].
  { rewrite (lookup_insert_eq (files sys)). cbn [files snd].
    rewrite (lookup_insert_eq (files sys)). by inversion Htext. }
  destruct (decide (ExportJob.format job = "docx")) as [Hf2|Hf2].
  { rewrite (lookup_insert_eq (files sys)). cbn [files snd].
    rewrite (lookup_insert_eq (files sys)). by inversion Htext. }
  destruct (decide (ExportJob.format job = "latex")) as [Hf3|Hf3]; [|discriminate].
  rewrite (lookup_insert_eq (files sys)). cbn [files snd].
  rewrite (lookup_insert_eq (files sys)). by inversion Htext.
Qed.

End ExportPipeline.

(** ** The pipelines on the sample data *)

Section Scenarios.

Import Samples.


Lemma get_file_path_guard_witness :
  ExportService.get_file_path 7%N 2000 exported_A_then_B
    = Ok "exports/combined_20240101_000000.latex" /\
  ExportService.get_file_path 7%N 91000 exported_A_then_B
    = Raise (HTTPException 410 "Archivo expirado").
Proof.
  pose proof (ExportService_guard_at := get_file_path_guard 7%N 2000 exported_A_then_B).
  pose proof (ExportService_guard_late := get_file_path_guard 7%N 91000 exported_A_then_B).
  cbv zeta in ExportService_guard_at, ExportService_guard_late.
  destruct ExportService_guard_at as (Hok & _).
  destruct ExportService_guard_late as (_ & _ & _ & Hexpired & _).
  split.
  - apply Hok.
    eexists. split; [vm_compute; reflexivity|].
    split; [reflexivity|]. split; [by vm_compute|].
    split; [reflexivity|]. by vm_compute.
  - eapply Hexpired; [by vm_compute|reflexivity|by vm_compute].
Defined.

Lemma export_individual_unknown_content_witness :
  ExportService.export_individual request_unknown 8%N 1000 table_B_then_A
    = (Raise (HTTPException 404 "Contenido no encontrado"), table_B_then_A) /\
  ExportService.exports
    (ExportService.store
       (ExportService.export_individual request_unknown 8%N 1000 table_B_then_A).2)
    = [] /\
  ExportService.spawned
    (ExportService.export_individual request_unknown 8%N 1000 table_B_then_A).2 = [].
Proof.
  apply (export_individual_unknown_content request_unknown 8%N 1000 table_B_then_A).
  intros c Hc. simpl in Hc.
  apply elem_of_cons in Hc as [->|Hc]; [discriminate|].
  apply list_elem_of_singleton in Hc. subst c. discriminate.
Defined.

Lemma export_combined_rejects_repeated_id_witness :
  ExportService.export_combined request_A_twice 8%N 1000 table_B_then_A
    = (Raise (HTTPException 404 "Algunos contenidos no fueron encontrados"),
       table_B_then_A) /\
  length (rows_in Content.id [1%N; 1%N] [content_B; content_A])
    = length (remove_dups [1%N; 1%N]) /\
  (length (remove_dups [1%N; 1%N]) < length [1%N; 1%N])%nat /\
  ExportService.exports
    (ExportService.store
       (ExportService.export_combined request_A_twice 8%N 1000 table_B_then_A).2)
    = [].
Proof.
  apply (export_combined_rejects_repeated_id request_A_twice 8%N 1000 table_B_then_A).
  - simpl. apply NoDup_cons. split; [|apply NoDup_singleton].
    intros H. apply list_elem_of_singleton in H. discriminate.
  - intros cid Hcid. exists content_A. split; [simpl; right; by left|].
    simpl in Hcid. apply elem_of_cons in Hcid as [->|Hcid]; [reflexivity|].
    apply list_elem_of_singleton in Hcid. by subst.
  - simpl. intros H. apply NoDup_cons in H as [H _]. apply H. by left.
Defined.


(** The job of the sample data after its worker has run: the content row
    it produced has version 1, is active, and records the provider of the
    job. *)
Example generated_content_record :
  List.map (fun c => (Content.version c, Content.is_active c,
                      md_ai_provider <$> Content.content_metadata c,
                      Content.title c))
    (ContentService.contents
       (ContentService._process_generation Str.ascii_lower Str.ascii_strip
          sample_env 3%N sample_db).1)
    = [(1, true, Some "groq", "Sesión de Clase Generada por IA")].
Proof. by vm_compute. Qed.

End Scenarios.

(** ** Further properties of content structuring *)

Section StructuringMore.

Import ContentService.

Variable lower : string -> string.
Variable strip : string -> string.

Lemma is_trigger_target st line :
  is_trigger lower line = true ->
  classify lower line st = switch_to (trigger_target lower line) st.
Proof.
  unfold is_trigger, classify, trigger_target. intros H.
  destruct (any_keyword lower intro_keywords line); [reflexivity|].
  destruct (any_keyword lower objective_keywords line); [reflexivity|].
  by destruct (any_keyword lower conclusion_keywords line).
Qed.

Lemma trigger_target_not_development line :
  trigger_target lower line ≠ "development".
Proof.
  unfold trigger_target.
  destruct (any_keyword lower intro_keywords line); [done|].
  by destruct (any_keyword lower objective_keywords line).
Qed.

Lemma classify_cases st line :
  classify lower line st = st \/
  classify lower line st = switch_to (trigger_target lower line) st.
Proof.
  destruct (is_trigger lower line) eqn:E.
  - right. by apply is_trigger_target.
  - left. by apply classify_no_trigger.
Qed.

(** Once the pointer has left development nothing is written there. *)
Lemma development_slot_kept ls : forall st,
  current_section st ≠ "development" ->
  finish (scan_lines lower st ls) !! "development" = sections st !! "development".
Proof.
  induction ls as [|l ls IH]; intros st Hcur.
  - simpl. unfold finish. destruct (section_content st); [reflexivity|].
    by rewrite lookup_insert_ne.
  - change (scan_lines lower st (l :: ls))
      with (scan_lines lower (scan_line lower st l) ls).
    rewrite IH.
    + unfold scan_line. cbn [sections].
      destruct (classify_cases st l) as [->| ->]; [reflexivity|].
      by rewrite switch_to_other.
    + unfold scan_line. cbn [current_section].
      destruct (classify_cases st l) as [->| ->]; [exact Hcur|].
      rewrite switch_to_current. apply trigger_target_not_development.
Qed.

(** The development slot is the text before the first line with a
    keyword: the whole text when no line has one, nothing when the first
    line has one, and never anything that follows a keyword line. *)
Theorem development_is_text_before_first_keyword
    (ai_content : string) (content_type : ContentType) (pre rest : list string) :
  Str.split_lines ai_content = pre ++ rest ->
  Forall (fun l => is_trigger lower l = false) pre ->
  (rest = [] \/ exists t rest', rest = t :: rest' /\ is_trigger lower t = true) ->
  structured_sections (_structure_content lower strip ai_content content_type)
    !! "development" = Some (Str.join Str.nl pre).
Proof.
  intros Hlines Hpre Hrest.
  unfold _structure_content. cbn [structured_sections].
  rewrite Hlines, scan_lines_app, (scan_lines_no_trigger _ _ scan_start Hpre).
  cbn [sections current_section section_content scan_start app].
  destruct Hrest as [->|(t & rest' & -> & Ht)].
  - simpl. unfold finish. cbn [section_content sections current_section].
    destruct pre as [|p pre'].
    + destruct (split_lines_cons ai_content) as (l & ls & E). by rewrite E in Hlines.
    + by rewrite lookup_insert_eq.
  - change (scan_lines lower ?st (t :: rest'))
      with (scan_lines lower (scan_line lower st t) rest').
    rewrite development_slot_kept.
    + unfold scan_line. cbn [sections]. rewrite (is_trigger_target _ t Ht).
      destruct pre as [|p pre']; [reflexivity|].
      unfold switch_to. cbn [section_content sections current_section].
      by rewrite lookup_insert_eq.
    + unfold scan_line. cbn [current_section]. rewrite (is_trigger_target _ t Ht).
      rewrite switch_to_current. apply trigger_target_not_development.
Qed.

(** The text from the last keyword line to the end is the slot that line
    selects, whatever came before. *)
Theorem last_block_fills_its_slot
    (ai_content : string) (content_type : ContentType)
    (before block : list string) (t : string) :
  Str.split_lines ai_content = before ++ t :: block ->
  is_trigger lower t = true ->
  Forall (fun l => is_trigger lower l = false) block ->
  structured_sections (_structure_content lower strip ai_content content_type)
    !! trigger_target lower t = Some (Str.join Str.nl (t :: block)).
Proof.
  intros Hlines Ht Hblock.
  unfold _structure_content. cbn [structured_sections].
  rewrite Hlines, scan_lines_app.
  change (scan_lines lower ?st (t :: block))
    with (scan_lines lower (scan_line lower st t) block).
  rewrite (scan_lines_no_trigger _ _ _ Hblock).
  unfold scan_line, finish.
  cbn [sections current_section section_content].
  rewrite (is_trigger_target _ t Ht), switch_to_current, switch_to_content.
  simpl. by rewrite lookup_insert_eq.
Qed.

Lemma four_slots_insert m k v :
  four_slots m -> k ∈ slot_names -> four_slots (<[k := v]> m).
Proof.
  intros Hm Hk k'. destruct (decide (k = k')) as [->|Hne].
  - rewrite lookup_insert_eq. split; [by intros _|eauto].
  - rewrite lookup_insert_ne by done. apply Hm.
Qed.

Lemma trigger_target_slot line : trigger_target lower line ∈ slot_names.
Proof.
  unfold trigger_target, slot_names.
  destruct (any_keyword lower intro_keywords line); [set_solver|].
  destruct (any_keyword lower objective_keywords line); set_solver.
Qed.

Lemma scan_keeps_slots ls : forall st,
  four_slots (sections st) -> current_section st ∈ slot_names ->
  four_slots (sections (scan_lines lower st ls)) /\
  current_section (scan_lines lower st ls) ∈ slot_names.
Proof.
  induction ls as [|l ls IH]; intros st Hs Hc; [by split|].
  change (scan_lines lower st (l :: ls))
    with (scan_lines lower (scan_line lower st l) ls).
  apply IH; unfold scan_line; cbn [sections current_section];
    destruct (classify_cases st l) as [->| ->]; try done.
  - unfold switch_to. destruct (section_content st); [exact Hs|].
    cbn [sections]. by apply four_slots_insert.
  - rewrite switch_to_current. apply trigger_target_slot.
Qed.

(** The section map returned has the four slots and no other key, for
    every text. *)
Theorem sections_have_four_slots (ai_content : string) (content_type : ContentType) :
  forall k,
    is_Some (structured_sections (_structure_content lower strip ai_content content_type)
             !! k)
    <-> k ∈ slot_names.
Proof.
  unfold _structure_content. cbn [structured_sections].
  assert (H0 : four_slots (sections scan_start)).
  { intros k. unfold scan_start, empty_sections, slot_names. cbn [sections].
    rewrite !lookup_insert_is_Some', lookup_empty, is_Some_alt.
    rewrite !elem_of_cons, elem_of_nil. intuition congruence. }
  destruct (scan_keeps_slots (Str.split_lines ai_content) scan_start H0) as [Hs Hc].
  { unfold scan_start, slot_names. cbn [current_section]. set_solver. }
  unfold finish. destruct (section_content _); [exact Hs|].
  by apply four_slots_insert.
Qed.

(** The title is read from the first line that starts with the heading
    marker; lines before it, and every heading after it, are ignored. *)
Theorem title_is_first_heading
    (ai_content : string) (content_type : ContentType)
    (pre post : list string) (heading : string) :
  Str.split_lines ai_content = pre ++ heading :: post ->
  Forall (fun l => Str.startswith "# " l = false) pre ->
  Str.startswith "# " heading = true ->
  title (_structure_content lower strip ai_content content_type)
    = strip (Str.drop 2 heading).
Proof.
  intros Hlines Hpre Hh. unfold _structure_content. cbn [title]. rewrite Hlines.
  clear Hlines. induction Hpre as [|l ls Hl _ IH]; cbn [extract_title app].
  - by rewrite Hh.
  - by rewrite Hl.
Qed.

Lemma any_keyword_cons kw kws line :
  any_keyword lower (kw :: kws) line
    = Str.contains kw (lower line) || any_keyword lower kws line.
Proof. reflexivity. Qed.

(** A text none of whose lines contains the word "objective" leaves the
    objectives slot empty: the word "objetivo" sends a line to introduction. *)
Theorem objectives_slot_needs_objective
    (ai_content : string) (content_type : ContentType) :
  Forall (fun l => Str.contains "objective" (lower l) = false)
    (Str.split_lines ai_content) ->
  structured_sections (_structure_content lower strip ai_content content_type)
    !! "objectives" = Some "" /\
  (forall st l, Str.contains "objetivo" (lower l) = true ->
     current_section (scan_line lower st l) = "introduction").
Proof.
  intros Hno. split.
  - unfold _structure_content. cbn [structured_sections].
    rewrite objectives_slot_kept; [reflexivity|done|].
    eapply Forall_impl; [exact Hno|]. intros l Hl. cbn beta in Hl.
    unfold is_objective_line, objective_keywords, intro_keywords.
    rewrite !any_keyword_cons, Hl. cbn [any_keyword existsb].
    rewrite !orb_false_r. by destruct (Str.contains "objetivo" (lower l));
      rewrite ?orb_true_r.
  - intros st l Hl. unfold scan_line. cbn [current_section].
    unfold classify, intro_keywords. rewrite !any_keyword_cons, Hl, !orb_true_r.
    cbn [orb]. apply switch_to_current.
Qed.

End StructuringMore.

Section StructuringMoreExamples.

Import ContentService Samples.

Lemma development_is_text_before_first_keyword_witness :
  structured_sections
    (_structure_content Str.ascii_lower Str.ascii_strip one_objective_block CLASS_SESSION)
    !! "development" = Some (Str.join Str.nl ["notes"]).
Proof.
  apply (development_is_text_before_first_keyword Str.ascii_lower Str.ascii_strip
           one_objective_block CLASS_SESSION ["notes"]
           ["objective 1"; "more"; "conclusion"; "end"]).
  - reflexivity.
  - repeat constructor.
  - right. exists "objective 1", ["more"; "conclusion"; "end"]. by split.
Defined.

Lemma last_block_fills_its_slot_witness :
  structured_sections
    (_structure_content Str.ascii_lower Str.ascii_strip one_objective_block CLASS_SESSION)
    !! trigger_target Str.ascii_lower "conclusion"
    = Some (Str.join Str.nl ("conclusion" :: ["end"])).
Proof.
  apply (last_block_fills_its_slot Str.ascii_lower Str.ascii_strip
           one_objective_block CLASS_SESSION ["notes"; "objective 1"; "more"]
           ["end"] "conclusion").
  - reflexivity.
  - reflexivity.
  - repeat constructor.
Defined.

Lemma title_is_first_heading_witness :
  title (_structure_content Str.ascii_lower Str.ascii_strip headed_text CLASS_SESSION)
    = Str.ascii_strip (Str.drop 2 "# Primer titulo ").
Proof.
  apply (title_is_first_heading Str.ascii_lower Str.ascii_strip headed_text
           CLASS_SESSION ["## Unidad"] ["# Segundo"] "# Primer titulo ").
  - reflexivity.
  - repeat constructor.
  - reflexivity.
Defined.

Lemma objectives_slot_needs_objective_witness :
  structured_sections
    (_structure_content Str.ascii_lower Str.ascii_strip spanish_objectives CLASS_SESSION)
    !! "objectives" = Some "" /\
  (forall st l, Str.contains "objetivo" (Str.ascii_lower l) = true ->
     current_section (scan_line Str.ascii_lower st l) = "introduction").
Proof.
  apply (objectives_slot_needs_objective Str.ascii_lower Str.ascii_strip
           spanish_objectives CLASS_SESSION).
  repeat constructor.
Defined.

End StructuringMoreExamples.

(** ** Further properties of the provider registry *)

Section RegistryMore.

Import AI Samples.

Lemma try_fallbacks_invoked svcs fallbacks prompt kw :
  invoked (try_fallbacks svcs fallbacks prompt kw).2 `sublist_of` fallbacks /\
  Forall (fun q => is_Some (svcs !! q)) (invoked (try_fallbacks svcs fallbacks prompt kw).2).
Proof.
  induction fallbacks as [|q qs [IHs IHr]]; simpl; [by split|].
  destruct (svcs !! q) as [svc|] eqn:Eq.
  - destruct (generate svc prompt kw); simpl.
    + split; [apply sublist_skip, sublist_nil_l|]. repeat constructor. by rewrite Eq.
    + destruct (try_fallbacks svcs qs prompt kw) as [r evs]. simpl in *.
      split; [by apply sublist_skip|]. constructor; [by rewrite Eq|exact IHr].
  - split; [by apply sublist_cons|exact IHr].
Qed.

(** The chain calls only registered backends among the primary and the
    fallback list, each at most as often as it is listed and in the order
    primary first, then the fallback list; a call that names a registered
    provider calls that backend alone. *)
Theorem dispatch_invokes_chain_in_order
    (self : MultiAIService) (prompt : string) (kw : Kwargs) :
  invoked (dispatch_chain self prompt kw).2 `sublist_of` chain_order self /\
  Forall (fun q => is_Some (services self !! q))
    (invoked (dispatch_chain self prompt kw).2) /\
  (forall p, is_Some (services self !! p) ->
     invoked (generate_content self prompt (Some p) kw).2 = [p]).
Proof.
  pose proof (try_fallbacks_invoked (services self) (fallback_providers self) prompt kw)
    as [Hs Hr].
  split; [|split].
  - unfold dispatch_chain, chain_order.
    destruct (primary_provider self) as [p|]; [|exact Hs].
    destruct (services self !! p) as [svc|]; [|by apply sublist_cons].
    destruct (generate svc prompt kw); simpl; [apply sublist_skip, sublist_nil_l|].
    destruct (try_fallbacks _ _ _ _). simpl in *. by apply sublist_skip.
  - unfold dispatch_chain.
    destruct (primary_provider self) as [p|]; [|exact Hr].
    destruct (services self !! p) as [svc|] eqn:Ep; [|exact Hr].
    destruct (generate svc prompt kw); simpl; [repeat constructor; by rewrite Ep|].
    destruct (try_fallbacks _ _ _ _). simpl in *. constructor; [by rewrite Ep|exact Hr].
  - intros p [svc Hp]. unfold generate_content. by rewrite Hp.
Qed.

Lemma try_fallbacks_answer self fallbacks prompt kw :
  exists text, (try_fallbacks (services self) fallbacks prompt kw).1 = Ok text /\
    ((exists q svc before,
        invoked (try_fallbacks (services self) fallbacks prompt kw).2 = before ++ [q] /\
        services self !! q = Some svc /\ generate svc prompt kw = Ok text /\
        Forall (raises self prompt kw) before)
     \/ (text = demo_document /\
         Forall (raises self prompt kw)
           (invoked (try_fallbacks (services self) fallbacks prompt kw).2))).
Proof.
  induction fallbacks as [|q qs IH]; simpl.
  - exists demo_document. split; [reflexivity|]. right. by split.
  - destruct (services self !! q) as [svc|] eqn:Eq; [|exact IH].
    destruct (generate svc prompt kw) as [text|e] eqn:Eg; simpl.
    + exists text. split; [reflexivity|]. left. exists q, svc, []. by repeat split.
    + destruct (try_fallbacks (services self) qs prompt kw) as [r evs]. simpl in *.
      destruct IH as (text & Hr & Hcase). exists text. split; [exact Hr|].
      assert (Hq : raises self prompt kw q) by (exists svc, e; by split).
      destruct Hcase as [(q' & svc' & before & Hinv & Hs & Hg & Hb)|[Hd Hall]].
      * left. exists q', svc', (q :: before). rewrite Hinv.
        repeat split; try done. by constructor.
      * right. split; [exact Hd|]. by constructor.
Qed.

(** What the chain returns is the answer of the backend it called last,
    every backend called before it having raised; it is the demo document
    only when every backend called has raised. *)
Theorem dispatch_answer_is_from_last_invoked
    (self : MultiAIService) (prompt : string) (kw : Kwargs) :
  exists text, (generate_content self prompt None kw).1 = Ok text /\
    ((exists q svc before,
        invoked (generate_content self prompt None kw).2 = before ++ [q] /\
        services self !! q = Some svc /\ generate svc prompt kw = Ok text /\
        Forall (raises self prompt kw) before)
     \/ (text = demo_document /\
         Forall (raises self prompt kw)
           (invoked (generate_content self prompt None kw).2))).
Proof.
  unfold generate_content, dispatch_chain.
  pose proof (try_fallbacks_answer self (fallback_providers self) prompt kw) as IH.
  destruct (primary_provider self) as [p|]; [|exact IH].
  destruct (services self !! p) as [svc|] eqn:Ep; [|exact IH].
  destruct (generate svc prompt kw) as [text|e] eqn:Eg; simpl.
  - exists text. split; [reflexivity|]. left. exists p, svc, []. by repeat split.
  - destruct (try_fallbacks _ _ _ _) as [r evs]. simpl in *.
    destruct IH as (text & Hr & Hcase). exists text. split; [exact Hr|].
    assert (Hq : raises self prompt kw p) by (exists svc, e; by split).
    destruct Hcase as [(q' & svc' & before & Hinv & Hs & Hg & Hb)|[Hd Hall]].
    + left. exists q', svc', (p :: before). rewrite Hinv.
      repeat split; try done. by constructor.
    + right. split; [exact Hd|]. by constructor.
Qed.

(** The service table after a run of registrations holds, for each
    provider, the backend of its last registration. *)
Lemma register_all_service rs : forall self p,
  services (register_all self rs) !! p =
    match last_registration p rs with
    | Some r => Some (create_service p (reg_api_key r) (reg_model r))
    | None => services self !! p
    end.
Proof.
  induction rs as [|r rs IH]; intros self p; [reflexivity|].
  rewrite register_all_cons, IH. unfold last_registration. cbn [List.filter].
  assert (Hs : services (register self r)
               = <[reg_provider r := create_service (reg_provider r) (reg_api_key r)
                                       (reg_model r)]> (services self)).
  { unfold register, add_provider. by destruct (reg_is_primary r). }
  rewrite Hs. case_bool_decide as Hp.
  - subst p. rewrite last_cons, lookup_insert_eq. by destruct (last _).
  - by rewrite lookup_insert_ne.
Qed.

Lemma register_all_never_raises rs prompt provider kw :
  exists text, (generate_content (register_all init rs) prompt provider kw).1 = Ok text.
Proof.
  unfold generate_content.
  destruct provider as [q|]; [|apply dispatch_chain_ok].
  rewrite register_all_service.
  destruct (last_registration q rs) as [r'|].
  - unfold create_service. destruct (decide (q = GROQ)); simpl; eauto.
  - simpl. rewrite lookup_empty. apply dispatch_chain_ok.
Qed.

(** Registering a provider again replaces its backend: a call that names a
    registered provider returns the canned document of the model given at
    its last registration (the default model when none was given), and on a
    registry built by registrations no call raises. *)
Theorem registered_provider_answers_with_last_model
    (rs : list Registration) (prompt : string) (kw : Kwargs)
    (p : AIProvider) (r : Registration) :
  last_registration p rs = Some r ->
  generate_content (register_all init rs) prompt (Some p) kw
    = (Ok (groq_document (model_or_default (reg_model r))), [Invoked p]) /\
  (forall provider, exists text,
     (generate_content (register_all init rs) prompt provider kw).1 = Ok text).
Proof.
  intros Hr. split.
  - unfold generate_content. rewrite register_all_service, Hr.
    unfold create_service. by destruct (decide (p = GROQ)).
  - intros provider. apply register_all_never_raises.
Qed.

Lemma registered_provider_answers_with_last_model_witness :
  generate_content (register_all init groq_twice) "p" (Some GROQ) sample_kwargs
    = (Ok (groq_document "gemma-7b-it"), [Invoked GROQ]) /\
  (forall provider, exists text,
     (generate_content (register_all init groq_twice) "p" provider sample_kwargs).1
       = Ok text).
Proof.
  apply (registered_provider_answers_with_last_model groq_twice "p" sample_kwargs GROQ
           {| reg_provider := GROQ; reg_api_key := "k2"; reg_model := Some "gemma-7b-it";
              reg_is_primary := true |}).
  reflexivity.
Defined.

Lemma last_registration_is_Some p rs :
  is_Some (last_registration p rs) <-> p ∈ List.map reg_provider rs.
Proof.
  unfold last_registration. rewrite list_elem_of_In, in_map_iff. split.
  - intros [r Hr]. apply last_Some in Hr as [l' Hl'].
    assert (Hin : In r (List.filter (fun r => bool_decide (reg_provider r = p)) rs)).
    { rewrite Hl'. apply in_or_app. right. by left. }
    apply filter_In in Hin as [Hin Hp]. apply bool_decide_eq_true in Hp. eauto.
  - intros (r & Hp & Hin).
    destruct (last (List.filter _ rs)) eqn:E; [eauto|].
    apply last_None in E.
    assert (Hin' : In r (List.filter (fun r => bool_decide (reg_provider r = p)) rs)).
    { apply filter_In. split; [exact Hin|]. by apply bool_decide_eq_true. }
    rewrite E in Hin'. destruct Hin'.
Qed.

(** The health report of a registry built by registrations lists exactly
    the registered providers, each as healthy. *)
Theorem health_check_lists_registered (rs : list Registration) (p : AIProvider) :
  health_check (register_all init rs) !! p =
    if decide (p ∈ List.map reg_provider rs) then Some true else None.
Proof.
  unfold health_check. rewrite lookup_fmap, register_all_service.
  destruct (decide (p ∈ List.map reg_provider rs)) as [Hin|Hnot].
  - apply last_registration_is_Some in Hin as [r ->]. simpl.
    unfold create_service. by destruct (decide (p = GROQ)).
  - destruct (last_registration p rs) eqn:E.
    + destruct Hnot. apply last_registration_is_Some. eauto.
    + simpl. by rewrite lookup_empty.
Qed.

End RegistryMore.

(** ** The registry built from the settings *)

Section SettingsRegistry.

Import AI ContentService.

Lemma add_if_configured_services key prov model b self p :
  is_Some (services (add_if_configured key prov model b self) !! p) <->
  is_Some (services self !! p) \/ (p = prov /\ is_Some (configured key)).
Proof.
  unfold add_if_configured. destruct (configured key) as [k|].
  - assert (Hs : services (add_provider self prov k (Some model) b)
                 = <[prov := create_service prov k (Some model)]> (services self)).
    { unfold add_provider. by destruct b. }
    rewrite Hs. destruct (decide (prov = p)) as [->|Hne].
    + rewrite lookup_insert_eq. split; [intros _; right; split; eauto|eauto].
    + rewrite lookup_insert_ne by done. split; [auto|].
      intros [H|[-> _]]; [exact H|done].
  - split; [auto|]. intros [H|[_ [? H]]]; [exact H|discriminate].
Qed.

(** The registry [ContentService] builds: GROQ is the primary when its key
    is set and there is no primary otherwise; the fallbacks are OPENAI,
    CLAUDE, GEMINI and COHERE, in this order, as far as their keys are set; a
    provider is registered exactly when its key is set; and with no key set
    every call returns the demo document without calling any backend. *)
Theorem initialize_ai_service_registry (settings : Settings) :
  primary_provider (_initialize_ai_service settings)
    = match key_of settings GROQ with Some _ => Some GROQ | None => None end /\
  fallback_providers (_initialize_ai_service settings)
    = List.filter (fun p => bool_decide (is_Some (key_of settings p)))
        [OPENAI; CLAUDE; GEMINI; COHERE] /\
  (forall p, is_Some (services (_initialize_ai_service settings) !! p)
             <-> is_Some (key_of settings p)) /\
  ((forall p, key_of settings p = None) ->
   forall prompt provider kw,
     AI.generate_content (_initialize_ai_service settings) prompt provider kw
       = (Ok demo_document, [])).
Proof.
  split; [|split; [|split]].
  - unfold _initialize_ai_service, add_if_configured, key_of.
    destruct (configured (openai_api_key settings)),
             (configured (claude_api_key settings)),
             (configured (gemini_api_key settings)),
             (configured (groq_api_key settings)),
             (configured (cohere_api_key settings)); reflexivity.
  - unfold _initialize_ai_service, add_if_configured, key_of.
    cbn [List.filter].
    destruct (configured (openai_api_key settings)),
             (configured (claude_api_key settings)),
             (configured (gemini_api_key settings)),
             (configured (groq_api_key settings)),
             (configured (cohere_api_key settings)); reflexivity.
  - intros p. unfold _initialize_ai_service.
    rewrite !add_if_configured_services. cbn [services init].
    rewrite lookup_empty. unfold key_of.
    destruct p; split; intros H;
      repeat match goal with
             | H : _ \/ _ |- _ => destruct H as [H|H]
             | H : _ /\ _ |- _ => destruct H as [? H]
             | H : is_Some None |- _ => by destruct H
             end; try discriminate; try assumption; tauto.
  - intros Hnone prompt provider kw.
    pose proof (Hnone OPENAI) as H1. pose proof (Hnone CLAUDE) as H2.
    pose proof (Hnone GEMINI) as H3. pose proof (Hnone GROQ) as H4.
    pose proof (Hnone COHERE) as H5. unfold key_of in *.
    unfold _initialize_ai_service, add_if_configured.
    rewrite H1, H2, H3, H4, H5. unfold AI.generate_content, dispatch_chain.
    cbn [services init primary_provider fallback_providers try_fallbacks].
    destruct provider as [p|]; [by rewrite lookup_empty|reflexivity].
Qed.

End SettingsRegistry.

(** ** Further properties of the generation pipeline *)

Section GenerationMore.

Import ContentService.

Variable lower : string -> string.
Variable strip : string -> string.

Ltac run_generation :=
  cbv beta iota zeta delta
    [_process_generation mbind Run_bind assign db_commit self_generation
     query_document lift db_add generation_body generation_handler try_except
     db generation added written].

(** The content table after a run. *)
Lemma process_generation_contents env id d g :
  rows_first Generation.id id (generations d) = Some g ->
  contents (_process_generation lower strip env id d).1 =
    match outcome env d g with
    | Succeeded ai_content =>
        contents d ++ [new_content env (picked_up env g)
                         (_structure_content lower strip ai_content
                            (Generation.content_type g))]
    | _ => contents d
    end.
Proof.
  intros Hg. unfold outcome, prompt_of, answer_of.
  run_generation. rewrite Hg. cbn [snd fst].
  change (Generation.set_progress 10
            (Generation.set_started_at (at_start env)
               (Generation.set_status IN_PROGRESS g))) with (picked_up env g).
  destruct (_build_prompt _ (picked_up env g)) as [prompt|e];
    [|cbn [contents]; by rewrite !app_nil_r].
  destruct (AI.generate_content _ _ _ _) as [[ai|e] evs];
    cbn [contents fst]; by rewrite !app_nil_r.
Qed.

(** A run changes no document, no job row but its own, and adds to the
    content table exactly one row when nothing raised (version 1, active,
    bound to the job and its document, holding the text the provider returned
    and its structuring, and recording the provider and model of the job) and
    no row otherwise. *)
Theorem generation_run_adds_one_content
    (env : Env) (id : UUID) (d : DB) (g : Generation.t) :
  rows_first Generation.id id (generations d) = Some g ->
  let run := _process_generation lower strip env id d in
  documents run.1 = documents d /\
  (forall id', id' ≠ id ->
     rows_first Generation.id id' (generations run.1)
       = rows_first Generation.id id' (generations d)) /\
  match outcome env d g with
  | Succeeded ai_content =>
      exists c, contents run.1 = contents d ++ [c] /\
        Content.id c = new_content_id env /\
        Content.generation_id c = id /\
        Content.document_id c = Generation.document_id g /\
        Content.content_type c = Generation.content_type g /\
        Content.version c = 1 /\
        Content.is_active c = true /\
        Content.markdown_content c = ai_content /\
        Content.title c
          = title (_structure_content lower strip ai_content (Generation.content_type g)) /\
        Content.sections c
          = Some (structured_sections
                    (_structure_content lower strip ai_content
                       (Generation.content_type g))) /\
        Content.content_metadata c
          = Some {| md_ai_provider := AI.value (Generation.ai_provider g);
                    md_ai_model := Generation.ai_model g;
                    md_generation_config := Generation.configuration g |}
  | PromptFailed _ | DispatchFailed _ => contents run.1 = contents d
  end.
Proof.
  intros Hg run.
  destruct (process_generation_run lower strip env id d g Hg) as (_ & _ & Hdocs).
  destruct (generations_after_run lower strip env id d g Hg) as (g' & _ & Hid & _ & Hgens).
  destruct (rows_first_Some _ _ _ _ Hg) as [_ Hgid].
  pose proof (process_generation_contents env id d g Hg) as Hc.
  fold run in Hdocs, Hgens, Hc.
  split; [exact Hdocs|]. split.
  { intros id' Hne. rewrite Hgens. apply rows_update_first_ne. congruence. }
  rewrite Hc. destruct (outcome env d g); [|reflexivity|reflexivity].
  eexists. split; [reflexivity|]. by repeat split.
Qed.

Lemma built_registry_answers env rs g prompt :
  ai_service env = AI.register_all AI.init rs ->
  exists text, answer_of env g prompt = Ok text.
Proof.
  intros Hs. unfold answer_of. rewrite Hs. apply register_all_never_raises.
Qed.

Lemma prompt_of_picked_up env d g :
  prompt_of d (picked_up env g) =
    _build_prompt (rows_first Document.id (Generation.document_id g) (documents d))
      (picked_up env g).
Proof. reflexivity. Qed.

(** With a registry built by registrations, whose backends never raise, a
    job ends COMPLETED exactly when its document is present with extracted
    text; a missing document and a document without text each end the job
    FAILED at progress 10 with the message of the error raised. *)
Theorem generation_completes_iff_document_has_text
    (env : Env) (rs : list AI.Registration) (id : UUID) (d : DB) (g : Generation.t) :
  rows_first Generation.id id (generations d) = Some g ->
  ai_service env = AI.register_all AI.init rs ->
  exists g', last (_process_generation lower strip env id d).2 = Some g' /\
    rows_first Generation.id id (generations (_process_generation lower strip env id d).1)
      = Some g' /\
    (Generation.status g' = COMPLETED <-> document_has_text d g) /\
    (rows_first Document.id (Generation.document_id g) (documents d) = None ->
       Generation.status g' = FAILED /\ Generation.progress g' = 10 /\
       Generation.error_message g'
         = Some "'NoneType' object has no attribute 'text_content'") /\
    (forall doc,
       rows_first Document.id (Generation.document_id g) (documents d) = Some doc ->
       Document.text_content doc = None ->
       Generation.status g' = FAILED /\ Generation.progress g' = 10 /\
       Generation.error_message g' = Some "'NoneType' object is not subscriptable").
Proof.
  intros Hg Hs.
  destruct (process_generation_run lower strip env id d g Hg) as (Ht & _ & _).
  destruct (generations_after_run lower strip env id d g Hg) as (g' & Hl & Hid & _ & Hgens).
  exists g'. split; [exact Hl|]. split.
  { rewrite Hgens, <- Hid. apply rows_update_first. rewrite Hid, Hg. eauto. }
  rewrite Ht in Hl. unfold outcome in Hl. rewrite prompt_of_picked_up in Hl.
  unfold document_has_text, _build_prompt in *.
  destruct (rows_first Document.id (Generation.document_id g) (documents d))
    as [doc|] eqn:Edoc.
  - destruct (Document.text_content doc) as [text|] eqn:Etext.
    + destruct (built_registry_answers env rs (picked_up env g)
                  (prompt_part_0 +:+ content_type_value (Generation.content_type (picked_up env g))
                   +:+ prompt_part_1 +:+ educational_level (Generation.configuration (picked_up env g))
                   +:+ prompt_part_2 +:+ Str.take_chars 3000 text
                   +:+ prompt_part_3 +:+ pedagogical_approach (Generation.configuration (picked_up env g))
                   +:+ prompt_part_4 +:+ Str.of_Z (content_length (Generation.configuration (picked_up env g)))
                   +:+ prompt_part_5 +:+ language (Generation.configuration (picked_up env g))
                   +:+ prompt_part_6 +:+ fmt_optional (additional_instructions (Generation.configuration (picked_up env g)))
                   +:+ prompt_part_7) Hs) as [ai Hai].
      rewrite Hai in Hl. simpl in Hl. inversion Hl; subst g'.
      split; [split; [intros _; eauto|reflexivity]|].
      split; [discriminate|]. intros doc' [= <-] Hnone. congruence.
    + simpl in Hl. inversion Hl; subst g'.
      split; [split; [discriminate|]|].
      { intros (doc' & text & [= <-] & Ht'). congruence. }
      split; [discriminate|]. intros doc' _ _. by repeat split.
  - simpl in Hl. inversion Hl; subst g'.
    split; [split; [discriminate|]|].
    { intros (doc' & text & Hd & _). discriminate. }
    split; [intros _; by repeat split|]. intros doc' Hd. discriminate.
Qed.

End GenerationMore.

(** ** Reading and editing content rows *)

Section ContentRows.

Import ContentService Samples.

Lemma active_content_found x rows c :
  active_content x rows = Some c ->
  c ∈ rows /\ Content.id c = x /\ Content.is_active c = true.
Proof.
  unfold active_content. intros H. apply find_some in H as [Hin Hc].
  apply andb_true_iff in Hc as [Hid Ha]. apply bool_decide_eq_true in Hid.
  split; [by apply list_elem_of_In|]. by split.
Qed.

Lemma active_content_unique rows c :
  NoDup (List.map Content.id rows) -> c ∈ rows ->
  active_content (Content.id c) rows
    = if Content.is_active c then Some c else None.
Proof.
  unfold active_content. induction rows as [|r rows IH]; intros Hnd Hin.
  - by apply elem_of_nil in Hin.
  - simpl in *. apply NoDup_cons in Hnd as [Hnotin Hnd].
    apply elem_of_cons in Hin as [->|Hin].
    + rewrite bool_decide_eq_true_2 by reflexivity. simpl.
      destruct (Content.is_active r) eqn:Ha; [reflexivity|].
      destruct (List.find _ rows) as [c'|] eqn:Ef; [|reflexivity].
      apply find_some in Ef as [Hin' Hc'].
      apply andb_true_iff in Hc' as [Hid' _]. apply bool_decide_eq_true in Hid'.
      destruct Hnotin. rewrite <- Hid'.
      apply list_elem_of_In, in_map. exact Hin'.
    + rewrite bool_decide_eq_false_2; [by apply IH|].
      intros Heq. apply Hnotin. rewrite Heq.
      apply list_elem_of_In, in_map. by apply list_elem_of_In.
Qed.

Lemma rows_update_in (obj : Content.t) rows c :
  c ∈ rows -> Content.id obj = Content.id c -> obj ∈ rows_update Content.id obj rows.
Proof.
  intros Hin Hid. unfold rows_update.
  apply list_elem_of_In, in_map_iff. exists c. split; [|by apply list_elem_of_In].
  by rewrite bool_decide_eq_true_2.
Qed.

(** An edit of an active row rewrites that row alone.  The stored row
    and the response carry the title, the markdown and the sections of the
    request where it gives them and those of the row where it does not; the
    version is one higher and the update time is the time of the edit; the
    id, the job, the document, the content type, the metadata and the
    creation time are kept, and the row stays active.  Every other row, the
    ids of the table, the jobs and the documents are as before. *)
Theorem update_content_edits_one_row
    (d : DB) (c : Content.t) (request : UpdateContentRequest) (now : datetime) :
  NoDup (List.map Content.id (contents d)) ->
  c ∈ contents d ->
  Content.is_active c = true ->
  let r := update_content (Content.id c) request now d in
  let new_title :=
    match upd_title request with Some t => t | None => Content.title c end in
  let new_markdown :=
    match upd_markdown_content request with
    | Some m => m
    | None => Content.markdown_content c
    end in
  let new_sections :=
    match upd_sections request with
    | Some secs => Some secs
    | None => Content.sections c
    end in
  r.1 = Ok {| cr_content_id := Content.id c;
              cr_title := new_title;
              cr_content_type := Content.content_type c;
              cr_markdown_content := new_markdown;
              cr_sections := new_sections;
              cr_content_metadata := Content.content_metadata c;
              cr_document_id := Content.document_id c;
              cr_generation_id := Content.generation_id c;
              cr_version := Content.version c + 1;
              cr_created_at := Content.created_at c;
              cr_updated_at := now |} /\
  {| Content.id := Content.id c;
     Content.generation_id := Content.generation_id c;
     Content.document_id := Content.document_id c;
     Content.title := new_title;
     Content.content_type := Content.content_type c;
     Content.markdown_content := new_markdown;
     Content.sections := new_sections;
     Content.content_metadata := Content.content_metadata c;
     Content.version := Content.version c + 1;
     Content.is_active := true;
     Content.created_at := Content.created_at c;
     Content.updated_at := now |} ∈ contents r.2 /\
  (forall c', c' ∈ contents d -> Content.id c' ≠ Content.id c -> c' ∈ contents r.2) /\
  List.map Content.id (contents r.2) = List.map Content.id (contents d) /\
  generations r.2 = generations d /\
  documents r.2 = documents d.
Proof.
  intros Hnd Hin Ha r new_title new_markdown new_sections. unfold r, update_content.
  rewrite (active_content_unique _ c Hnd Hin), Ha. cbn [fst snd].
  assert (Hin' : edited request now c ∈ rows_update Content.id (edited request now c)
                   (contents d)) by (by apply (rows_update_in _ _ c)).
  split.
  { unfold get_content_by_id, with_contents. cbn [contents].
    change (Content.id c) with (Content.id (edited request now c)) at 1.
    rewrite active_content_unique; [by cbn [Content.is_active edited]; rewrite Ha| |exact Hin'].
    by rewrite rows_update_keys. }
  split.
  { unfold with_contents. cbn [contents].
    replace {| Content.id := Content.id c; Content.generation_id := _;
               Content.title := new_title |} with (edited request now c);
      [exact Hin'|].
    unfold edited. by rewrite Ha. }
  split.
  { intros c' Hc' Hne. by apply rows_update_other. }
  split; [apply rows_update_keys|]. by split.
Qed.

Lemma update_content_edits_one_row_witness :
  (update_content 1%N sample_edit 2000 three_contents_db).1
    = Ok {| cr_content_id := 1%N;
            cr_title := "Nuevo";
            cr_content_type := CLASS_SESSION;
            cr_markdown_content := "alpha";
            cr_sections := None;
            cr_content_metadata := None;
            cr_document_id := 5%N;
            cr_generation_id := 3%N;
            cr_version := 2;
            cr_created_at := 900;
            cr_updated_at := 2000 |}.
Proof.
  destruct (update_content_edits_one_row three_contents_db content_A sample_edit 2000)
    as (H1 & _).
  - apply (bool_decide_unpack (NoDup _)). by vm_compute.
  - simpl. by left.
  - reflexivity.
  - exact H1.
Defined.

(** Each edit raises the version by one: after a sequence of edits the
    active row has the version it had plus the number of edits, and its
    creation time. *)
Theorem edits_count_versions
    (edits : list (UpdateContentRequest * datetime)) (d : DB) (c : Content.t) :
  NoDup (List.map Content.id (contents d)) ->
  c ∈ contents d ->
  Content.is_active c = true ->
  exists c',
    active_content (Content.id c) (contents (update_all (Content.id c) edits d)) = Some c' /\
    Content.version c' = Content.version c + Z.of_nat (length edits) /\
    Content.created_at c' = Content.created_at c /\
    List.map Content.id (contents (update_all (Content.id c) edits d))
      = List.map Content.id (contents d).
Proof.
  revert d c. induction edits as [|[request now] edits IH]; intros d c Hnd Hin Ha.
  - exists c. rewrite Z.add_0_r. repeat split.
    simpl. by rewrite (active_content_unique _ c Hnd Hin), Ha.
  - change (update_all (Content.id c) ((request, now) :: edits) d)
      with (update_all (Content.id c) edits
              (update_content (Content.id c) request now d).2).
    unfold update_content.
    rewrite (active_content_unique _ c Hnd Hin), Ha. cbn [snd].
    set (c1 := edited request now c).
    set (d1 := with_contents d (rows_update Content.id c1 (contents d))).
    assert (Hk : List.map Content.id (contents d1) = List.map Content.id (contents d))
      by apply rows_update_keys.
    destruct (IH d1 c1) as (c' & Hact & Hv & Hcr & Hids).
    + by rewrite Hk.
    + by apply (rows_update_in _ _ c).
    + exact Ha.
    + exists c'. change (Content.id c1) with (Content.id c) in *.
      split; [exact Hact|]. split.
      { rewrite Hv. unfold c1. cbn [Content.version edited length]. lia. }
      split; [exact Hcr|]. by rewrite Hids.
Qed.

Lemma edits_count_versions_witness :
  exists c',
    active_content 1%N
      (contents (update_all 1%N [(sample_edit, 2000); (sample_edit, 2001)]
                   three_contents_db)) = Some c' /\
    Content.version c' = 1 + 2.
Proof.
  destruct (edits_count_versions [(sample_edit, 2000); (sample_edit, 2001)]
              three_contents_db content_A) as (c' & H1 & H2 & _).
  - apply (bool_decide_unpack (NoDup _)). by vm_compute.
  - simpl. by left.
  - reflexivity.
  - exists c'. split; [exact H1|exact H2].
Defined.

(** Deleting is a soft delete: the row stays in the table with its
    active flag cleared and its update time set to the time of the deletion,
    every other column (id, job, document, title, content type, markdown,
    sections, metadata, version, creation time) as it was, and every other
    row as it was; from then on reading, editing and deleting that id again
    all raise the 404 error and change nothing. *)
Theorem delete_content_is_soft
    (d : DB) (c : Content.t) (now : datetime) :
  NoDup (List.map Content.id (contents d)) ->
  c ∈ contents d ->
  Content.is_active c = true ->
  let r := delete_content (Content.id c) now d in
  r.1 = Ok "Contenido eliminado exitosamente" /\
  {| Content.id := Content.id c;
     Content.generation_id := Content.generation_id c;
     Content.document_id := Content.document_id c;
     Content.title := Content.title c;
     Content.content_type := Content.content_type c;
     Content.markdown_content := Content.markdown_content c;
     Content.sections := Content.sections c;
     Content.content_metadata := Content.content_metadata c;
     Content.version := Content.version c;
     Content.is_active := false;
     Content.created_at := Content.created_at c;
     Content.updated_at := now |} ∈ contents r.2 /\
  List.map Content.id (contents r.2) = List.map Content.id (contents d) /\
  (forall c', c' ∈ contents d -> Content.id c' ≠ Content.id c -> c' ∈ contents r.2) /\
  generations r.2 = generations d /\
  documents r.2 = documents d /\
  get_content_by_id (Content.id c) r.2 = content_not_found /\
  (forall request later,
     update_content (Content.id c) request later r.2 = (content_not_found, r.2)) /\
  (forall later, delete_content (Content.id c) later r.2 = (content_not_found, r.2)).
Proof.
  intros Hnd Hin Ha r.
  set (d' := with_contents d (rows_update Content.id (deactivated now c) (contents d))).
  assert (Hr : r = (Ok "Contenido eliminado exitosamente", d')).
  { unfold r, delete_content. by rewrite (active_content_unique _ c Hnd Hin), Ha. }
  rewrite Hr. cbn [fst snd]. clear Hr r.
  assert (Hin' : deactivated now c ∈ contents d') by (by apply (rows_update_in _ _ c)).
  assert (Hk : List.map Content.id (contents d') = List.map Content.id (contents d))
    by apply rows_update_keys.
  assert (Hgone : active_content (Content.id c) (contents d') = None).
  { change (Content.id c) with (Content.id (deactivated now c)).
    rewrite active_content_unique; [reflexivity|by rewrite Hk|exact Hin']. }
  split; [reflexivity|]. split; [exact Hin'|]. split; [exact Hk|]. split.
  { intros c' Hc' Hne. by apply rows_update_other. }
  split; [reflexivity|]. split; [reflexivity|].
  split; [by unfold get_content_by_id; rewrite Hgone|]. split.
  - intros request later. unfold update_content. by rewrite Hgone.
  - intros later. unfold delete_content. by rewrite Hgone.
Qed.

Lemma delete_content_is_soft_witness :
  (delete_content 1%N 2000 three_contents_db).1 = Ok "Contenido eliminado exitosamente" /\
  {| Content.id := 1%N; Content.generation_id := 3%N; Content.document_id := 5%N;
     Content.title := "A"; Content.content_type := CLASS_SESSION;
     Content.markdown_content := "alpha"; Content.sections := None;
     Content.content_metadata := None; Content.version := 1;
     Content.is_active := false; Content.created_at := 900;
     Content.updated_at := 2000 |}
    ∈ contents (delete_content 1%N 2000 three_contents_db).2 /\
  get_content_by_id 1%N (delete_content 1%N 2000 three_contents_db).2 = content_not_found.
Proof.
  destruct (delete_content_is_soft three_contents_db content_A 2000)
    as (H1 & H2 & _ & _ & _ & _ & H3 & _).
  - apply (bool_decide_unpack (NoDup _)). by vm_compute.
  - simpl. by left.
  - reflexivity.
  - split; [exact H1|]. split; [exact H2|exact H3].
Defined.

(** The existence test of an individual export does not look at the
    active flag: a content row that was soft-deleted, which reads and edits
    no longer find, is still accepted for export. *)
Theorem soft_deleted_content_is_still_exported
    (d : DB) (c : Content.t) (deleted_at : datetime)
    (sys : ExportService.System) (request : ExportService.IndividualExportRequest)
    (new_id : UUID) (now : datetime) :
  NoDup (List.map Content.id (contents d)) ->
  c ∈ contents d ->
  Content.is_active c = true ->
  ExportService.contents (ExportService.store sys)
    = contents (delete_content (Content.id c) deleted_at d).2 ->
  ExportService.ind_content_id request = Content.id c ->
  ExportService.ind_template_id request = None ->
  get_content_by_id (Content.id c) (delete_content (Content.id c) deleted_at d).2
    = content_not_found /\
  exists response,
    (ExportService.export_individual request new_id now sys).1 = Ok response /\
    ExportService.export_id response = new_id.
Proof.
  intros Hnd Hin Ha Hsys Hreq Htpl.
  unfold delete_content in *. rewrite (active_content_unique _ c Hnd Hin), Ha in *.
  cbn [snd] in *.
  set (rows' := rows_update Content.id (deactivated deleted_at c) (contents d)) in *.
  assert (Hin' : deactivated deleted_at c ∈ rows') by (by apply (rows_update_in _ _ c)).
  assert (Hk : List.map Content.id rows' = List.map Content.id (contents d))
    by apply rows_update_keys.
  split.
  - unfold get_content_by_id, with_contents. cbn [contents]. fold rows'.
    change (Content.id c) with (Content.id (deactivated deleted_at c)).
    rewrite active_content_unique; [reflexivity|by rewrite Hk|exact Hin'].
  - unfold ExportService.export_individual. rewrite Hsys, Hreq, Htpl.
    unfold with_contents. cbn [contents]. fold rows'.
    change (Content.id c) with (Content.id (deactivated deleted_at c)).
    rewrite (rows_first_unique Content.id rows' _ ltac:(by rewrite Hk) Hin').
    eexists. split; reflexivity.
Qed.

End ContentRows.

(** ** Listing content rows *)

Section Listing.

Import ContentService Samples.

Lemma take_plus {A : Type} (a b : nat) (l : list A) :
  take (a + b) l = take a l ++ take b (drop a l).
Proof.
  revert l. induction a as [|a IH]; intros l; [reflexivity|].
  destruct l as [|x l]; simpl; [by destruct b|]. by rewrite IH.
Qed.

(** The slices of consecutive pages, put end to end. *)
Lemma slices_concat {A : Type} (n m : nat) (l : list A) :
  concat (List.map (fun k => take n (drop (k * n) l)) (seq 0 m)) = take (m * n) l.
Proof.
  induction m as [|m IH]; [reflexivity|].
  rewrite seq_S, List.map_app, concat_app, IH. simpl. rewrite app_nil_r.
  replace (n + m * n)%nat with (m * n + n)%nat by lia. by rewrite take_plus.
Qed.

Lemma ceil_div_covers total limit :
  (1 <= limit)%nat ->
  (total <= ceil_div total limit * limit)%nat /\
  (ceil_div total limit * limit < total + limit)%nat.
Proof.
  intros Hl. unfold ceil_div.
  pose proof (Nat.div_mod_eq (total + limit - 1) limit) as Hd.
  pose proof (Nat.mod_upper_bound (total + limit - 1) limit ltac:(lia)) as Hm.
  split; nia.
Qed.

Lemma page_offset k limit : ((S k - 1) * limit = k * limit)%nat.
Proof. f_equal. lia. Qed.

(** Pagination for a page size of at least 1 and a table below 2^53 rows:
    a page from 1 on holds at most [limit] items, all of them active rows
    passing the filters; the pages 1 to [pages], put end to end, are the filtered rows in
    table order, each once; later pages are empty; and [pages] is the least
    number of pages that holds them all. *)
Theorem get_contents_pages_cover
    (document_id : option UUID) (content_type : option ContentType)
    (limit : nat) (d : DB) :
  (1 <= limit)%nat ->
  Z.of_nat (length (contents d)) < 2 ^ 53 ->
  let all := List.filter (listed document_id content_type) (contents d) in
  let pages := lr_pages (get_contents document_id content_type 1 limit d) in
  (forall page, (1 <= page)%nat ->
     (length (lr_contents (get_contents document_id content_type page limit d))
        <= limit)%nat /\
     lr_total (get_contents document_id content_type page limit d) = length all /\
     lr_pages (get_contents document_id content_type page limit d) = pages) /\
  concat (List.map
            (fun k => lr_contents (get_contents document_id content_type (S k) limit d))
            (seq 0 pages))
    = List.map list_item all /\
  (forall page, (pages < page)%nat ->
     lr_contents (get_contents document_id content_type page limit d) = []) /\
  (length all <= pages * limit < length all + limit)%nat /\
  (forall c, c ∈ all <->
     c ∈ contents d /\ Content.is_active c = true /\
     (forall x, document_id = Some x -> Content.document_id c = x) /\
     (forall t, content_type = Some t -> Content.content_type c = t)).
Proof.
  intros Hl _ all pages.
  assert (Hpages : pages = ceil_div (length all) limit) by reflexivity.
  destruct (ceil_div_covers (length all) limit Hl) as [Hge Hlt].
  split; [|split; [|split; [|split]]].
  - intros page _. unfold get_contents. cbn [lr_contents lr_total lr_pages].
    fold all. split; [|by split].
    rewrite length_map, length_take. lia.
  - unfold get_contents. cbn [lr_contents]. fold all.
    transitivity (List.map list_item (take (pages * limit) all));
      [|by rewrite take_ge by lia].
    rewrite <- (slices_concat limit pages all), concat_map, List.map_map.
    f_equal. apply map_ext. intros k. by rewrite page_offset.
  - intros page Hp. unfold get_contents. cbn [lr_contents]. fold all.
    rewrite drop_ge; [by rewrite take_nil|]. nia.
  - lia.
  - intros c. unfold all, listed.
    rewrite list_elem_of_In, filter_In, <- list_elem_of_In.
    rewrite !andb_true_iff. split.
    + intros (Hin & (Ha & Hd) & Ht). split; [exact Hin|]. split; [exact Ha|]. split.
      * intros x ->. by apply bool_decide_eq_true in Hd.
      * intros t ->. by apply bool_decide_eq_true in Ht.
    + intros (Hin & Ha & Hd & Ht). split; [exact Hin|]. split; [split; [exact Ha|]|].
      * destruct document_id as [x|]; [|reflexivity].
        apply bool_decide_eq_true. by apply Hd.
      * destruct content_type as [t|]; [|reflexivity].
        apply bool_decide_eq_true. by apply Ht.
Qed.

Lemma get_contents_pages_cover_witness :
  lr_pages (get_contents None None 1 1 three_contents_db) = 2%nat /\
  concat (List.map (fun k => lr_contents (get_contents None None (S k) 1 three_contents_db))
            (seq 0 2))
    = List.map list_item [content_A; content_B].
Proof.
  destruct (get_contents_pages_cover None None 1 three_contents_db)
    as (_ & H & _); [lia|by vm_compute|].
  split; [reflexivity|exact H].
Defined.

End Listing.

(** ** A generation job from request to status *)

Section GenerationEndToEnd.

Import ContentService Samples.

Variable lower : string -> string.
Variable strip : string -> string.

Lemma outcome_succeeds env rs d g :
  document_has_text d g ->
  ai_service env = AI.register_all AI.init rs ->
  exists ai_content, outcome env d g = Succeeded ai_content.
Proof.
  intros (doc & text & Hdoc & Htext) Hs.
  unfold outcome, prompt_of, _build_prompt.
  change (Generation.document_id (picked_up env g)) with (Generation.document_id g).
  rewrite Hdoc, Htext.
  match goal with
  | |- context [answer_of env ?g1 ?pr] =>
      destruct (built_registry_answers env rs g1 pr Hs) as [ai Hai]; rewrite Hai
  end.
  eauto.
Qed.

Lemma no_results_before (generation_id : UUID) (rows : list Content.t) :
  (forall c, c ∈ rows -> Content.generation_id c ≠ generation_id) ->
  List.filter (fun c => bool_decide (Content.generation_id c = generation_id)) rows = [].
Proof.
  induction rows as [|c rows IH]; intros H; [reflexivity|]. simpl.
  rewrite bool_decide_eq_false_2 by (apply H; by left).
  apply IH. intros c' Hc'. apply H. by right.
Qed.

(** A request for a document that does not exist raises the 404 error and
    leaves the tables and the pending workers as they were. *)
Theorem generate_content_unknown_document
    (request : GenerateContentRequest) (new_id : UUID) (now : datetime) (sys : System) :
  (forall doc, doc ∈ documents (store sys) ->
     Document.id doc ≠ req_document_id request) ->
  generate_content request new_id now sys
    = (Raise (HTTPException 404 "Documento no encontrado"), sys).
Proof.
  intros Hnone. apply rows_first_None in Hnone.
  unfold generate_content. by rewrite Hnone.
Qed.

(** From request to status, for a document with text and a registry built
    by registrations: the request answers with the new job as STARTED and
    hands its worker to the event loop; before the worker runs the status
    shows STARTED, progress 0 and no result; after it has run the worker is
    pending no more and the status shows COMPLETED, progress 100, no error,
    the completion time, and as only result the content row of version 1 that
    holds the text the provider returned. *)
Theorem generation_request_to_completed_status
    (request : GenerateContentRequest) (new_id : UUID) (now : datetime)
    (sys : System) (env : Env) (rs : list AI.Registration)
    (doc : Document.t) (text : string) :
  rows_first Document.id (req_document_id request) (documents (store sys)) = Some doc ->
  Document.text_content doc = Some text ->
  new_id ∉ List.map Generation.id (generations (store sys)) ->
  (forall c, c ∈ contents (store sys) -> Content.generation_id c ≠ new_id) ->
  ai_service env = AI.register_all AI.init rs ->
  let created := generate_content request new_id now sys in
  let sys' := run_worker lower strip env new_id created.2 in
  (exists response, created.1 = Ok response /\
     generation_id response = new_id /\ resp_status response = STARTED /\
     resp_estimated_completion response = Some (now + 300)) /\
  new_id ∈ spawned created.2 /\
  (exists before, get_generation_status new_id (store created.2) = Ok before /\
     st_status before = STARTED /\ st_progress before = 0 /\ st_results before = []) /\
  (new_id ∉ spawned sys') /\
  (exists after ai_content c,
     get_generation_status new_id (store sys') = Ok after /\
     st_status after = COMPLETED /\ st_progress after = 100 /\
     st_error_message after = None /\ st_created_at after = now /\
     st_completed_at after = Some (at_end env) /\
     st_results after = [c] /\
     Content.version c = 1 /\ Content.is_active c = true /\
     Content.generation_id c = new_id /\
     Content.markdown_content c = ai_content /\
     outcome env (store created.2) (new_generation request new_id now)
       = Succeeded ai_content).
Proof.
  intros Hdoc Htext Hfresh Hnores Hs created sys'.
  set (g := new_generation request new_id now).
  assert (Hcreated : created
            = (Ok {| generation_id := new_id; resp_status := STARTED;
                     resp_estimated_completion := Some (now + 300);
                     message := "Generación iniciada. Use GET /api/v1/content/generation/{generation_id} para monitorear el progreso." |},
               {| store := {| documents := documents (store sys);
                              generations := generations (store sys) ++ [g];
                              contents := contents (store sys) |};
                  spawned := spawned sys ++ [new_id] |})).
  { unfold created, generate_content. by rewrite Hdoc. }
  assert (Hnone : rows_first Generation.id new_id (generations (store sys)) = None).
  { destruct (rows_first _ new_id _) eqn:E; [|reflexivity].
    destruct Hfresh. apply rows_first_is_Some. eauto. }
  assert (Hg : rows_first Generation.id new_id (generations (store created.2)) = Some g).
  { rewrite Hcreated. cbn [snd store generations].
    rewrite rows_first_app, Hnone. by rewrite bool_decide_eq_true_2. }
  assert (Hno : List.filter (fun c => bool_decide (Content.generation_id c = new_id))
                  (contents (store sys)) = []) by (by apply no_results_before).
  split; [rewrite Hcreated; eexists; by repeat split|].
  split; [rewrite Hcreated; cbn [snd spawned]; apply elem_of_app; right; by left|].
  split.
  { unfold get_generation_status. rewrite Hg. eexists. split; [reflexivity|].
    cbn [st_status st_progress st_results]. repeat split.
    rewrite Hcreated. cbn [snd store contents]. exact Hno. }
  split.
  { unfold sys', run_worker. cbn [spawned]. intros Hin.
    apply list_elem_of_filter in Hin as [Hne _]. by apply Hne. }
  assert (Htext' : document_has_text (store created.2) g).
  { exists doc, text. split; [|exact Htext]. rewrite Hcreated. exact Hdoc. }
  destruct (outcome_succeeds env rs (store created.2) g Htext' Hs) as [ai Ho].
  destruct (process_generation_run lower strip env new_id (store created.2) g Hg)
    as (Ht & _ & _).
  destruct (generations_after_run lower strip env new_id (store created.2) g Hg)
    as (g' & Hl & Hid & _ & Hgens).
  pose proof (process_generation_contents lower strip env new_id (store created.2) g Hg)
    as Hc.
  rewrite Ho in Hc. rewrite Ht, Ho in Hl. simpl in Hl. inversion Hl; subst g'. clear Hl.
  assert (Hrow : rows_first Generation.id new_id (generations (store sys'))
                 = Some (completed env
                           (Generation.set_progress 70
                              (Generation.set_progress 30 (picked_up env g))))).
  { unfold sys', run_worker. cbn [store]. rewrite Hgens.
    change new_id with (Generation.id (completed env
                           (Generation.set_progress 70
                              (Generation.set_progress 30 (picked_up env g))))) at 1.
    apply rows_update_first. cbn. rewrite Hg. eauto. }
  eexists _, ai, _. unfold get_generation_status. rewrite Hrow.
  split; [reflexivity|]. cbn [st_status st_progress st_error_message st_created_at
                               st_completed_at st_results].
  repeat (split; [reflexivity|]).
  split.
  { unfold sys', run_worker. cbn [store]. rewrite Hc.
    rewrite Hcreated at 1. cbn [snd store contents].
    rewrite List.filter_app, Hno. cbn [List.filter app new_content Content.generation_id].
    rewrite bool_decide_eq_true_2 by reflexivity. reflexivity. }
  repeat (split; [reflexivity|]). exact Ho.
Qed.

End GenerationEndToEnd.

(** ** Further properties of the export pipeline *)

Section ExportMore.

Import ExportService Samples.

Ltac run_export_body :=
  cbv beta iota zeta delta
    [_process_combined_export _process_individual_export run_export combined_body
     individual_body pickup complete export_handler mbind Run_bind assign db_commit
     self_export query_contents query_content write_file stat_size lift try_except
     db disk export written].

(** The run of the combined worker on an existing job. *)
Lemma combined_export_run env export_id sys job :
  rows_first ExportJob.id export_id (exports (store sys)) = Some job ->
  _process_combined_export env export_id sys
    = (after_run env sys job export_id (combined_filename env job) (combined_text sys job),
       expected_trace env job (combined_filename env job) (combined_text sys job)).
Proof.
  intros Hjob. run_export_body. rewrite Hjob. cbn [snd fst].
  match goal with
  | |- context [render_combined ?t ?e] =>
      change (render_combined t e) with (combined_text sys job)
  end.
  unfold after_run, expected_trace.
  destruct (combined_text sys job) as [text|e]; [|reflexivity].
  rewrite (lookup_insert_eq (files sys)). reflexivity.
Qed.

(** The run of the individual worker on an existing job with a content id. *)
Lemma individual_export_run env export_id sys job cid rest :
  rows_first ExportJob.id export_id (exports (store sys)) = Some job ->
  ExportJob.content_ids job = cid :: rest ->
  _process_individual_export env export_id sys
    = (after_run env sys job export_id (individual_filename env job cid)
         (individual_text sys job cid),
       expected_trace env job (individual_filename env job cid)
         (individual_text sys job cid)).
Proof.
  intros Hjob Hids. run_export_body. rewrite Hjob. cbn [snd fst].
  cbn [ExportJob.content_ids ExportJob.set_progress ExportJob.set_started_at
       ExportJob.set_status].
  rewrite Hids.
  match goal with
  | |- context [render_individual ?c ?e] =>
      change (render_individual c e) with (individual_text sys job cid)
  end.
  unfold after_run, expected_trace.
  destruct (individual_text sys job cid) as [text|e]; [|reflexivity].
  rewrite (lookup_insert_eq (files sys)). reflexivity.
Qed.

(** The job row after a run is the last version committed. *)
Lemma after_run_row env sys job export_id filename rendered :
  rows_first ExportJob.id export_id (exports (store sys)) = Some job ->
  rows_first ExportJob.id export_id
    (exports (store (after_run env sys job export_id filename rendered)))
    = Some match rendered with
           | Ok text => finished env job filename text
           | Raise e => failed_with env e (at_60 env job)
           end.
Proof.
  intros Hjob. destruct (rows_first_Some _ _ _ _ Hjob) as [_ Hid].
  unfold after_run, expected_trace. cbn [store exports foldl].
  rewrite !rows_update_twice by (by destruct rendered).
  set (final := match rendered with
                | Ok text => finished env job filename text
                | Raise e => failed_with env e (at_60 env job)
                end).
  assert (Hk : ExportJob.id final = export_id) by (by unfold final; destruct rendered).
  rewrite <- Hk at 1. apply rows_update_first. rewrite Hk, Hjob. eauto.
Qed.

Lemma after_run_other_rows env sys job export_id filename rendered other :
  rows_first ExportJob.id export_id (exports (store sys)) = Some job ->
  other ≠ export_id ->
  rows_first ExportJob.id other
    (exports (store (after_run env sys job export_id filename rendered)))
    = rows_first ExportJob.id other (exports (store sys)).
Proof.
  intros Hjob Hne. destruct (rows_first_Some _ _ _ _ Hjob) as [_ Hid].
  unfold after_run, expected_trace. cbn [store exports foldl].
  rewrite !rows_update_first_ne; [reflexivity|..]; try (cbn; congruence).
  destruct rendered; cbn; congruence.
Qed.

Lemma render_combined_supported text job :
  supported (ExportJob.format job) ->
  exists out, render_combined text job = Ok out.
Proof.
  unfold supported, render_combined. intros [H|[H|H]]; rewrite H; simpl; eauto.
Qed.

Lemma render_combined_unsupported text job :
  ~ supported (ExportJob.format job) ->
  render_combined text job
    = Raise (ValueError ("Formato no soportado: " +:+ ExportJob.format job)).
Proof.
  unfold supported, render_combined. intros H.
  destruct (decide (ExportJob.format job = "pdf")); [tauto|].
  destruct (decide (ExportJob.format job = "docx")); [tauto|].
  destruct (decide (ExportJob.format job = "latex")); [tauto|reflexivity].
Qed.

Lemma expected_trace_elem env job filename rendered e :
  e ∈ expected_trace env job filename rendered ->
  e = picked_up env job \/ e = ExportJob.set_progress 30 (picked_up env job) \/
  e = at_60 env job \/
  e = match rendered with
      | Ok text => finished env job filename text
      | Raise err => failed_with env err (at_60 env job)
      end.
Proof.
  unfold expected_trace. intros H.
  repeat (apply elem_of_cons in H as [->|H]; [tauto|]). by apply elem_of_nil in H.
Qed.

(** The combined worker on an existing job.  For a supported format it
    commits progress 10, 30, 60 and then COMPLETED with 100, writes the
    rendered text to the file named after the time stamp and the format, and
    fills the four artifact columns together, the size being the length of the
    file.  For any other format it ends FAILED at progress 60 with the
    unsupported-format message, writes no file and leaves the artifact columns
    as they were.  No version committed before COMPLETED has an artifact
    column changed, and the expiry time is never touched. *)
Theorem combined_export_outcome
    (env : Env) (export_id : UUID) (sys : System) (job : ExportJob.t) :
  rows_first ExportJob.id export_id (exports (store sys)) = Some job ->
  let run := _process_combined_export env export_id sys in
  let filename := combined_filename env job in
  (supported (ExportJob.format job) ->
   exists text final,
     combined_text sys job = Ok text /\
     checkpoints run.2
       = [(IN_PROGRESS, 10); (IN_PROGRESS, 30); (IN_PROGRESS, 60); (COMPLETED, 100)] /\
     files run.1 !! path_in_export_dir filename = Some text /\
     rows_first ExportJob.id export_id (exports (store run.1)) = Some final /\
     ExportJob.status final = COMPLETED /\
     artifact final
       = (Some filename, Some (path_in_export_dir filename),
          Some (Z.of_nat (String.length text)), Some (download_url_of job)) /\
     ExportJob.completed_at final = Some (at_end env)) /\
  (~ supported (ExportJob.format job) ->
   exists final,
     checkpoints run.2
       = [(IN_PROGRESS, 10); (IN_PROGRESS, 30); (IN_PROGRESS, 60); (FAILED, 60)] /\
     files run.1 = files sys /\
     rows_first ExportJob.id export_id (exports (store run.1)) = Some final /\
     ExportJob.status final = FAILED /\
     ExportJob.error_message final
       = Some ("Formato no soportado: " +:+ ExportJob.format job) /\
     artifact final = artifact job) /\
  (forall e, e ∈ run.2 -> ExportJob.status e ≠ COMPLETED -> artifact e = artifact job) /\
  (forall e, e ∈ run.2 -> ExportJob.expires_at e = ExportJob.expires_at job).
Proof.
  intros Hjob run filename.
  pose proof (combined_export_run env export_id sys job Hjob) as Hrun.
  fold run in Hrun. fold filename in Hrun. rewrite Hrun. cbn [fst snd].
  split; [|split; [|split]].
  - intros Hsup.
    destruct (render_combined_supported
                (_combine_contents
                   (rows_in Content.id (ExportJob.content_ids job) (contents (store sys)))
                   (ExportJob.export_settings job)) job Hsup) as [text Htext].
    fold (combined_text sys job) in Htext.
    exists text, (finished env job filename text).
    split; [exact Htext|]. rewrite Htext.
    split; [reflexivity|]. split; [apply lookup_insert_eq|].
    split; [by rewrite (after_run_row env sys job export_id filename (Ok text) Hjob)|].
    by repeat split.
  - intros Hun.
    pose proof (render_combined_unsupported
                  (_combine_contents
                     (rows_in Content.id (ExportJob.content_ids job) (contents (store sys)))
                     (ExportJob.export_settings job)) job Hun) as Htext.
    fold (combined_text sys job) in Htext. rewrite Htext.
    eexists. split; [reflexivity|]. split; [reflexivity|].
    split; [by rewrite (after_run_row env sys job export_id filename _ Hjob)|].
    by repeat split.
  - intros e He Hst. apply expected_trace_elem in He as [-> | [-> | [-> | ->]]]; try reflexivity.
    destruct (combined_text sys job); [by destruct Hst|reflexivity].
  - intros e He. apply expected_trace_elem in He as [-> | [-> | [-> | ->]]]; try reflexivity.
    by destruct (combined_text sys job).
Qed.

Lemma combined_export_outcome_witness :
  exists text final,
    combined_text (export_combined request_A_then_B 7%N 1000 table_B_then_A).2
      (ExportJob.new 7%N 1000 COMBINED None [1%N; 2%N] "latex" None 1180) = Ok text /\
    checkpoints
      (_process_combined_export export_env 7%N
         (export_combined request_A_then_B 7%N 1000 table_B_then_A).2).2
      = [(IN_PROGRESS, 10); (IN_PROGRESS, 30); (IN_PROGRESS, 60); (COMPLETED, 100)] /\
    ExportJob.status final = COMPLETED.
Proof.
  destruct (combined_export_outcome export_env 7%N
              (export_combined request_A_then_B 7%N 1000 table_B_then_A).2
              (ExportJob.new 7%N 1000 COMBINED None [1%N; 2%N] "latex" None 1180)
              eq_refl) as (Hsup & _).
  destruct Hsup as (text & final & H1 & H2 & _ & _ & H3 & _).
  - right. right. reflexivity.
  - exists text, final. by repeat split.
Defined.

Lemma render_individual_cases content job :
  (supported (ExportJob.format job) ->
   match content with
   | Some c => exists out, render_individual content job = Ok out /\
                 (ExportJob.format job = "docx" ->
                  out = _generate_docx_content c (ExportJob.export_settings job)) /\
                 (ExportJob.format job ≠ "docx" ->
                  out = _generate_pdf_content c (ExportJob.export_settings job))
   | None => render_individual content job
             = Raise (AttributeError "'NoneType' object has no attribute 'title'")
   end) /\
  (~ supported (ExportJob.format job) ->
   render_individual content job
     = Raise (ValueError ("Formato no soportado: " +:+ ExportJob.format job))).
Proof.
  unfold supported, render_individual. split.
  - unfold _generate_latex_content.
    intros [H|[H|H]]; rewrite H; simpl; destruct content; try reflexivity;
      eexists; (split; [reflexivity|]); split; intros Hf;
      try reflexivity; try discriminate; by destruct Hf.
  - intros H.
    destruct (decide (ExportJob.format job = "pdf")); [tauto|].
    destruct (decide (ExportJob.format job = "docx")); [tauto|].
    destruct (decide (ExportJob.format job = "latex")); [tauto|reflexivity].
Qed.

(** The individual worker on an existing job.  With a supported format and
    the content row present it ends COMPLETED with the file holding the
    rendering of that row (the HTML page for docx, the LaTeX document for pdf
    and latex); with the content row gone it ends FAILED at progress 60 with
    the message of the attribute error; with another format it ends FAILED
    with the unsupported-format message; a failed run writes no file. *)
Theorem individual_export_outcome
    (env : Env) (export_id : UUID) (sys : System) (job : ExportJob.t)
    (cid : UUID) (rest : list UUID) :
  rows_first ExportJob.id export_id (exports (store sys)) = Some job ->
  ExportJob.content_ids job = cid :: rest ->
  let run := _process_individual_export env export_id sys in
  let filename := individual_filename env job cid in
  (forall c, supported (ExportJob.format job) ->
     rows_first Content.id cid (contents (store sys)) = Some c ->
     exists text final,
       checkpoints run.2
         = [(IN_PROGRESS, 10); (IN_PROGRESS, 30); (IN_PROGRESS, 60); (COMPLETED, 100)] /\
       files run.1 !! path_in_export_dir filename = Some text /\
       (ExportJob.format job = "docx" ->
        text = _generate_docx_content c (ExportJob.export_settings job)) /\
       (ExportJob.format job ≠ "docx" ->
        text = _generate_pdf_content c (ExportJob.export_settings job)) /\
       rows_first ExportJob.id export_id (exports (store run.1)) = Some final /\
       ExportJob.status final = COMPLETED /\
       artifact final
         = (Some filename, Some (path_in_export_dir filename),
            Some (Z.of_nat (String.length text)), Some (download_url_of job))) /\
  (supported (ExportJob.format job) ->
   rows_first Content.id cid (contents (store sys)) = None ->
   exists final,
     checkpoints run.2
       = [(IN_PROGRESS, 10); (IN_PROGRESS, 30); (IN_PROGRESS, 60); (FAILED, 60)] /\
     files run.1 = files sys /\
     rows_first ExportJob.id export_id (exports (store run.1)) = Some final /\
     ExportJob.error_message final
       = Some "'NoneType' object has no attribute 'title'" /\
     artifact final = artifact job) /\
  (~ supported (ExportJob.format job) ->
   exists final,
     checkpoints run.2
       = [(IN_PROGRESS, 10); (IN_PROGRESS, 30); (IN_PROGRESS, 60); (FAILED, 60)] /\
     files run.1 = files sys /\
     rows_first ExportJob.id export_id (exports (store run.1)) = Some final /\
     ExportJob.error_message final
       = Some ("Formato no soportado: " +:+ ExportJob.format job) /\
     artifact final = artifact job).
Proof.
  intros Hjob Hids run filename.
  pose proof (individual_export_run env export_id sys job cid rest Hjob Hids) as Hrun.
  fold run in Hrun. fold filename in Hrun. rewrite Hrun. cbn [fst snd].
  unfold individual_text.
  destruct (render_individual_cases
              (rows_first Content.id cid (contents (store sys))) job) as [Hsup Hun].
  split; [|split].
  - intros c Hs Hc. specialize (Hsup Hs). rewrite Hc in *.
    destruct Hsup as (text & Htext & Hdocx & Hpdf). rewrite Htext.
    exists text, (finished env job filename text).
    split; [reflexivity|]. split; [apply lookup_insert_eq|].
    split; [exact Hdocx|]. split; [exact Hpdf|].
    split; [|by split].
    rewrite (after_run_row env sys job export_id filename (Ok text) Hjob). reflexivity.
  - intros Hs Hc. specialize (Hsup Hs). rewrite Hc in *. rewrite Hsup.
    eexists. split; [reflexivity|]. split; [reflexivity|].
    split; [by rewrite (after_run_row env sys job export_id filename _ Hjob)|].
    by split.
  - intros Hn. rewrite (Hun Hn).
    eexists. split; [reflexivity|]. split; [reflexivity|].
    split; [by rewrite (after_run_row env sys job export_id filename _ Hjob)|].
    by split.
Qed.

(** The combined export worker changes its own job row and its own file
    and nothing else: the content and template tables, every other job row and every
    other file are as before, and the worker is pending no more. *)
Theorem export_run_touches_only_its_job
    (env : Env) (export_id : UUID) (sys : System) (job : ExportJob.t) :
  rows_first ExportJob.id export_id (exports (store sys)) = Some job ->
  let run := (_process_combined_export env export_id sys).1 in
  contents (store run) = contents (store sys) /\
  templates (store run) = templates (store sys) /\
  List.map ExportJob.id (exports (store run))
    = List.map ExportJob.id (exports (store sys)) /\
  (forall other, other ≠ export_id ->
     rows_first ExportJob.id other (exports (store run))
       = rows_first ExportJob.id other (exports (store sys))) /\
  (forall path, path ≠ path_in_export_dir (combined_filename env job) ->
     files run !! path = files sys !! path) /\
  (forall kind, (kind, export_id) ∉ spawned run).
Proof.
  intros Hjob run. unfold run.
  rewrite (combined_export_run env export_id sys job Hjob). cbn [fst].
  split; [reflexivity|]. split; [reflexivity|]. split.
  { unfold after_run, expected_trace. cbn [store exports foldl].
    by rewrite !rows_update_keys. }
  split; [intros other Hne; by apply after_run_other_rows|]. split.
  - intros path Hne. unfold after_run. cbn [files].
    destruct (combined_text sys job); [|reflexivity]. by rewrite lookup_insert_ne.
  - intros kind Hin. unfold after_run in Hin. cbn [spawned] in Hin.
    apply list_elem_of_In, filter_In in Hin as [_ Hb].
    cbn in Hb. by rewrite bool_decide_eq_true_2 in Hb.
Qed.

Lemma individual_export_outcome_witness :
  exists text final,
    checkpoints
      (_process_individual_export export_env 8%N
         (export_individual request_A_pdf 8%N 1000 table_B_then_A).2).2
      = [(IN_PROGRESS, 10); (IN_PROGRESS, 30); (IN_PROGRESS, 60); (COMPLETED, 100)] /\
    text = _generate_pdf_content content_A (Some default_export_settings) /\
    ExportJob.status final = COMPLETED.
Proof.
  destruct (individual_export_outcome export_env 8%N
              (export_individual request_A_pdf 8%N 1000 table_B_then_A).2
              (ExportJob.new 8%N 1000 INDIVIDUAL None [1%N] "pdf"
                 (Some default_export_settings) 1120)
              1%N [] eq_refl eq_refl) as (Hok & _).
  destruct (Hok content_A) as (text & final & H1 & _ & _ & H2 & _ & H3 & _).
  - left. reflexivity.
  - reflexivity.
  - exists text, final. split; [exact H1|]. split; [|exact H3].
    apply H2. discriminate.
Defined.

Lemma export_run_touches_only_its_job_witness :
  contents (store exported_A_then_B) = [content_B; content_A] /\
  (forall kind, (kind, 7%N) ∉ spawned exported_A_then_B).
Proof.
  destruct (export_run_touches_only_its_job export_env 7%N
              (export_combined request_A_then_B 7%N 1000 table_B_then_A).2
              (ExportJob.new 7%N 1000 COMBINED None [1%N; 2%N] "latex" None 1180)
              eq_refl) as (H1 & _ & _ & _ & _ & H2).
  split; [exact H1|exact H2].
Defined.

Lemma path_in_export_dir_nonempty filename : path_in_export_dir filename ≠ "".
Proof. unfold path_in_export_dir, export_dir. discriminate. Qed.

(** An individual export from request to download, for an accepted request
    with a supported format and a fresh job id: the worker writes the
    rendering of the content row, and the path of that file is what
    [get_file_path] returns at every time up to 24 hours after the request;
    at any later time it raises the 410 error. *)
Theorem individual_export_then_download
    (request : IndividualExportRequest) (new_id : UUID) (now : datetime)
    (sys : System) (env : Env) (response : ExportResponse) :
  (export_individual request new_id now sys).1 = Ok response ->
  supported (ind_format request) ->
  new_id ∉ List.map ExportJob.id (exports (store sys)) ->
  let done := (_process_individual_export env new_id
                 (export_individual request new_id now sys).2).1 in
  let path := path_in_export_dir
                ("content_" +:+ uuid_str (ind_content_id request) +:+ "_" +:+ stamp env
                 +:+ "." +:+ ind_format request) in
  exists c text,
    rows_first Content.id (ind_content_id request) (contents (store sys)) = Some c /\
    files done !! path = Some text /\
    (ind_format request = "docx" ->
     text = _generate_docx_content c (ind_export_settings request)) /\
    (ind_format request ≠ "docx" ->
     text = _generate_pdf_content c (ind_export_settings request)) /\
    (forall t, t <= now + 86400 -> get_file_path new_id t done = Ok path) /\
    (forall t, now + 86400 < t ->
       get_file_path new_id t done = Raise (HTTPException 410 "Archivo expirado")).
Proof.
  intros Hok Hsup Hfresh done path.
  set (job := ExportJob.new new_id now INDIVIDUAL (ind_template_id request)
                [ind_content_id request] (ind_format request)
                (ind_export_settings request) (now + 120)).
  assert (Hcreated : exists c,
            rows_first Content.id (ind_content_id request) (contents (store sys)) = Some c /\
            (export_individual request new_id now sys).2 = add_and_spawn job sys).
  { unfold export_individual in *.
    destruct (rows_first Content.id _ _) as [c|]; [|discriminate].
    exists c. split; [reflexivity|].
    destruct (match ind_template_id request with Some _ => _ | None => _ end);
      [discriminate|reflexivity]. }
  destruct Hcreated as (c & Hc & Hsys1).
  assert (Hnone : rows_first ExportJob.id new_id (exports (store sys)) = None).
  { destruct (rows_first _ new_id _) eqn:E; [|reflexivity].
    destruct Hfresh. apply rows_first_is_Some. eauto. }
  assert (Hjob : rows_first ExportJob.id new_id
                   (exports (store (add_and_spawn job sys))) = Some job).
  { unfold add_and_spawn. cbn [store exports].
    rewrite rows_first_app, Hnone. by rewrite bool_decide_eq_true_2. }
  unfold done. rewrite Hsys1.
  rewrite (individual_export_run env new_id (add_and_spawn job sys) job
             (ind_content_id request) [] Hjob eq_refl). cbn [fst].
  destruct (render_individual_cases (Some c) job) as [Hcase _].
  destruct (Hcase Hsup) as (text & Htext & Hdocx & Hpdf).
  assert (Hit : individual_text (add_and_spawn job sys) job (ind_content_id request)
                = Ok text).
  { unfold individual_text, add_and_spawn. cbn [store contents]. by rewrite Hc. }
  rewrite Hit.
  exists c, text. split; [exact Hc|].
  change (individual_filename env job (ind_content_id request))
    with ("content_" +:+ uuid_str (ind_content_id request) +:+ "_" +:+ stamp env
          +:+ "." +:+ ind_format request).
  fold path.
  split; [apply lookup_insert_eq|]. split; [exact Hdocx|]. split; [exact Hpdf|].
  assert (Hexists : os_path_exists
                      (files (after_run env (add_and_spawn job sys) job new_id
                                ("content_" +:+ uuid_str (ind_content_id request) +:+ "_"
                                 +:+ stamp env +:+ "." +:+ ind_format request)
                                (Ok text))) path = true).
  { unfold os_path_exists. apply bool_decide_eq_true. split;
      [apply path_in_export_dir_nonempty|].
    unfold after_run. cbn [files]. rewrite lookup_insert_eq. eauto. }
  split.
  - intros t Ht. unfold get_file_path.
    rewrite (after_run_row env _ job new_id _ (Ok text) Hjob).
    cbn [ExportJob.status ExportJob.expires_at ExportJob.file_path finished
         ExportJob.set_completed_at ExportJob.set_progress ExportJob.set_status
         ExportJob.set_artifact].
    rewrite bool_decide_eq_false_2 by (intros H; by apply H).
    rewrite bool_decide_eq_false_2 by (cbn; lia).
    fold path. rewrite Hexists.
    rewrite bool_decide_eq_false_2 by apply path_in_export_dir_nonempty.
    reflexivity.
  - intros t Ht. unfold get_file_path.
    rewrite (after_run_row env _ job new_id _ (Ok text) Hjob).
    cbn [ExportJob.status ExportJob.expires_at ExportJob.file_path finished
         ExportJob.set_completed_at ExportJob.set_progress ExportJob.set_status
         ExportJob.set_artifact].
    rewrite bool_decide_eq_false_2 by (intros H; by apply H).
    by rewrite bool_decide_eq_true_2 by (cbn; lia).
Qed.

Lemma individual_export_then_download_witness :
  exists c text,
    rows_first Content.id 1%N [content_B; content_A] = Some c /\
    text = _generate_pdf_content c (Some default_export_settings) /\
    get_file_path 8%N 87400
      (_process_individual_export export_env 8%N
         (export_individual request_A_pdf 8%N 1000 table_B_then_A).2).1
      = Ok (path_in_export_dir
              ("content_" +:+ uuid_str 1%N +:+ "_" +:+ "20240101_000000" +:+ "." +:+ "pdf")).
Proof.
  destruct (individual_export_then_download request_A_pdf 8%N 1000 table_B_then_A
              export_env
              {| export_id := 8%N; resp_status := STARTED;
                 resp_estimated_completion := Some 1120 |})
    as (c & text & H1 & _ & _ & H2 & H3 & _).
  - reflexivity.
  - left. reflexivity.
  - simpl. apply not_elem_of_nil.
  - exists c, text. split; [exact H1|]. split; [apply H2; discriminate|].
    apply H3. lia.
Defined.

End ExportMore.

(** ** Export requests and downloads *)

Section ExportRequests.

Import ExportService Samples.


Lemma rows_in_perm (ids : list UUID) (rows : list Content.t) :
  NoDup (List.map Content.id rows) -> NoDup ids ->
  (forall cid, cid ∈ ids -> cid ∈ List.map Content.id rows) ->
  List.map Content.id (rows_in Content.id ids rows) ≡ₚ ids.
Proof.
  intros Hrows Hids Hall. apply NoDup_Permutation; [by apply rows_in_NoDup|exact Hids|].
  intros x. rewrite rows_in_keys. split; [by intros [? _]|]. intros Hx. split; auto.
Qed.

(** With content ids unique in the table, a combined export of a request
    the schema admits (at least one content id) is accepted exactly when the
    requested ids are pairwise distinct and all present.  An accepted request
    adds one job, STARTED at progress 0, holding the ids in the order
    requested and expiring 24 hours after the request, and hands its worker
    to the event loop. *)
Theorem export_combined_accepts_iff
    (request : CombinedExportRequest) (new_id : UUID) (now : datetime) (sys : System) :
  well_formed request ->
  NoDup (List.map Content.id (contents (store sys))) ->
  let r := export_combined request new_id now sys in
  let job := ExportJob.new new_id now COMBINED (comb_template_id request)
               (comb_content_ids request) (comb_format request)
               (comb_export_settings request) (now + 180) in
  ((exists response, r.1 = Ok response) <->
   NoDup (comb_content_ids request) /\
   (forall cid, cid ∈ comb_content_ids request ->
      cid ∈ List.map Content.id (contents (store sys)))) /\
  (forall response, r.1 = Ok response ->
     response = response_of job /\
     exports (store r.2) = exports (store sys) ++ [job] /\
     spawned r.2 = spawned sys ++ [(COMBINED, new_id)] /\
     ExportJob.content_ids job = comb_content_ids request /\
     ExportJob.status job = STARTED /\ ExportJob.progress job = 0 /\
     ExportJob.expires_at job = now + 86400).
Proof.
  intros _ Hrows r job.
  set (found := rows_in Content.id (comb_content_ids request) (contents (store sys))).
  assert (Hr : r = if bool_decide (length found ≠ length (comb_content_ids request))
                   then (Raise (HTTPException 404 "Algunos contenidos no fueron encontrados"),
                         sys)
                   else (Ok (response_of job), add_and_spawn job sys)) by reflexivity.
  assert (Hnd : NoDup (List.map Content.id found)) by (by apply rows_in_NoDup).
  assert (Hincl : incl (List.map Content.id found) (comb_content_ids request)).
  { intros x Hx. apply list_elem_of_In in Hx. apply rows_in_keys in Hx as [Hx _].
    by apply list_elem_of_In. }
  assert (Hiff : (exists response, r.1 = Ok response) <->
                 NoDup (comb_content_ids request) /\
                 (forall cid, cid ∈ comb_content_ids request ->
                    cid ∈ List.map Content.id (contents (store sys)))).
  { rewrite Hr. split.
    + intros [response Hresp]. case_bool_decide as Hlen; [discriminate|].
      assert (Hle : (length (comb_content_ids request)
                     <= length (List.map Content.id found))%nat)
        by (rewrite length_map; lia).
      apply NoDup_ListNoDup in Hnd. split.
      * apply NoDup_ListNoDup. by apply (NoDup_incl_NoDup Hnd Hle Hincl).
      * intros cid Hcid. apply list_elem_of_In in Hcid.
        apply (NoDup_length_incl Hnd Hle Hincl) in Hcid.
        apply list_elem_of_In in Hcid. by apply rows_in_keys in Hcid as [_ Hcid].
    + intros [Hids Hall].
      pose proof (Permutation_length (rows_in_perm _ _ Hrows Hids Hall)) as Hlen.
      rewrite length_map in Hlen. fold found in Hlen.
      rewrite bool_decide_eq_false_2 by lia. eauto. }
  split; [exact Hiff|].
  intros response Hresp. rewrite Hr in *.
  case_bool_decide; [discriminate|]. cbn [fst snd] in *.
  inversion Hresp. by repeat split.
Qed.

Lemma export_combined_accepts_iff_witness :
  exists response,
    (export_combined request_A_then_B 7%N 1000 table_B_then_A).1 = Ok response /\
    export_id response = 7%N /\
    List.map ExportJob.content_ids
      (exports (store (export_combined request_A_then_B 7%N 1000 table_B_then_A).2))
      = [[1%N; 2%N]].
Proof.
  destruct (export_combined_accepts_iff request_A_then_B 7%N 1000 table_B_then_A)
    as (Hiff & Hjob).
  - discriminate.
  - apply (bool_decide_unpack (NoDup _)). by vm_compute.
  - destruct (proj2 Hiff) as [response Hresp].
    { split; [apply (bool_decide_unpack (NoDup _)); by vm_compute|].
      intros cid Hcid. apply (bool_decide_unpack (cid ∈ _)).
      apply elem_of_cons in Hcid as [->|Hcid]; [by vm_compute|].
      apply list_elem_of_singleton in Hcid as ->. by vm_compute. }
    exists response. split; [exact Hresp|].
    destruct (Hjob response Hresp) as (-> & -> & _). by split.
Defined.



(** The template test of an individual export, once the content row is
    found: a template id that names no template raises the 404 error and
    creates nothing; without a template id, or with one that names a template
    (whatever its format and whether it is active or not), the request is
    accepted and adds one job for the content id alone, STARTED at progress 0
    and expiring 24 hours after the request. *)
Theorem export_individual_template_check
    (request : IndividualExportRequest) (new_id : UUID) (now : datetime)
    (sys : System) (c : Content.t) :
  rows_first Content.id (ind_content_id request) (contents (store sys)) = Some c ->
  let r := export_individual request new_id now sys in
  let job := ExportJob.new new_id now INDIVIDUAL (ind_template_id request)
               [ind_content_id request] (ind_format request)
               (ind_export_settings request) (now + 120) in
  (forall template_id, ind_template_id request = Some template_id ->
     (forall t, t ∈ templates (store sys) -> Template.id t ≠ template_id) ->
     r = (Raise (HTTPException 404 "Plantilla no encontrada"), sys)) /\
  ((ind_template_id request = None \/
    exists t, t ∈ templates (store sys) /\ ind_template_id request = Some (Template.id t)) ->
   r = (Ok (response_of job), add_and_spawn job sys) /\
   exports (store r.2) = exports (store sys) ++ [job] /\
   spawned r.2 = spawned sys ++ [(INDIVIDUAL, new_id)] /\
   ExportJob.content_ids job = [ind_content_id request] /\
   ExportJob.status job = STARTED /\ ExportJob.progress job = 0 /\
   ExportJob.expires_at job = now + 86400).
Proof.
  intros Hc r job. unfold r, export_individual. rewrite Hc. split.
  - intros template_id Ht Hnone. apply rows_first_None in Hnone.
    by rewrite Ht, Hnone.
  - intros Htpl.
    assert (Hr : (if match ind_template_id request with
                     | Some template_id =>
                         match rows_first Template.id template_id (templates (store sys)) with
                         | Some _ => false
                         | None => true
                         end
                     | None => false
                     end
                  then (Raise (HTTPException 404 "Plantilla no encontrada"), sys)
                  else (Ok (response_of job), add_and_spawn job sys))
                 = (Ok (response_of job), add_and_spawn job sys)).
    { destruct Htpl as [->|(t & Hin & ->)]; [reflexivity|].
      destruct (rows_first Template.id (Template.id t) (templates (store sys))) eqn:E;
        [reflexivity|].
      by destruct (proj1 (rows_first_None Template.id _ _) E t Hin). }
    fold job. rewrite Hr. by repeat split.
Qed.

Lemma export_individual_template_check_witness :
  export_individual request_missing_template 8%N 1000 table_B_then_A
    = (Raise (HTTPException 404 "Plantilla no encontrada"), table_B_then_A).
Proof.
  destruct (export_individual_template_check request_missing_template 8%N 1000
              table_B_then_A content_A eq_refl) as (H & _).
  apply (H 77%N eq_refl). intros t Ht. by apply elem_of_nil in Ht.
Defined.

End ExportRequests.

(** ** The download route *)

Section Download.

Import ExportService Samples.

Lemma split_on_cons sep s : exists l ls, Str.split_on sep s = l :: ls.
Proof.
  destruct s as [|c s]; simpl; [eauto|].
  destruct (Stdlib.Strings.Ascii.eqb c sep); [eauto|].
  destruct (Str.split_on sep s); eauto.
Qed.

Lemma split_on_app sep a b :
  Str.split_on sep (a +:+ String sep b) = Str.split_on sep a ++ Str.split_on sep b.
Proof.
  induction a as [|c a IH].
  - change ("" +:+ String sep b) with (String sep b). simpl.
    by rewrite Stdlib.Strings.Ascii.eqb_refl.
  - rewrite append_cons. simpl. rewrite IH.
    destruct (Stdlib.Strings.Ascii.eqb c sep); [reflexivity|].
    by destruct (split_on_cons sep a) as (l & ls & ->).
Qed.

Lemma split_on_without sep s :
  Str.has_char sep s = false -> Str.split_on sep s = [s].
Proof.
  induction s as [|c s IH]; [reflexivity|]. simpl. intros H.
  apply orb_false_iff in H as [Hc Hs]. by rewrite Hc, (IH Hs).
Qed.

Lemma last_app_nonempty {A : Type} (l1 l2 : list A) (d : A) :
  l2 ≠ [] -> List.last (l1 ++ l2) d = List.last l2 d.
Proof.
  intros Hne. induction l1 as [|x l1 IH]; [reflexivity|].
  simpl. rewrite IH. destruct (l1 ++ l2) eqn:E; [|reflexivity].
  apply app_eq_nil in E as [_ E]. by destruct Hne.
Qed.

(** The extension the route reads off a file name that ends with a dot and
    a format without dots is that format. *)
Lemma last_piece_extension name format :
  Str.has_char Str.dot format = false ->
  Str.last_piece Str.dot (name +:+ "." +:+ format) = format.
Proof.
  intros H. unfold Str.last_piece.
  change ("." +:+ format) with (String Str.dot format).
  rewrite split_on_app, last_app_nonempty.
  - by rewrite (split_on_without Str.dot format H).
  - by rewrite (split_on_without Str.dot format H).
Qed.

Lemma combined_filename_nonempty env job : combined_filename env job ≠ "".
Proof. unfold combined_filename. discriminate. Qed.

Lemma supported_has_no_dot format :
  supported format -> Str.has_char Str.dot format = false.
Proof. intros [->|[->| ->]]; reflexivity. Qed.

(** Downloading a completed combined export: up to the expiry time of the
    job the route answers with the path and name of the file the worker
    wrote and the media type its table gives the format (application/pdf for
    pdf, the Word type for docx, text/plain for latex); after the expiry time
    the 410 error of the service passes through. *)
Theorem download_media_type_follows_format
    (env : Env) (export_id : UUID) (sys : System) (job : ExportJob.t) :
  rows_first ExportJob.id export_id (exports (store sys)) = Some job ->
  supported (ExportJob.format job) ->
  let done := (_process_combined_export env export_id sys).1 in
  let filename := combined_filename env job in
  (forall t, t <= ExportJob.expires_at job ->
     download_exported_file export_id t done
       = Ok {| fr_path := path_in_export_dir filename;
               fr_filename := Some filename;
               fr_media_type := content_type_of (ExportJob.format job);
               fr_content_disposition :=
                 "attachment; filename=" +:+ dq +:+ filename +:+ dq |}) /\
  (forall t, ExportJob.expires_at job < t ->
     download_exported_file export_id t done
       = Raise (HTTPException 410 "Archivo expirado")) /\
  (ExportJob.format job = "pdf" ->
   content_type_of (ExportJob.format job) = "application/pdf") /\
  (ExportJob.format job = "docx" ->
   content_type_of (ExportJob.format job)
     = "application/vnd.openxmlformats-officedocument.wordprocessingml.document") /\
  (ExportJob.format job = "latex" ->
   content_type_of (ExportJob.format job) = "text/plain").
Proof.
  intros Hjob Hsup done filename.
  destruct (render_combined_supported
              (_combine_contents
                 (rows_in Content.id (ExportJob.content_ids job) (contents (store sys)))
                 (ExportJob.export_settings job)) job Hsup) as [text Htext].
  fold (combined_text sys job) in Htext.
  assert (Hdone : done = after_run env sys job export_id filename (Ok text)).
  { unfold done. rewrite (combined_export_run env export_id sys job Hjob).
    cbn [fst]. by rewrite Htext. }
  assert (Hrow : rows_first ExportJob.id export_id (exports (store done))
                 = Some (finished env job filename text)).
  { rewrite Hdone. by rewrite (after_run_row env sys job export_id filename (Ok text) Hjob). }
  assert (Hexists : os_path_exists (files done) (path_in_export_dir filename) = true).
  { unfold os_path_exists. apply bool_decide_eq_true.
    split; [apply path_in_export_dir_nonempty|].
    rewrite Hdone. unfold after_run. cbn [files]. rewrite lookup_insert_eq. eauto. }
  assert (Hext : file_extension_of (Some filename) = ExportJob.format job).
  { unfold file_extension_of.
    destruct (decide (filename = "")) as [He|_];
      [by destruct (combined_filename_nonempty env job)|].
    unfold filename, combined_filename. rewrite <- string_append_assoc.
    apply last_piece_extension. by apply supported_has_no_dot. }
  split; [|split; [|split; [|split]]].
  - intros t Ht. unfold download_exported_file, get_file_path, get_export_status.
    rewrite Hrow.
    cbn [ExportJob.status ExportJob.expires_at ExportJob.file_path ExportJob.filename
         finished ExportJob.set_completed_at ExportJob.set_progress ExportJob.set_status
         ExportJob.set_artifact st_filename].
    rewrite bool_decide_eq_false_2 by (intros H; by apply H).
    rewrite bool_decide_eq_false_2 by (cbn; lia).
    rewrite Hexists.
    rewrite bool_decide_eq_false_2 by apply path_in_export_dir_nonempty.
    cbn [negb orb]. by rewrite Hext.
  - intros t Ht. unfold download_exported_file, get_file_path. rewrite Hrow.
    cbn [ExportJob.status ExportJob.expires_at finished ExportJob.set_completed_at
         ExportJob.set_progress ExportJob.set_status ExportJob.set_artifact].
    rewrite bool_decide_eq_false_2 by (intros H; by apply H).
    by rewrite bool_decide_eq_true_2 by (cbn; lia).
  - by intros ->.
  - by intros ->.
  - by intros ->.
Qed.

Lemma download_media_type_follows_format_witness :
  download_exported_file 7%N 2000 exported_A_then_B
    = Ok {| fr_path := "exports/combined_20240101_000000.latex";
            fr_filename := Some "combined_20240101_000000.latex";
            fr_media_type := "text/plain";
            fr_content_disposition :=
              "attachment; filename=" +:+ dq +:+ "combined_20240101_000000.latex" +:+ dq |}.
Proof.
  destruct (download_media_type_follows_format export_env 7%N
              (export_combined request_A_then_B 7%N 1000 table_B_then_A).2
              (ExportJob.new 7%N 1000 COMBINED None [1%N; 2%N] "latex" None 1180)
              eq_refl) as (H & _).
  - right. right. reflexivity.
  - apply (H 2000). by vm_compute.
Defined.

End Download.

(** ** Scenarios of the generation and content services *)

Section ServiceScenarios.

Import ContentService Samples.

Lemma generation_run_adds_one_content_witness :
  exists c,
    contents (_process_generation Str.ascii_lower Str.ascii_strip sample_env 3%N
                sample_db).1 = [c] /\
    Content.id c = 4%N /\ Content.generation_id c = 3%N /\
    Content.document_id c = 5%N /\ Content.version c = 1 /\
    Content.is_active c = true /\
    Content.title c = "Sesión de Clase Generada por IA".
Proof.
  destruct (generation_run_adds_one_content Str.ascii_lower Str.ascii_strip
              sample_env 3%N sample_db (new_generation sample_request 3%N 1000)
              eq_refl) as (_ & _ & H).
  assert (Ho : outcome sample_env sample_db (new_generation sample_request 3%N 1000)
               = Succeeded (AI.groq_document "mixtral-8x7b-32768"))
    by (vm_compute; reflexivity).
  rewrite Ho in H.
  destruct H as (c & Hc & Hid & Hg & Hd & _ & Hv & Ha & _ & Ht & _).
  exists c. repeat split; assumption.
Defined.

Lemma generation_completes_iff_document_has_text_witness :
  exists g',
    rows_first Generation.id 3%N
      (generations (_process_generation Str.ascii_lower Str.ascii_strip sample_env 3%N
                      sample_db).1) = Some g' /\
    Generation.status g' = COMPLETED.
Proof.
  destruct (generation_completes_iff_document_has_text Str.ascii_lower Str.ascii_strip
              sample_env groq_primary 3%N sample_db
              (new_generation sample_request 3%N 1000) eq_refl eq_refl)
    as (g' & _ & Hrow & Hiff & _).
  exists g'. split; [exact Hrow|].
  apply Hiff. exists sample_document, "Unidad 1". split; reflexivity.
Defined.

Lemma soft_deleted_content_is_still_exported_witness :
  get_content_by_id 1%N (delete_content 1%N 960 three_contents_db).2
    = content_not_found /\
  exists response,
    (ExportService.export_individual request_A_pdf 8%N 1000 deleted_A_system).1
      = Ok response /\
    ExportService.export_id response = 8%N.
Proof.
  apply (soft_deleted_content_is_still_exported three_contents_db content_A 960
           deleted_A_system request_A_pdf 8%N 1000);
    first [reflexivity | by left
          | apply (bool_decide_unpack (NoDup _)); by vm_compute].
Defined.

Lemma generate_content_unknown_document_witness :
  generate_content request_unknown_document 3%N 1000 sample_system
    = (Raise (HTTPException 404 "Documento no encontrado"), sample_system).
Proof.
  apply generate_content_unknown_document.
  intros doc Hin. apply list_elem_of_singleton in Hin. subst doc. discriminate.
Defined.

Lemma generation_request_to_completed_status_witness :
  exists after,
    get_generation_status 3%N
      (store (run_worker Str.ascii_lower Str.ascii_strip sample_env 3%N
                (generate_content sample_request 3%N 1000 sample_system).2))
      = Ok after /\
    st_status after = COMPLETED /\ st_progress after = 100 /\
    length (st_results after) = 1%nat.
Proof.
  destruct (generation_request_to_completed_status Str.ascii_lower Str.ascii_strip
              sample_request 3%N 1000 sample_system sample_env groq_primary
              sample_document "Unidad 1" eq_refl eq_refl)
    as (_ & _ & _ & _ & after & ai & c & Hs & Hst & Hp & _ & _ & _ & Hr & _).
  - intros Hin. inversion Hin.
  - intros c Hin. inversion Hin.
  - reflexivity.
  - exists after. rewrite Hr. by repeat split.
Defined.

Lemma initialize_ai_service_registry_witness :
  AI.generate_content (_initialize_ai_service no_keys) "p" (Some AI.GROQ) sample_kwargs
    = (Ok AI.demo_document, []).
Proof.
  destruct (initialize_ai_service_registry no_keys) as (_ & _ & _ & H).
  apply H. intros p. by destruct p.
Defined.

Lemma dispatch_invokes_chain_in_order_witness :
  AI.invoked (AI.generate_content failing_primary_registry "p" (Some AI.GROQ)
                sample_kwargs).2 = [AI.GROQ].
Proof.
  destruct (dispatch_invokes_chain_in_order failing_primary_registry "p" sample_kwargs)
    as (_ & _ & H).
  apply H. by eexists.
Defined.

End ServiceScenarios.
